(** * PILA payment dates: Colombian holidays, business days and NIT deadlines

    Shallow embedding of [lib/colombia-holidays.ts] and of
    [lib/pila-utils.ts].

    A JavaScript [Date] is modelled by its time value: the number of
    milliseconds of local time since the local epoch (1970-01-01T00:00).
    The local time zone is taken to have a fixed offset from UTC (as UTC
    itself, or Colombia's UTC-5), so that the local fields of a date are the
    ECMAScript day/year/month functions applied to that number.  Time values
    are unbounded integers: the clipping of ECMAScript time values to
    +-8.64e15 ms is not modelled.  Numbers are integers, strings are
    sequences of one-byte characters, and the wall clock is read once for a
    whole call of the payment calculator. *)

From Stdlib Require Import ZArith List Lia Bool String Ascii.
From Stdlib Require Import Sorting.Sorted Sorting.Permutation.
From Stdlib Require Import DecimalString Decimal DecimalZ.
Import ListNotations.

Local Open Scope Z_scope.

(** ** ECMAScript dates *)

Module JSDate.

Definition Date := Z.

Definition msPerDay : Z := 86400000.

Definition Day (t : Date) : Z := t / msPerDay.
Definition TimeWithinDay (t : Date) : Z := t mod msPerDay.

(** Day number of the first day of year [y] (ECMAScript DayFromYear). *)
Definition DayFromYear (y : Z) : Z :=
  365 * (y - 1970) + (y - 1969) / 4 - (y - 1901) / 100 + (y - 1601) / 400.

Definition InLeapYear (y : Z) : bool :=
  ((y mod 4 =? 0) && negb (y mod 100 =? 0)) || (y mod 400 =? 0).

(** ECMAScript YearFromTime: the largest [y] with [DayFromYear y <= n].
    Computed from the mean year length (146097 days in 400 years) and one
    correction step; [YearFromDay_spec] shows it is that largest year. *)
Definition YearFromDay (n : Z) : Z :=
  let g := 1970 + (400 * n) / 146097 in
  if n <? DayFromYear g then g - 1
  else if DayFromYear (g + 1) <=? n then g + 1
  else g.

Definition DayWithinYear (n : Z) : Z := n - DayFromYear (YearFromDay n).

(** Number of days of the year before month [m] (0-based; 12 = year end). *)
Definition monthStart (m : Z) (leap : bool) : Z :=
  let l := if leap then 1 else 0 in
  if m <=? 0 then 0
  else if m =? 1 then 31
  else if m =? 2 then 59 + l
  else if m =? 3 then 90 + l
  else if m =? 4 then 120 + l
  else if m =? 5 then 151 + l
  else if m =? 6 then 181 + l
  else if m =? 7 then 212 + l
  else if m =? 8 then 243 + l
  else if m =? 9 then 273 + l
  else if m =? 10 then 304 + l
  else if m =? 11 then 334 + l
  else 365 + l.

(** ECMAScript MonthFromTime, as a function of the day within the year. *)
Definition monthOfYearDay (d : Z) (leap : bool) : Z :=
  let l := if leap then 1 else 0 in
  if d <? 31 then 0
  else if d <? 59 + l then 1
  else if d <? 90 + l then 2
  else if d <? 120 + l then 3
  else if d <? 151 + l then 4
  else if d <? 181 + l then 5
  else if d <? 212 + l then 6
  else if d <? 243 + l then 7
  else if d <? 273 + l then 8
  else if d <? 304 + l then 9
  else if d <? 334 + l then 10
  else 11.

Definition MonthFromDay (n : Z) : Z :=
  monthOfYearDay (DayWithinYear n) (InLeapYear (YearFromDay n)).

Definition DateFromDay (n : Z) : Z :=
  DayWithinYear n - monthStart (MonthFromDay n) (InLeapYear (YearFromDay n)) + 1.

Definition WeekDay (n : Z) : Z := (n + 4) mod 7.

(** ECMAScript MakeDay for integral arguments. *)
Definition MakeDay (year month date : Z) : Z :=
  let ym := year + month / 12 in
  let mn := month mod 12 in
  DayFromYear ym + monthStart mn (InLeapYear ym) + date - 1.

(** [date.getFullYear()], [getMonth()], [getDate()], [getDay()], [getTime()]. *)
Definition getFullYear (t : Date) : Z := YearFromDay (Day t).
Definition getMonth (t : Date) : Z := MonthFromDay (Day t).
Definition getDate (t : Date) : Z := DateFromDay (Day t).
Definition getDay (t : Date) : Z := WeekDay (Day t).
Definition getTime (t : Date) : Z := t.

(** [new Date(year, month, day)]: a year from 0 to 99 is read as 1900 + year;
    the time of day is midnight. *)
Definition fullYearOf (year : Z) : Z :=
  if (0 <=? year) && (year <=? 99) then 1900 + year else year.

Definition newDate (year month day : Z) : Date :=
  MakeDay (fullYearOf year) month day * msPerDay.

(** [date.setDate(d)]: the day of the month is replaced, the time of day kept. *)
Definition setDate (t : Date) (d : Z) : Date :=
  MakeDay (getFullYear t) (getMonth t) d * msPerDay + TimeWithinDay t.

(** [date.setHours(0, 0, 0, 0)]. *)
Definition setHours0 (t : Date) : Date := Day t * msPerDay.

(** A date moved forward by [k] days. *)
Definition addDays (t : Date) (k : Z) : Date := t + k * msPerDay.

End JSDate.
Import JSDate.

(** ** The holiday engine ([lib/colombia-holidays.ts]) *)

Inductive HolidayType := fixed | easter | movable.

Record Holiday := mkHoliday {
  date : Date;
  name : string;
  type : HolidayType
}.

(** [calculateEaster]: [%] is the truncating remainder of JavaScript,
    [Math.floor(x / k)] the floor of the quotient. *)
Definition calculateEaster (year : Z) : Date :=
  let a := Z.rem year 19 in
  let b := year / 100 in
  let c := Z.rem year 100 in
  let d := b / 4 in
  let e := Z.rem b 4 in
  let f := (b + 8) / 25 in
  let g := (b - f + 1) / 3 in
  let h := Z.rem (19 * a + b - d - g + 15) 30 in
  let i := c / 4 in
  let k := Z.rem c 4 in
  let l := Z.rem (32 + 2 * e + 2 * i - h - k) 7 in
  let m := (a + 11 * h + 22 * l) / 451 in
  let month := (h + l - 7 * m + 114) / 31 - 1 in
  let day := Z.rem (h + l - 7 * m + 114) 31 + 1 in
  newDate year month day.

(** [moveToMonday] changes the date it is given and returns it; every call
    in the engine passes a date object made for that call, so the returned
    value is all that is observed. *)
Definition moveToMonday (date : Date) : Date :=
  let dayOfWeek := getDay date in
  if dayOfWeek =? 0 then setDate date (getDate date + 1)
  else if negb (dayOfWeek =? 1) then setDate date (getDate date + (8 - dayOfWeek))
  else date.

(** [Array.prototype.sort] with a comparison function is a stable sort:
    elements that compare equal keep their order.  Here it is an insertion
    sort from the right, an element going in front of the first element after
    it that it does not compare above. *)
Section Sort.

Context {A : Type} (cmp : A -> A -> Z).

Fixpoint insert_sorted (x : A) (l : list A) : list A :=
  match l with
  | [] => [x]
  | y :: l' => if cmp x y <=? 0 then x :: y :: l' else y :: insert_sorted x l'
  end.

Fixpoint array_sort (l : list A) : list A :=
  match l with
  | [] => []
  | x :: l' => insert_sorted x (array_sort l')
  end.

End Sort.

(** [new Date(d)]: a copy of [d]. *)
Definition copyDate (d : Date) : Date := d.

(** The nineteen holidays in the order in which they are pushed. *)
Definition pushedHolidays (year : Z) : list Holiday :=
  let easterDay := calculateEaster year in
  let jueveSanto := setDate (copyDate easterDay) (getDate easterDay - 3) in
  let viernesSanto := setDate (copyDate easterDay) (getDate easterDay - 2) in
  let ascension := setDate (copyDate easterDay) (getDate easterDay + 39) in
  let corpusChristi := setDate (copyDate easterDay) (getDate easterDay + 60) in
  let sagradoCorazon := setDate (copyDate easterDay) (getDate easterDay + 68) in
  [ mkHoliday (newDate year 0 1) "Año Nuevo" fixed;
    mkHoliday (newDate year 4 1) "Día del Trabajo" fixed;
    mkHoliday (newDate year 6 20) "Día de la Independencia" fixed;
    mkHoliday (newDate year 7 7) "Batalla de Boyacá" fixed;
    mkHoliday (newDate year 11 8) "Inmaculada Concepción" fixed;
    mkHoliday (newDate year 11 25) "Navidad" fixed;
    mkHoliday (moveToMonday (newDate year 0 6)) "Reyes Magos" movable;
    mkHoliday (moveToMonday (newDate year 2 19)) "San José" movable;
    mkHoliday (moveToMonday (newDate year 5 29)) "San Pedro y San Pablo" movable;
    mkHoliday (moveToMonday (newDate year 7 15)) "Asunción de la Virgen" movable;
    mkHoliday (moveToMonday (newDate year 9 12)) "Día de la Raza" movable;
    mkHoliday (moveToMonday (newDate year 10 1)) "Todos los Santos" movable;
    mkHoliday (moveToMonday (newDate year 10 11)) "Independencia de Cartagena" movable;
    mkHoliday jueveSanto "Jueves Santo" easter;
    mkHoliday viernesSanto "Viernes Santo" easter;
    mkHoliday (copyDate easterDay) "Domingo de Pascua" easter;
    mkHoliday (moveToMonday ascension) "Ascensión del Señor" easter;
    mkHoliday (moveToMonday corpusChristi) "Corpus Christi" easter;
    mkHoliday (moveToMonday sagradoCorazon) "Sagrado Corazón" easter ].

Definition getColombianHolidays (year : Z) : list Holiday :=
  array_sort (fun a b => getTime (date a) - getTime (date b))
             (pushedHolidays year).

(** [isHoliday]: some holiday of the date's year has its year, month and day. *)
Definition isHoliday (d : Date) : bool :=
  let year := getFullYear d in
  let holidays := getColombianHolidays year in
  existsb (fun holiday =>
             (getFullYear (date holiday) =? getFullYear d)
             && (getMonth (date holiday) =? getMonth d)
             && (getDate (date holiday) =? getDate d))
          holidays.

Definition isBusinessDay (d : Date) : bool :=
  let dayOfWeek := getDay d in
  if (dayOfWeek =? 0) || (dayOfWeek =? 6) then false
  else if isHoliday d then false
  else true.

(** *** Loops over days

    The three loops of the business-day calendar have the shape
    [while (current <= lastDay) { ...; current.setDate(current.getDate() + 1) }].
    Each is written by recursion on the number of days left, [daysLeft], and
    tests the guard of the loop at every turn; when no day is left the guard
    is false ([daysLeft_zero]), so the recursion ends where the loop does
    ([countLoop_extra], [nthLoop_extra], [businessDaysLoop_extra]). *)
Definition daysLeft (lastDay current : Date) : nat :=
  Z.to_nat ((lastDay - current) / msPerDay + 1).

(** [countBusinessDays]. *)
Fixpoint countLoop (left : nat) (endDate current : Date) (count : Z) : Z :=
  match left with
  | O => count
  | S left' =>
      if current <=? endDate then
        countLoop left' endDate (setDate current (getDate current + 1))
                  (if isBusinessDay current then count + 1 else count)
      else count
  end.

Definition countBusinessDays (startDate endDate : Date) : Z :=
  let current := copyDate startDate in
  countLoop (daysLeft endDate current) endDate current 0.

(** [getNthBusinessDayOfMonth]; [None] is [null]. *)
Fixpoint nthLoop (left : nat) (lastDay current : Date) (businessDayCount n : Z)
  : option Date :=
  match left with
  | O => None
  | S left' =>
      if current <=? lastDay then
        if isBusinessDay current then
          if businessDayCount + 1 =? n then Some (copyDate current)
          else nthLoop left' lastDay (setDate current (getDate current + 1))
                       (businessDayCount + 1) n
        else nthLoop left' lastDay (setDate current (getDate current + 1))
                     businessDayCount n
      else None
  end.

Definition getNthBusinessDayOfMonth (year month n : Z) : option Date :=
  let firstDay := newDate year month 1 in
  let lastDay := newDate year (month + 1) 0 in
  let current := copyDate firstDay in
  nthLoop (daysLeft lastDay current) lastDay current 0 n.

(** [getBusinessDaysOfMonth]. *)
Fixpoint businessDaysLoop (left : nat) (lastDay current : Date)
  (businessDays : list Date) : list Date :=
  match left with
  | O => businessDays
  | S left' =>
      if current <=? lastDay then
        businessDaysLoop left' lastDay (setDate current (getDate current + 1))
          (if isBusinessDay current then businessDays ++ [copyDate current]
           else businessDays)
      else businessDays
  end.

Definition getBusinessDaysOfMonth (year month : Z) : list Date :=
  let firstDay := newDate year month 1 in
  let lastDay := newDate year (month + 1) 0 in
  let current := copyDate firstDay in
  businessDaysLoop (daysLeft lastDay current) lastDay current [].

(** [LIMITE_SEG_SOCIAL], in the order of the source. *)
Record LimiteSegSocial := mkLimite {
  DIAS_HABILES : Z;
  DIGITOS_NIT : string
}.

Definition LIMITE_SEG_SOCIAL : list LimiteSegSocial :=
  [ mkLimite 5 "22"; mkLimite 5 "23";
    mkLimite 2 "00"; mkLimite 2 "01"; mkLimite 2 "02"; mkLimite 2 "03";
    mkLimite 2 "04"; mkLimite 2 "05"; mkLimite 2 "06"; mkLimite 2 "07";
    mkLimite 3 "08"; mkLimite 3 "09"; mkLimite 3 "10"; mkLimite 3 "11";
    mkLimite 3 "12"; mkLimite 3 "13"; mkLimite 3 "14";
    mkLimite 4 "15"; mkLimite 4 "16"; mkLimite 4 "17"; mkLimite 4 "18";
    mkLimite 4 "19"; mkLimite 4 "20"; mkLimite 4 "21";
    mkLimite 5 "24"; mkLimite 5 "25"; mkLimite 5 "26"; mkLimite 5 "27";
    mkLimite 5 "28";
    mkLimite 6 "29"; mkLimite 6 "30"; mkLimite 6 "31"; mkLimite 6 "32";
    mkLimite 6 "33"; mkLimite 6 "34"; mkLimite 6 "35";
    mkLimite 7 "36"; mkLimite 7 "37"; mkLimite 7 "38"; mkLimite 7 "39";
    mkLimite 7 "40"; mkLimite 7 "41"; mkLimite 7 "42";
    mkLimite 8 "43"; mkLimite 8 "44"; mkLimite 8 "45"; mkLimite 8 "46";
    mkLimite 8 "47"; mkLimite 8 "48"; mkLimite 8 "49";
    mkLimite 9 "50"; mkLimite 9 "51"; mkLimite 9 "52"; mkLimite 9 "53";
    mkLimite 9 "54"; mkLimite 9 "55"; mkLimite 9 "56";
    mkLimite 10 "57"; mkLimite 10 "58"; mkLimite 10 "59"; mkLimite 10 "60";
    mkLimite 10 "61"; mkLimite 10 "62"; mkLimite 10 "63";
    mkLimite 11 "64"; mkLimite 11 "65"; mkLimite 11 "66"; mkLimite 11 "67";
    mkLimite 11 "68"; mkLimite 11 "69";
    mkLimite 12 "70"; mkLimite 12 "71"; mkLimite 12 "72"; mkLimite 12 "73";
    mkLimite 12 "74"; mkLimite 12 "75";
    mkLimite 13 "76"; mkLimite 13 "77"; mkLimite 13 "78"; mkLimite 13 "79";
    mkLimite 13 "80"; mkLimite 13 "81";
    mkLimite 14 "82"; mkLimite 14 "83"; mkLimite 14 "84"; mkLimite 14 "85";
    mkLimite 14 "86"; mkLimite 14 "87";
    mkLimite 15 "88"; mkLimite 15 "89"; mkLimite 15 "90"; mkLimite 15 "91";
    mkLimite 15 "92"; mkLimite 15 "93";
    mkLimite 16 "94"; mkLimite 16 "95"; mkLimite 16 "96"; mkLimite 16 "97";
    mkLimite 16 "98"; mkLimite 16 "99" ].

(** ** Strings of the payment calculator

    [String(n)] and [n.toString()] of an integer are its decimal digits, with
    a minus sign when negative. *)
Definition toString (z : Z) : string := NilZero.string_of_int (Z.to_int z).

(** [s.padStart(2, '0')]. *)
Definition padStart2 (s : string) : string :=
  match String.length s with
  | 0%nat => "00"
  | 1%nat => String "0" s
  | _ => s
  end.

(** [s.slice(-2)]: the last two characters, or all of [s] when it is shorter. *)
Definition sliceLast2 (s : string) : string :=
  substring (String.length s - 2) 2 s.

(** [s.split('/')]. *)
Fixpoint splitSlash (s : string) : list string :=
  match s with
  | EmptyString => [EmptyString]
  | String c s' =>
      if Ascii.eqb c "/" then EmptyString :: splitSlash s'
      else match splitSlash s' with
           | seg :: rest => String c seg :: rest
           | [] => [String c EmptyString]
           end
  end.

(** [Number(s)] on the strings that [formatDate] writes: decimal digits after
    an optional minus sign.  [None] is [NaN]; any other string is read as
    [NaN] here, so the model of [Number] is only meant for those strings. *)
Definition NumberOf (s : string) : option Z :=
  option_map Z.of_int (NilZero.int_of_string s).

(** ** The payment calculator ([lib/pila-utils.ts]) *)

Inductive Estado := success | warning | normal.

(** Modelled from the spec: the declaration of [FechaCorte] (types/pila) is
    not among the sources.  The record is the spec's DueDate (sequence
    number, date as DD/MM/YYYY, status, month label) under the field names of
    the object that [calcularFechasConDiasHabiles] builds; [mesTexto], the
    label that [Intl.DateTimeFormat] writes, is kept as the month and year it
    is written from. *)
Record FechaCorte := mkFechaCorte {
  id : Z;
  fecha : string;
  estado : Estado;
  mesTexto : Z * Z
}.

(** A company's NIT, as the string or the integer the caller passes (an
    integer that [String] writes in plain decimal digits, below 10^21). *)
Inductive Nit := NitString (s : string) | NitNumber (n : Z).

(** [String(nit)]. *)
Definition StringOf (nit : Nit) : string :=
  match nit with
  | NitString s => s
  | NitNumber n => toString n
  end.

(** [Math.ceil(a / b)] for integers [a] and [b > 0]. *)
Definition ceilDiv (a b : Z) : Z := - ((- a) / b).

(** [formatDate]: DD/MM/YYYY. *)
Definition formatDate (d : Date) : string :=
  let dia := padStart2 (toString (getDate d)) in
  let mes := padStart2 (toString (getMonth d + 1)) in
  let anio := toString (getFullYear d) in
  dia ++ "/" ++ mes ++ "/" ++ anio.

(** [const [dia, mes, anio] = s.split('/').map(Number); new Date(anio, mes - 1, dia)];
    [None] is the invalid date that a [NaN] field gives. *)
Definition parseDate (dateStr : string) : option Date :=
  match map NumberOf (splitSlash dateStr) with
  | Some dia :: Some mes :: Some anio :: _ => Some (newDate anio (mes - 1) dia)
  | _ => None
  end.

(** [calcularDiasHastaFecha], for the clock reading [now].  It sets the hours
    of the date it is given to midnight: the second component is that date
    afterwards. *)
Definition calcularDiasHastaFecha (now : Date) (fecha : Date) : Z * Date :=
  let hoy := setHours0 now in
  let fecha := setHours0 fecha in
  let diferenciaMilisegundos := getTime fecha - getTime hoy in
  (ceilDiv diferenciaMilisegundos (1000 * 60 * 60 * 24), fecha).

(** The number of months left of the loop over months, for month numbers
    between 0 and 11. *)
Definition monthsLeft (anioFin mesFin anioActual mesActual : Z) : nat :=
  Z.to_nat (12 * (anioFin - anioActual) + (mesFin - mesActual) + 1).

(** The loop of [calcularFechasConDiasHabiles] over the months of the visit;
    it tests the guard of the [while] at every turn, and [left] is
    [monthsLeft]: the guard holds while a month is left and fails when none is
    ([monthLoop_guard], [monthLoop_done], [monthLoop_extra]). *)
Fixpoint monthLoop (left : nat) (now inicioVisita finVisita : Date)
  (diasHabilesRequeridos anioFin mesFin anioActual mesActual idCounter : Z)
  (fechasPago : list FechaCorte) : list FechaCorte :=
  match left with
  | O => fechasPago
  | S left' =>
      if (anioActual <? anioFin)
         || ((anioActual =? anioFin) && (mesActual <=? mesFin)) then
        let '(idCounter', fechasPago') :=
          match getNthBusinessDayOfMonth anioActual mesActual diasHabilesRequeridos with
          | Some diaPago =>
              if (inicioVisita <=? diaPago) && (diaPago <=? finVisita) then
                let fechaFormateada := formatDate diaPago in
                let '(diasHastaFecha, diaPago) := calcularDiasHastaFecha now diaPago in
                let estado :=
                  if diasHastaFecha <? 0 then normal
                  else if diasHastaFecha <=? 10 then warning
                  else normal in
                (idCounter + 1,
                 fechasPago ++ [mkFechaCorte idCounter fechaFormateada estado
                                  (getMonth diaPago, getFullYear diaPago)])
              else (idCounter, fechasPago)
          | None => (idCounter, fechasPago)
          end in
        let mesActual' := mesActual + 1 in
        if mesActual' >? 11
        then monthLoop left' now inicioVisita finVisita diasHabilesRequeridos
               anioFin mesFin (anioActual + 1) 0 idCounter' fechasPago'
        else monthLoop left' now inicioVisita finVisita diasHabilesRequeridos
               anioFin mesFin anioActual mesActual' idCounter' fechasPago'
      else fechasPago
  end.

(** The last loop of [calcularFechasConDiasHabiles]: the first entry whose
    date is not before [hoy] becomes [success], and the loop breaks. *)
Fixpoint markFirstFuture (hoy : Date) (fechasPago : list FechaCorte)
  : list FechaCorte :=
  match fechasPago with
  | [] => []
  | f :: rest =>
      match parseDate (fecha f) with
      | Some fechaCorte =>
          if hoy <=? fechaCorte
          then mkFechaCorte (id f) (fecha f) success (mesTexto f) :: rest
          else f :: markFirstFuture hoy rest
      | None => f :: markFirstFuture hoy rest
      end
  end.

(** [calcularFechasConDiasHabiles]; [now] is what [new Date()] reads during
    the call. *)
Definition calcularFechasConDiasHabiles (now inicioVisita finVisita : Date)
  (diasHabilesRequeridos : Z) : list FechaCorte :=
  let mesActual := getMonth inicioVisita in
  let anioActual := getFullYear inicioVisita in
  let mesFin := getMonth finVisita in
  let anioFin := getFullYear finVisita in
  let fechasPago :=
    monthLoop (monthsLeft anioFin mesFin anioActual mesActual)
              now inicioVisita finVisita diasHabilesRequeridos
              anioFin mesFin anioActual mesActual 1 [] in
  let hoy := setHours0 now in
  markFirstFuture hoy fechasPago.

(** [getDiasHabilesPago]. *)
Definition ultimosDigitos (nit : Nit) : string :=
  padStart2 (sliceLast2 (StringOf nit)).

Definition getDiasHabilesPago (nit : Nit) : Z :=
  let ultimosDigitos := ultimosDigitos nit in
  match find (fun item => String.eqb (DIGITOS_NIT item) ultimosDigitos)
             LIMITE_SEG_SOCIAL with
  | None => 10
  | Some limiteSeg => DIAS_HABILES limiteSeg
  end.

(** [calcularFechasPagoPila], given the two dates that [new Date(fechaInicio)]
    and [new Date(fechaFin)] parse to. *)
Definition calcularFechasPagoPila (now : Date) (nit : Nit)
  (inicioVisita finVisita : Date) : list FechaCorte :=
  let ultimosDigitos := ultimosDigitos nit in
  match find (fun item => String.eqb (DIGITOS_NIT item) ultimosDigitos)
             LIMITE_SEG_SOCIAL with
  | None =>
      let defaultDias := 10 in
      calcularFechasConDiasHabiles now inicioVisita finVisita defaultDias
  | Some limiteSeg =>
      let diasHabilesRequeridos := DIAS_HABILES limiteSeg in
      calcularFechasConDiasHabiles now inicioVisita finVisita diasHabilesRequeridos
  end.


(** ** Definitions used to state the properties *)

(** Year, month (1 to 12) and day of a date. *)
Definition ymd (t : Date) : Z * Z * Z := (getFullYear t, getMonth t + 1, getDate t).

(** The dates that a loop over days visits: [k] of them, a day apart. *)
Fixpoint daysFrom (k : nat) (current : Date) : list Date :=
  match k with
  | O => []
  | S k' => current :: daysFrom k' (addDays current 1)
  end.

(** The days of the month that [getNthBusinessDayOfMonth] and
    [getBusinessDaysOfMonth] scan: from [new Date(year, month, 1)] to
    [new Date(year, month + 1, 0)], in order. *)
Definition daysOfMonth (year month : Z) : list Date :=
  let firstDay := newDate year month 1 in
  let lastDay := newDate year (month + 1) 0 in
  daysFrom (daysLeft lastDay firstDay) firstDay.


(** The calendar days from day number [first] to day number [last]. *)
Definition calendarDays (first last : Z) : list Z :=
  map (fun i => first + Z.of_nat i) (seq 0 (Z.to_nat (last - first + 1))).

(** The number of business days among the calendar days of the closed
    interval from the day of [startDate] to the day of [endDate]. *)
Definition businessDaysBetween (startDate endDate : Date) : Z :=
  Z.of_nat (List.length
              (filter (fun n => isBusinessDay (n * msPerDay))
                      (calendarDays (Day startDate) (Day endDate)))).



(** *** The lookup key as the specification words it

    Modelled from the claim's words, for comparison with [ultimosDigitos]:
    the input is first normalised to its decimal digits, then the last two
    characters are taken and padded. *)
Definition isDigit (c : ascii) : bool :=
  ((48 <=? nat_of_ascii c) && (nat_of_ascii c <=? 57))%nat.

Fixpoint digitsOnly (s : string) : string :=
  match s with
  | EmptyString => EmptyString
  | String c s' => if isDigit c then String c (digitsOnly s') else digitsOnly s'
  end.

Fixpoint allDigits (s : string) : bool :=
  match s with
  | EmptyString => true
  | String c s' => isDigit c && allDigits s'
  end.


(** A string without the separator of [formatDate]. *)
Fixpoint noSlash (s : string) : bool :=
  match s with
  | EmptyString => true
  | String c s' => negb (Ascii.eqb c "/") && noSlash s'
  end.

(** *** The due dates, month by month

    The months that the loop of [calcularFechasConDiasHabiles] visits: [k]
    of them from month [mes] (0 to 11) of year [anio], December followed by
    January of the next year. *)
Fixpoint monthsFrom (k : nat) (anio mes : Z) : list (Z * Z) :=
  match k with
  | O => []
  | S k' =>
      (anio, mes)
      :: (if mes + 1 >? 11 then monthsFrom k' (anio + 1) 0
          else monthsFrom k' anio (mes + 1))
  end.

(** The calendar months from that of [inicioVisita] to that of [finVisita]. *)
Definition monthsOfVisit (inicioVisita finVisita : Date) : list (Z * Z) :=
  monthsFrom (monthsLeft (getFullYear finVisita) (getMonth finVisita)
                         (getFullYear inicioVisita) (getMonth inicioVisita))
             (getFullYear inicioVisita) (getMonth inicioVisita).

(** The due date of a month: its [n]-th business day, when there is one and
    it lies in the visit. *)
Definition dueDateOfMonth (inicioVisita finVisita : Date) (n : Z) (ym : Z * Z)
  : option Date :=
  match getNthBusinessDayOfMonth (fst ym) (snd ym) n with
  | Some d => if (inicioVisita <=? d) && (d <=? finVisita) then Some d else None
  | None => None
  end.

Definition hasDueDate (inicioVisita finVisita : Date) (n : Z) (ym : Z * Z) : bool :=
  match dueDateOfMonth inicioVisita finVisita n ym with
  | Some _ => true
  | None => false
  end.

Definition dueDatesOf (inicioVisita finVisita : Date) (n : Z)
  (months : list (Z * Z)) : list Date :=
  flat_map (fun ym => match dueDateOfMonth inicioVisita finVisita n ym with
                      | Some d => [d]
                      | None => []
                      end) months.

(** The due dates of a visit, in the order of its months. *)
Definition dueDates (inicioVisita finVisita : Date) (n : Z) : list Date :=
  dueDatesOf inicioVisita finVisita n (monthsOfVisit inicioVisita finVisita).

(** The provisional status of a due date: [warning] when it is today or at
    most ten days ahead, [normal] otherwise. *)
Definition provisionalStatus (now d : Date) : Estado :=
  let days := Day d - Day now in
  if (0 <=? days) && (days <=? 10) then warning else normal.

(** The entries as they are pushed, numbered from [idCounter]. *)
Fixpoint provisionalEntries (now : Date) (idCounter : Z) (ds : list Date)
  : list FechaCorte :=
  match ds with
  | [] => []
  | d :: ds' =>
      mkFechaCorte idCounter (formatDate d) (provisionalStatus now d)
                   (getMonth d, getFullYear d)
      :: provisionalEntries now (idCounter + 1) ds'
  end.

Definition isSuccess (e : Estado) : bool :=
  match e with success => true | _ => false end.

(** The day number of the first day of the month with index [12 * y + m]. *)
Definition monthFirstDay (k : Z) : Z := MakeDay 0 k 1.

(** ** The rest of the holiday engine

    [getNextBusinessDay]: the loop [while (!isBusinessDay(nextDay))] has no
    bound of its own.  It is written by recursion on the number of tests of
    its guard that are allowed, [None] standing for a loop that is still
    running after [fuel] tests; [getNextBusinessDay_first] shows that 56
    tests are enough for every date, and that more change nothing. *)
Fixpoint nextBusinessLoop (fuel : nat) (nextDay : Date) : option Date :=
  match fuel with
  | O => None
  | S fuel' =>
      if negb (isBusinessDay nextDay)
      then nextBusinessLoop fuel' (setDate nextDay (getDate nextDay + 1))
      else Some nextDay
  end.

Definition getNextBusinessDay (fuel : nat) (date : Date) : option Date :=
  let nextDay := copyDate date in
  let nextDay := setDate nextDay (getDate nextDay + 1) in
  nextBusinessLoop fuel nextDay.

(** *** Definitions used to state the properties of the holidays *)

(** Monday to Friday. *)
Definition isWeekday (d : Date) : bool :=
  negb ((getDay d =? 0) || (getDay d =? 6)).

(** The days of the year (0 for January 1), first and last, between which
    each of the nineteen holidays falls, in the order of [pushedHolidays]:
    a fixed holiday on its day, a moved one in the week that starts on its
    day, those counted from Easter after an Easter from March 22 to
    April 25.  [leap] tells a leap year. *)
Definition holidayWindows (leap : bool) : list (Z * Z) :=
  let l := if leap then 1 else 0 in
  [ (0, 0); (120 + l, 120 + l); (200 + l, 200 + l); (218 + l, 218 + l);
    (341 + l, 341 + l); (358 + l, 358 + l);
    (5, 11); (77 + l, 83 + l); (179 + l, 185 + l); (226 + l, 232 + l);
    (284 + l, 290 + l); (304 + l, 310 + l); (314 + l, 320 + l);
    (77 + l, 111 + l); (78 + l, 112 + l); (80 + l, 114 + l);
    (119 + l, 159 + l); (140 + l, 180 + l); (148 + l, 188 + l) ].

(** The day of the year of March 22. *)
Definition march22 (leap : bool) : Z := 80 + (if leap then 1 else 0).

(** The day numbers of the holidays of a year. *)
Definition holidayDays (year : Z) : list Z :=
  map (fun h => Day (date h)) (getColombianHolidays year).

(** Two windows of days of the year that meet. *)
Definition overlaps (a b : Z * Z) : bool :=
  (fst a <=? snd b) && (fst b <=? snd a).

(** The days of the year of month [m] (0 to 11), first and last. *)
Definition monthWindow (m : Z) (leap : bool) : Z * Z :=
  (monthStart m leap, monthStart (m + 1) leap - 1).

(** Whether day number [n] is one of the days [first + a] to [first + b]. *)
Definition inWindow (first : Z) (w : Z * Z) (n : Z) : bool :=
  (first + fst w <=? n) && (n <=? first + snd w).

(** Monday to Friday, by the number of the weekday. *)
Definition weekdayNumber (w : Z) : bool := negb ((w =? 0) || (w =? 6)).





(** ** The rest of the payment calculator ([lib/pila-utils.ts]) *)

(** What [getEstadoFechaPila] returns: a status among "success", "warning",
    "normal" and "overdue", a message, and the number of days left, [None]
    being [NaN]. *)
Module EstadoFecha.

Inductive Estado := success | warning | normal | overdue.

Record t := mk {
  estado : Estado;
  mensaje : string;
  diasRestantes : option Z
}.

End EstadoFecha.

(** [getEstadoFechaPila], for the clock reading [now].  A date that does not
    parse gives [NaN] days, for which every comparison is false. *)
Definition getEstadoFechaPila (now : Date) (fechaStr : string) : EstadoFecha.t :=
  match parseDate fechaStr with
  | Some fecha =>
      let diasRestantes := fst (calcularDiasHastaFecha now fecha) in
      if diasRestantes <? 0 then
        EstadoFecha.mk EstadoFecha.overdue
          ("Vencida hace " ++ toString (Z.abs diasRestantes) ++ " días")
          (Some diasRestantes)
      else if diasRestantes =? 0 then
        EstadoFecha.mk EstadoFecha.warning "Vence hoy" (Some diasRestantes)
      else if diasRestantes <=? 10 then
        EstadoFecha.mk EstadoFecha.warning
          ("Vence en " ++ toString diasRestantes ++ " días")
          (Some diasRestantes)
      else
        EstadoFecha.mk EstadoFecha.normal
          ("Faltan " ++ toString diasRestantes ++ " días")
          (Some diasRestantes)
  | None => EstadoFecha.mk EstadoFecha.normal "Faltan NaN días" None
  end.


(** ** The route of the payment dates ([app/api/pila/fechas-corte/route.ts])

    The part of [GET] that follows the reading of the request: the dates of
    the calculator with their status brought up to date, and the dates given
    in their place when the calculation fails. *)
Module Route.

(** The function [calcularDiasHastaFecha] that [GET] defines for itself: it
    takes the date as the string of a [FechaCorte]; [None] is [NaN]. *)
Definition calcularDiasHastaFecha (now : Date) (fechaStr : string) : option Z :=
  match map NumberOf (splitSlash fechaStr) with
  | Some dia :: Some mes :: Some anio :: _ =>
      let fechaCorte := newDate anio (mes - 1) dia in
      let fechaActual := setHours0 now in
      let fechaCorte := setHours0 fechaCorte in
      let diferenciaMilisegundos := getTime fechaCorte - getTime fechaActual in
      Some (ceilDiv diferenciaMilisegundos (1000 * 60 * 60 * 24))
  | _ => None
  end.

(** An entry of the answer: [{ ...fecha, estado, diasRestantes }], the
    [FechaCorte] with its status replaced, and the days left. *)
Record FechaConEstado := mkFechaConEstado {
  fechaCorte : FechaCorte;
  diasRestantes : option Z
}.

(** [fechasConEstadoActualizado]; the clock, read for every entry, is taken
    to give the same day [now] for all. *)
Definition fechasConEstadoActualizado (now : Date) (fechasCorte : list FechaCorte)
  : list FechaConEstado :=
  map (fun f =>
         let diasHastaFecha := calcularDiasHastaFecha now (fecha f) in
         let estado :=
           match diasHastaFecha with
           | Some dias =>
               if dias <? 0 then normal
               else if dias =? 0 then warning
               else if dias <=? 10 then warning
               else estado f
           | None => estado f
           end in
         mkFechaConEstado (mkFechaCorte (id f) (fecha f) estado (mesTexto f))
                          diasHastaFecha)
      fechasCorte.

(** The loop of [generarFechasPredeterminadas] over the months from that of
    [inicio] to that of [fin], written as [monthLoop] is. *)
Fixpoint predeterminadasLoop (left : nat) (inicio fin : Date)
  (anioActual mesActual id : Z) (fechas : list FechaCorte) : list FechaCorte :=
  match left with
  | O => fechas
  | S left' =>
      if (anioActual <? getFullYear fin)
         || ((anioActual =? getFullYear fin) && (mesActual <=? getMonth fin)) then
        let fechaPago := newDate anioActual mesActual 10 in
        let '(id', fechas') :=
          if (inicio <=? fechaPago) && (fechaPago <=? fin) then
            let dia := padStart2 (toString (getDate fechaPago)) in
            let mes := padStart2 (toString (getMonth fechaPago + 1)) in
            let anio := toString (getFullYear fechaPago) in
            (id + 1,
             fechas ++ [mkFechaCorte id (dia ++ "/" ++ mes ++ "/" ++ anio) normal
                          (getMonth fechaPago, getFullYear fechaPago)])
          else (id, fechas) in
        let mesActual' := mesActual + 1 in
        if mesActual' >? 11
        then predeterminadasLoop left' inicio fin (anioActual + 1) 0 id' fechas'
        else predeterminadasLoop left' inicio fin anioActual mesActual' id' fechas'
      else fechas
  end.

(** [generarFechasPredeterminadas], given the two dates that
    [new Date(fechaInicio)] and [new Date(fechaFin)] parse to. *)
Definition generarFechasPredeterminadas (inicio fin : Date) : list FechaCorte :=
  let mesActual := getMonth inicio in
  let anioActual := getFullYear inicio in
  let fechas :=
    predeterminadasLoop
      (monthsLeft (getFullYear fin) (getMonth fin) anioActual mesActual)
      inicio fin anioActual mesActual 1 [] in
  match fechas with
  | f :: rest => mkFechaCorte (id f) (fecha f) success (mesTexto f) :: rest
  | [] => []
  end.

(** The [fechas] that [GET] answers with for a request that passes its
    checks: [now] is the clock reading of the calculator, [now'] that of the
    route. *)
Definition fechasDeRespuesta (now now' : Date) (nit : Nit)
  (fechaInicio fechaFin : Date) : list FechaConEstado :=
  let fechasCorte := calcularFechasPagoPila now nit fechaInicio fechaFin in
  fechasConEstadoActualizado now' fechasCorte.

End Route.

(** *** Definitions used to state the properties of the route *)

(** The months counted from the year 0: month [m] of year [y] is month
    [12 * y + m]. *)
Definition monthIndex (t : Date) : Z := 12 * getFullYear t + getMonth t.

(** The tenth of a month, when it lies in the visit. *)
Definition tenthOfMonth (inicio fin : Date) (ym : Z * Z) : list Date :=
  let d := newDate (fst ym) (snd ym) 10 in
  if (inicio <=? d) && (d <=? fin) then [d] else [].

(** The tenths of the months of the visit that lie in the visit. *)
Definition tenths (inicio fin : Date) : list Date :=
  flat_map (tenthOfMonth inicio fin) (monthsOfVisit inicio fin).

(** The entries that [generarFechasPredeterminadas] pushes, numbered from
    [idCounter]. *)
Fixpoint normalEntries (idCounter : Z) (ds : list Date) : list FechaCorte :=
  match ds with
  | [] => []
  | d :: ds' =>
      mkFechaCorte idCounter (formatDate d) normal (getMonth d, getFullYear d)
      :: normalEntries (idCounter + 1) ds'
  end.

(** The status that the route gives to an entry of status [e] whose date is
    [k] days ahead. *)
Definition updatedStatus (k : Z) (e : Estado) : Estado :=
  if k <? 0 then normal else if k <=? 10 then warning else e.

(** ** Facts about the calendar *)

(** Linear arithmetic with the divisions and remainders by constants that
    the calendar functions are made of. *)
Ltac zdiv := Z.div_mod_to_equations; lia.

Section Calendar.

Lemma DayFromYear_step y :
  DayFromYear (y + 1) = DayFromYear y + 365 + (if InLeapYear y then 1 else 0).
Proof.
  unfold DayFromYear, InLeapYear.
  destruct (y mod 4 =? 0) eqn:E4; destruct (y mod 100 =? 0) eqn:E100;
    destruct (y mod 400 =? 0) eqn:E400; cbn [andb orb negb];
    rewrite ?Z.eqb_eq, ?Z.eqb_neq in *; zdiv.
Qed.

Lemma DayFromYear_bounds y :
  146097 * (y - 1970) - 506 <= 400 * DayFromYear y
  /\ 400 * DayFromYear y <= 146097 * (y - 1970) + 589.
Proof. unfold DayFromYear. zdiv. Qed.

Lemma DayFromYear_lt y : DayFromYear y < DayFromYear (y + 1).
Proof. rewrite DayFromYear_step. destruct (InLeapYear y); lia. Qed.

Lemma DayFromYear_mono y z : y <= z -> DayFromYear y <= DayFromYear z.
Proof.
  intros H. replace z with (y + Z.of_nat (Z.to_nat (z - y))) by lia.
  induction (Z.to_nat (z - y)) as [|k IH].
  - rewrite Z.add_0_r. lia.
  - rewrite Nat2Z.inj_succ.
    replace (y + Z.succ (Z.of_nat k)) with (y + Z.of_nat k + 1) by lia.
    pose proof (DayFromYear_lt (y + Z.of_nat k)). lia.
Qed.

(** [YearFromDay n] is the year whose days contain [n]. *)
Lemma YearFromDay_spec n :
  DayFromYear (YearFromDay n) <= n < DayFromYear (YearFromDay n + 1).
Proof.
  unfold YearFromDay.
  set (g := 1970 + 400 * n / 146097).
  assert (Hg : 146097 * (g - 1970) <= 400 * n < 146097 * (g - 1970) + 146097)
    by (subst g; zdiv).
  pose proof (DayFromYear_bounds (g - 1)) as Hm.
  pose proof (DayFromYear_bounds (g + 1 + 1)) as Hp.
  destruct (n <? DayFromYear g) eqn:E1.
  - apply Z.ltb_lt in E1. replace (g - 1 + 1) with g by lia. lia.
  - apply Z.ltb_ge in E1.
    destruct (DayFromYear (g + 1) <=? n) eqn:E2.
    + apply Z.leb_le in E2. lia.
    + apply Z.leb_gt in E2. lia.
Qed.

Lemma YearFromDay_unique y n :
  DayFromYear y <= n < DayFromYear (y + 1) -> YearFromDay n = y.
Proof.
  intros H. pose proof (YearFromDay_spec n) as S.
  destruct (Z.lt_trichotomy (YearFromDay n) y) as [L | [E | G]]; [| exact E |].
  - pose proof (DayFromYear_mono (YearFromDay n + 1) y). lia.
  - pose proof (DayFromYear_mono (y + 1) (YearFromDay n)). lia.
Qed.

Lemma DayWithinYear_range n :
  0 <= DayWithinYear n
  < 365 + (if InLeapYear (YearFromDay n) then 1 else 0).
Proof.
  unfold DayWithinYear. pose proof (YearFromDay_spec n) as S.
  rewrite DayFromYear_step in S. lia.
Qed.

Lemma monthOfYearDay_range d leap : 0 <= monthOfYearDay d leap <= 11.
Proof.
  unfold monthOfYearDay.
  repeat match goal with |- context [if ?b then _ else _] => destruct b end; lia.
Qed.

Lemma MonthFromDay_range n : 0 <= MonthFromDay n <= 11.
Proof. apply monthOfYearDay_range. Qed.

Lemma getMonth_range t : 0 <= getMonth t <= 11.
Proof. apply MonthFromDay_range. Qed.

(** Rebuilding a day from its own year, month and date, the date moved by
    [k], moves the day by [k]: what [setDate(getDate() + k)] relies on. *)
Lemma MakeDay_fields n k :
  MakeDay (YearFromDay n) (MonthFromDay n) (DateFromDay n + k) = n + k.
Proof.
  unfold MakeDay, DateFromDay. pose proof (MonthFromDay_range n) as R.
  rewrite Z.div_small, Z.mod_small, Z.add_0_r by lia.
  unfold DayWithinYear. lia.
Qed.

Lemma Day_time d r : 0 <= r < msPerDay -> Day (d * msPerDay + r) = d.
Proof. unfold Day, msPerDay. intros. zdiv. Qed.

Lemma TimeWithinDay_time d r :
  0 <= r < msPerDay -> TimeWithinDay (d * msPerDay + r) = r.
Proof. unfold TimeWithinDay, msPerDay. intros. zdiv. Qed.

Lemma time_split t : t = Day t * msPerDay + TimeWithinDay t.
Proof. unfold Day, TimeWithinDay, msPerDay. zdiv. Qed.

Lemma TimeWithinDay_range t : 0 <= TimeWithinDay t < msPerDay.
Proof. unfold TimeWithinDay, msPerDay. zdiv. Qed.

Lemma Day_addDays t k : Day (addDays t k) = Day t + k.
Proof. unfold addDays, Day, msPerDay. zdiv. Qed.

Lemma TimeWithinDay_addDays t k :
  TimeWithinDay (addDays t k) = TimeWithinDay t.
Proof. unfold addDays, TimeWithinDay, msPerDay. zdiv. Qed.

Lemma Day_newDate y m d : Day (newDate y m d) = MakeDay (fullYearOf y) m d.
Proof. unfold newDate. rewrite <- (Z.add_0_r (_ * _)). apply Day_time. unfold msPerDay; lia. Qed.

Lemma TimeWithinDay_newDate y m d : TimeWithinDay (newDate y m d) = 0.
Proof. unfold newDate. rewrite <- (Z.add_0_r (_ * _)). apply TimeWithinDay_time. unfold msPerDay; lia. Qed.

(** [d.setDate(d.getDate() + k)] moves [d] by [k] whole days. *)
Lemma setDate_getDate t k : setDate t (getDate t + k) = addDays t k.
Proof.
  unfold setDate, getFullYear, getMonth, getDate, addDays.
  rewrite MakeDay_fields. rewrite (time_split t) at 3. lia.
Qed.

Lemma getDay_addDays t k : getDay (addDays t k) = (getDay t + k) mod 7.
Proof. unfold getDay, WeekDay. rewrite Day_addDays. zdiv. Qed.

Lemma getDay_range t : 0 <= getDay t <= 6.
Proof. unfold getDay, WeekDay. zdiv. Qed.

Lemma fullYearOf_not_short y : ~ (0 <= fullYearOf y <= 99).
Proof.
  unfold fullYearOf.
  destruct (0 <=? y) eqn:A; destruct (y <=? 99) eqn:B; cbn [andb];
    rewrite ?Z.leb_le, ?Z.leb_gt in *; lia.
Qed.

Lemma fullYearOf_id y : ~ (0 <= y <= 99) -> fullYearOf y = y.
Proof.
  unfold fullYearOf. intros H.
  destruct (0 <=? y) eqn:A; destruct (y <=? 99) eqn:B; cbn [andb];
    rewrite ?Z.leb_le, ?Z.leb_gt in *; lia.
Qed.

End Calendar.

(** ** Facts about the sort *)

Section SortFacts.

Context {A : Type} (key : A -> Z).

Let cmp (a b : A) : Z := key a - key b.

Lemma insert_sorted_length x l :
  List.length (insert_sorted cmp x l) = S (List.length l).
Proof.
  induction l as [|y l IH]; cbn [insert_sorted]; [reflexivity|].
  destruct (cmp x y <=? 0); cbn [List.length]; congruence.
Qed.

Lemma array_sort_length l : List.length (array_sort cmp l) = List.length l.
Proof.
  induction l as [|x l IH]; cbn [array_sort]; [reflexivity|].
  rewrite insert_sorted_length, IH. reflexivity.
Qed.

Lemma insert_sorted_perm x l : Permutation (x :: l) (insert_sorted cmp x l).
Proof.
  induction l as [|y l IH]; cbn [insert_sorted]; [reflexivity|].
  destruct (cmp x y <=? 0); [reflexivity|].
  rewrite perm_swap. constructor. exact IH.
Qed.

Lemma array_sort_perm l : Permutation l (array_sort cmp l).
Proof.
  induction l as [|x l IH]; cbn [array_sort]; [constructor|].
  rewrite <- insert_sorted_perm. constructor. exact IH.
Qed.

Lemma array_sort_In x l : In x (array_sort cmp l) <-> In x l.
Proof.
  split; apply Permutation_in;
    [apply Permutation_sym|]; apply array_sort_perm.
Qed.



End SortFacts.

(** ** Facts about the holiday engine *)

Lemma moveToMonday_addDays d :
  moveToMonday d =
  addDays d (if getDay d =? 1 then 0 else if getDay d =? 0 then 1 else 8 - getDay d).
Proof.
  unfold moveToMonday. cbv zeta.
  destruct (getDay d =? 0) eqn:E0.
  - apply Z.eqb_eq in E0. rewrite E0. apply setDate_getDate.
  - destruct (getDay d =? 1) eqn:E1; cbn [negb].
    + unfold addDays. lia.
    + apply setDate_getDate.
Qed.


Lemma getColombianHolidays_In h year :
  In h (getColombianHolidays year) <-> In h (pushedHolidays year).
Proof. apply (array_sort_In (fun a => getTime (date a))). Qed.

(** ** Facts about lists *)


Lemma StronglySorted_map {A B} (f : A -> B) (R : B -> B -> Prop) (l : list A) :
  StronglySorted (fun a b => R (f a) (f b)) l <-> StronglySorted R (map f l).
Proof.
  induction l as [|x l IH]; cbn [map].
  - split; constructor.
  - split; intros S; inversion S; subst; constructor;
      try (apply IH; assumption); rewrite ?Forall_map in *; assumption.
Qed.

(** ** Facts about strings *)






Lemma length_digitsOnly s : (String.length (digitsOnly s) <= String.length s)%nat.
Proof.
  induction s as [|c s IH]; cbn [digitsOnly String.length]; [lia|].
  destruct (isDigit c); cbn [String.length]; lia.
Qed.


Lemma allDigits_padStart2 s : allDigits (padStart2 s) = allDigits s.
Proof. destruct s as [|a [|b s]]; reflexivity. Qed.

Lemma allDigits_uint d : allDigits (NilEmpty.string_of_uint d) = true.
Proof. induction d; cbn [NilEmpty.string_of_uint allDigits]; auto. Qed.

Lemma allDigits_toString n : 0 <= n -> allDigits (toString n) = true.
Proof.
  intros H. unfold toString.
  destruct n as [|p|p]; [reflexivity| |lia].
  cbn [Z.to_int NilZero.string_of_int]. unfold NilZero.string_of_uint.
  destruct (Pos.to_uint p); try reflexivity; apply allDigits_uint.
Qed.

(** Every key of the table is made of two digits. *)
Lemma LIMITE_SEG_SOCIAL_digits :
  forallb (fun item => allDigits (DIGITOS_NIT item)
                       && (String.length (DIGITOS_NIT item) =? 2)%nat)
          LIMITE_SEG_SOCIAL = true.
Proof. vm_compute. reflexivity. Qed.

Lemma find_absent (key : string) :
  (forall item, In item LIMITE_SEG_SOCIAL -> DIGITOS_NIT item <> key) ->
  find (fun item => String.eqb (DIGITOS_NIT item) key) LIMITE_SEG_SOCIAL = None.
Proof.
  intros H.
  destruct (find _ LIMITE_SEG_SOCIAL) as [item|] eqn:F; [|reflexivity].
  apply find_some in F. destruct F as [I E].
  apply String.eqb_eq in E. exfalso. exact (H item I E).
Qed.

Lemma non_digit_key_absent (key : string) :
  allDigits key = false ->
  forall item, In item LIMITE_SEG_SOCIAL -> DIGITOS_NIT item <> key.
Proof.
  intros H item I E.
  pose proof LIMITE_SEG_SOCIAL_digits as T.
  rewrite forallb_forall in T. specialize (T item I).
  apply andb_prop in T. destruct T as [T _]. congruence.
Qed.

(** ** Facts about the months of the calendar *)

Lemma MakeDay_norm y m d : MakeDay y m d = MakeDay (y + m / 12) (m mod 12) d.
Proof.
  unfold MakeDay. cbv zeta.
  rewrite Z.mod_mod by lia.
  rewrite (Z.div_small (m mod 12)) by (apply Z.mod_pos_bound; lia).
  rewrite Z.add_0_r. reflexivity.
Qed.

(** The day before the first of the next month, also across a year's end. *)
Lemma MakeDay_next_month y m d :
  MakeDay y (m + 1) d = MakeDay (y + m / 12) (m mod 12 + 1) d.
Proof.
  unfold MakeDay. cbv zeta.
  assert (R : 0 <= m mod 12 < 12) by (apply Z.mod_pos_bound; lia).
  destruct (Z.eq_dec (m mod 12) 11) as [E|E].
  - replace ((m + 1) / 12) with (m / 12 + 1) by zdiv.
    replace ((m + 1) mod 12) with 0 by zdiv.
    rewrite E. change ((11 + 1) / 12) with 1. change ((11 + 1) mod 12) with 0.
    rewrite Z.add_assoc. reflexivity.
  - replace ((m + 1) / 12) with (m / 12) by zdiv.
    replace ((m + 1) mod 12) with (m mod 12 + 1) by zdiv.
    rewrite (Z.div_small (m mod 12 + 1)) by lia.
    rewrite (Z.mod_small (m mod 12 + 1)) by lia.
    rewrite Z.add_0_r. reflexivity.
Qed.

Lemma MakeDay_small y m d :
  0 <= m <= 11 -> MakeDay y m d = DayFromYear y + monthStart m (InLeapYear y) + d - 1.
Proof.
  intros H. unfold MakeDay. cbv zeta.
  rewrite Z.div_small, Z.mod_small, Z.add_0_r by lia. reflexivity.
Qed.

Lemma MakeDay_end y m d :
  0 <= m <= 11 ->
  MakeDay y (m + 1) d = DayFromYear y + monthStart (m + 1) (InLeapYear y) + d - 1.
Proof.
  intros H. destruct (Z.eq_dec m 11) as [->|N].
  - unfold MakeDay. cbv zeta.
    change ((11 + 1) / 12) with 1. change ((11 + 1) mod 12) with 0.
    rewrite DayFromYear_step.
    destruct (InLeapYear y), (InLeapYear (y + 1)); cbn; lia.
  - apply MakeDay_small. lia.
Qed.

Lemma monthStart_lt m leap :
  0 <= m <= 11 -> monthStart m leap + 28 <= monthStart (m + 1) leap.
Proof.
  intros H.
  assert (C : m = 0 \/ m = 1 \/ m = 2 \/ m = 3 \/ m = 4 \/ m = 5 \/ m = 6
              \/ m = 7 \/ m = 8 \/ m = 9 \/ m = 10 \/ m = 11) by lia.
  destruct leap; repeat (destruct C as [-> | C]; [cbn; lia|]); subst; cbn; lia.
Qed.

Lemma monthOfYearDay_in m leap d :
  0 <= m <= 11 ->
  monthStart m leap <= d < monthStart (m + 1) leap ->
  monthOfYearDay d leap = m.
Proof.
  intros H.
  assert (C : m = 0 \/ m = 1 \/ m = 2 \/ m = 3 \/ m = 4 \/ m = 5 \/ m = 6
              \/ m = 7 \/ m = 8 \/ m = 9 \/ m = 10 \/ m = 11) by lia.
  unfold monthOfYearDay.
  destruct leap;
    repeat (destruct C as [-> | C];
            [cbn [monthStart Z.leb Z.eqb Z.add Z.compare Pos.compare Pos.compare_cont
                  Pos.eqb Pos.add Pos.succ Pos.add_carry];
             intros D;
             repeat match goal with
                    | |- context [?a <? ?b] =>
                        destruct (Z.ltb_spec a b); try lia
                    end; reflexivity|]);
    subst;
    cbn [monthStart Z.leb Z.eqb Z.add Z.compare Pos.compare Pos.compare_cont
         Pos.eqb Pos.add Pos.succ Pos.add_carry];
    intros D;
    repeat match goal with
           | |- context [?a <? ?b] => destruct (Z.ltb_spec a b); try lia
           end; reflexivity.
Qed.

(** The fields of a day lying in month [m] (0 to 11) of year [y]. *)
Lemma fields_in_month y m n :
  0 <= m <= 11 ->
  MakeDay y m 1 <= n <= MakeDay y (m + 1) 0 ->
  YearFromDay n = y /\ MonthFromDay n = m
  /\ DateFromDay n = n - MakeDay y m 1 + 1.
Proof.
  intros Hm. rewrite MakeDay_small, MakeDay_end by exact Hm. intros Hn.
  pose proof (monthStart_lt m (InLeapYear y) Hm) as L.
  assert (S0 : 0 <= monthStart m (InLeapYear y)).
  { assert (C : m = 0 \/ m = 1 \/ m = 2 \/ m = 3 \/ m = 4 \/ m = 5 \/ m = 6
              \/ m = 7 \/ m = 8 \/ m = 9 \/ m = 10 \/ m = 11) by lia.
    destruct (InLeapYear y);
      repeat (destruct C as [-> | C]; [cbn; lia|]); subst; cbn; lia. }
  assert (S1 : monthStart (m + 1) (InLeapYear y)
               <= 365 + (if InLeapYear y then 1 else 0)).
  { assert (C : m = 0 \/ m = 1 \/ m = 2 \/ m = 3 \/ m = 4 \/ m = 5 \/ m = 6
              \/ m = 7 \/ m = 8 \/ m = 9 \/ m = 10 \/ m = 11) by lia.
    destruct (InLeapYear y);
      repeat (destruct C as [-> | C]; [cbn; lia|]); subst; cbn; lia. }
  assert (Y : YearFromDay n = y).
  { apply YearFromDay_unique. rewrite DayFromYear_step. lia. }
  assert (M : MonthFromDay n = m).
  { unfold MonthFromDay, DayWithinYear. rewrite Y.
    apply monthOfYearDay_in; [exact Hm | lia]. }
  split; [exact Y|]. split; [exact M|].
  unfold DateFromDay, DayWithinYear. rewrite M, Y. lia.
Qed.

(** The same for the month that [new Date(year, month, 1)] starts, whatever
    the integers [year] and [month]. *)
Lemma fields_in_newDate_month year month t :
  newDate year month 1 <= t <= newDate year (month + 1) 0 ->
  TimeWithinDay t = 0 ->
  getFullYear t = fullYearOf year + month / 12
  /\ getMonth t = month mod 12
  /\ getDate t = Day t - Day (newDate year month 1) + 1.
Proof.
  intros H T0.
  assert (R : 0 <= month mod 12 <= 11)
    by (pose proof (Z.mod_pos_bound month 12); lia).
  pose proof (time_split t) as St. rewrite T0 in St.
  unfold getFullYear, getMonth, getDate. rewrite Day_newDate.
  rewrite (MakeDay_norm _ month).
  apply fields_in_month; [exact R|].
  rewrite <- MakeDay_norm, <- MakeDay_next_month.
  unfold newDate in H. unfold msPerDay in *. lia.
Qed.

(** ** Facts about the loops over days *)

(** When no day is left, the guard [current <= lastDay] is false. *)
Lemma daysLeft_zero lastDay current :
  daysLeft lastDay current = 0%nat <-> lastDay < current.
Proof.
  unfold daysLeft, msPerDay. split; intros H.
  - assert ((lastDay - current) / 86400000 + 1 <= 0) by lia.
    zdiv.
  - assert ((lastDay - current) / 86400000 + 1 <= 0)
      by zdiv.
    lia.
Qed.

Lemma daysLeft_succ lastDay current :
  current <= lastDay ->
  daysLeft lastDay current = S (daysLeft lastDay (addDays current 1)).
Proof.
  intros H. unfold daysLeft, addDays, msPerDay.
  rewrite <- Z2Nat.inj_succ by zdiv.
  f_equal. zdiv.
Qed.

(** What a turn of a loop knows when [S left] days are left. *)
Lemma daysLeft_turn left lastDay current :
  S left = daysLeft lastDay current ->
  (current <=? lastDay) = true /\ left = daysLeft lastDay (addDays current 1).
Proof.
  intros H.
  assert (L : current <= lastDay).
  { destruct (Z_le_gt_dec current lastDay) as [L|G]; [exact L|].
    assert (Z0 : daysLeft lastDay current = 0%nat) by (apply daysLeft_zero; lia).
    congruence. }
  split; [apply Z.leb_le; exact L|].
  rewrite (daysLeft_succ _ _ L) in H. congruence.
Qed.

(** The recursions stop where the loops of the source stop: turns beyond
    the days left are never taken. *)
Lemma countLoop_extra extra endDate current count :
  countLoop (daysLeft endDate current + extra) endDate current count
  = countLoop (daysLeft endDate current) endDate current count.
Proof.
  remember (daysLeft endDate current) as left eqn:H.
  revert current count H. induction left as [|left IH]; intros current count H.
  - symmetry in H. apply daysLeft_zero in H.
    destruct extra as [|extra]; [reflexivity|]. cbn [Nat.add countLoop].
    replace (current <=? endDate) with false by (symmetry; apply Z.leb_gt; lia).
    reflexivity.
  - destruct (daysLeft_turn _ _ _ H) as [G L].
    cbn [Nat.add countLoop]. rewrite G, setDate_getDate. apply IH. exact L.
Qed.

Lemma nthLoop_extra extra lastDay current businessDayCount n :
  nthLoop (daysLeft lastDay current + extra) lastDay current businessDayCount n
  = nthLoop (daysLeft lastDay current) lastDay current businessDayCount n.
Proof.
  remember (daysLeft lastDay current) as left eqn:H.
  revert current businessDayCount H.
  induction left as [|left IH]; intros current c H.
  - symmetry in H. apply daysLeft_zero in H.
    destruct extra as [|extra]; [reflexivity|]. cbn [Nat.add nthLoop].
    replace (current <=? lastDay) with false by (symmetry; apply Z.leb_gt; lia).
    reflexivity.
  - destruct (daysLeft_turn _ _ _ H) as [G L].
    cbn [Nat.add nthLoop]. rewrite G, setDate_getDate.
    destruct (isBusinessDay current); [destruct (c + 1 =? n); [reflexivity|]|];
      apply IH; exact L.
Qed.

Lemma businessDaysLoop_extra extra lastDay current businessDays :
  businessDaysLoop (daysLeft lastDay current + extra) lastDay current businessDays
  = businessDaysLoop (daysLeft lastDay current) lastDay current businessDays.
Proof.
  remember (daysLeft lastDay current) as left eqn:H.
  revert current businessDays H.
  induction left as [|left IH]; intros current businessDays H.
  - symmetry in H. apply daysLeft_zero in H.
    destruct extra as [|extra]; [reflexivity|]. cbn [Nat.add businessDaysLoop].
    replace (current <=? lastDay) with false by (symmetry; apply Z.leb_gt; lia).
    reflexivity.
  - destruct (daysLeft_turn _ _ _ H) as [G L].
    cbn [Nat.add businessDaysLoop]. rewrite G, setDate_getDate. apply IH. exact L.
Qed.


Lemma countLoop_spec left endDate current count :
  left = daysLeft endDate current ->
  countLoop left endDate current count
  = count + Z.of_nat (List.length (filter isBusinessDay (daysFrom left current))).
Proof.
  revert current count.
  induction left as [|left IH]; intros current count H.
  - cbn [countLoop daysFrom filter List.length]. lia.
  - destruct (daysLeft_turn _ _ _ H) as [G L].
    cbn [countLoop daysFrom filter]. rewrite G, setDate_getDate.
    rewrite (IH _ _ L).
    destruct (isBusinessDay current); cbn [List.length]; lia.
Qed.

Lemma businessDaysLoop_spec left lastDay current businessDays :
  left = daysLeft lastDay current ->
  businessDaysLoop left lastDay current businessDays
  = businessDays ++ filter isBusinessDay (daysFrom left current).
Proof.
  revert current businessDays.
  induction left as [|left IH]; intros current businessDays H.
  - cbn [businessDaysLoop daysFrom filter]. rewrite app_nil_r. reflexivity.
  - destruct (daysLeft_turn _ _ _ H) as [G L].
    cbn [businessDaysLoop daysFrom filter]. rewrite G, setDate_getDate.
    rewrite (IH _ _ L). unfold copyDate.
    destruct (isBusinessDay current); [rewrite <- app_assoc|]; reflexivity.
Qed.

Lemma nthLoop_spec left lastDay current businessDayCount n :
  left = daysLeft lastDay current ->
  nthLoop left lastDay current businessDayCount n
  = if businessDayCount <? n
    then nth_error (filter isBusinessDay (daysFrom left current))
                   (Z.to_nat (n - businessDayCount - 1))
    else None.
Proof.
  revert current businessDayCount.
  induction left as [|left IH]; intros current c H.
  - cbn [nthLoop daysFrom filter].
    destruct (c <? n); [|reflexivity].
    destruct (Z.to_nat (n - c - 1)); reflexivity.
  - destruct (daysLeft_turn _ _ _ H) as [G L].
    cbn [nthLoop daysFrom filter]. rewrite G, setDate_getDate.
    destruct (isBusinessDay current).
    + destruct (c + 1 =? n) eqn:E.
      * apply Z.eqb_eq in E.
        replace (c <? n) with true by (symmetry; apply Z.ltb_lt; lia).
        replace (n - c - 1) with 0 by lia. reflexivity.
      * apply Z.eqb_neq in E. rewrite (IH _ _ L).
        destruct (Z.ltb_spec c n) as [A|A].
        -- replace (c + 1 <? n) with true by (symmetry; apply Z.ltb_lt; lia).
           replace (Z.to_nat (n - c - 1)) with (S (Z.to_nat (n - (c + 1) - 1)))
             by lia.
           reflexivity.
        -- replace (c + 1 <? n) with false by (symmetry; apply Z.ltb_ge; lia).
           reflexivity.
    + apply (IH _ _ L).
Qed.

Lemma getBusinessDaysOfMonth_spec year month :
  getBusinessDaysOfMonth year month = filter isBusinessDay (daysOfMonth year month).
Proof.
  unfold getBusinessDaysOfMonth, daysOfMonth, copyDate. cbv zeta.
  rewrite businessDaysLoop_spec by reflexivity. reflexivity.
Qed.

Lemma getNthBusinessDayOfMonth_spec year month n :
  getNthBusinessDayOfMonth year month n
  = if 0 <? n
    then nth_error (filter isBusinessDay (daysOfMonth year month)) (Z.to_nat (n - 1))
    else None.
Proof.
  unfold getNthBusinessDayOfMonth, daysOfMonth, copyDate. cbv zeta.
  rewrite nthLoop_spec by reflexivity.
  replace (n - 0 - 1) with (n - 1) by lia. reflexivity.
Qed.

Lemma daysFrom_In k current d :
  In d (daysFrom k current) <->
  exists i, (i < k)%nat /\ d = addDays current (Z.of_nat i).
Proof.
  revert current. induction k as [|k IH]; intros current; cbn [daysFrom In].
  - split; [contradiction|]. intros (i & L & _). lia.
  - split.
    + intros [<- | H].
      * exists 0%nat. split; [lia|]. unfold addDays. cbn. lia.
      * apply IH in H. destruct H as (i & L & ->).
        exists (S i). split; [lia|]. unfold addDays. lia.
    + intros (i & L & ->). destruct i as [|i].
      * left. unfold addDays. cbn. lia.
      * right. apply IH. exists i. split; [lia|]. unfold addDays. lia.
Qed.

Lemma daysFrom_sorted k current : StronglySorted Z.lt (daysFrom k current).
Proof.
  revert current. induction k as [|k IH]; intros current; cbn [daysFrom];
    constructor; [apply IH|].
  apply Forall_forall. intros d H. apply daysFrom_In in H.
  destruct H as (i & _ & ->). unfold addDays, msPerDay. lia.
Qed.

Lemma daysFrom_range lastDay current d :
  In d (daysFrom (daysLeft lastDay current) current) <->
  current <= d <= lastDay /\ (d - current) mod msPerDay = 0.
Proof.
  rewrite daysFrom_In. unfold daysLeft, addDays, msPerDay. split.
  - intros (i & L & ->). split.
    + assert (Z.of_nat i < (lastDay - current) / 86400000 + 1) by lia.
      zdiv.
    + replace (current + Z.of_nat i * 86400000 - current)
        with (Z.of_nat i * 86400000) by lia.
      apply Z.mod_mul. lia.
  - intros [R M]. exists (Z.to_nat ((d - current) / 86400000)). split.
    + apply Z2Nat.inj_lt; zdiv.
    + rewrite Z2Nat.id by zdiv.
      zdiv.
Qed.

Lemma filter_sorted {A} (R : A -> A -> Prop) (f : A -> bool) l :
  StronglySorted R l -> StronglySorted R (filter f l).
Proof.
  induction 1 as [|x l S IH F]; cbn [filter]; [constructor|].
  destruct (f x); [|exact IH]. constructor; [exact IH|].
  rewrite Forall_forall in *. intros y Hy. apply filter_In in Hy. apply F, Hy.
Qed.

(** A day of the scanned month: between its first and last day, at midnight. *)
Lemma daysOfMonth_In year month d :
  In d (daysOfMonth year month) <->
  newDate year month 1 <= d <= newDate year (month + 1) 0
  /\ TimeWithinDay d = 0.
Proof.
  unfold daysOfMonth. cbv zeta. rewrite daysFrom_range.
  unfold newDate, TimeWithinDay, msPerDay.
  split; intros [R M]; (split; [exact R|]); zdiv.
Qed.

(** ** Facts about counting business days *)








Lemma daysOfMonth_sorted year month : StronglySorted Z.lt (daysOfMonth year month).
Proof. apply daysFrom_sorted. Qed.

(** ** Facts about writing a date and reading it back *)

Lemma splitSlash_noSlash a : noSlash a = true -> splitSlash a = [a].
Proof.
  induction a as [|c a IH]; cbn [noSlash splitSlash]; [reflexivity|].
  intros H. apply andb_prop in H. destruct H as [Hc Ha].
  apply negb_true_iff in Hc. rewrite Hc, (IH Ha). reflexivity.
Qed.

Lemma splitSlash_app a r :
  noSlash a = true ->
  splitSlash (a ++ String "/" r) = a :: splitSlash r.
Proof.
  induction a as [|c a IH]; cbn [noSlash splitSlash String.append].
  - reflexivity.
  - intros H. apply andb_prop in H. destruct H as [Hc Ha].
    apply negb_true_iff in Hc. rewrite Hc, (IH Ha). reflexivity.
Qed.

Lemma noSlash_allDigits s : allDigits s = true -> noSlash s = true.
Proof.
  induction s as [|c s IH]; cbn [allDigits noSlash]; [reflexivity|].
  intros H. apply andb_prop in H. destruct H as [Hc Hs].
  rewrite (IH Hs), andb_true_r.
  destruct (Ascii.eqb_spec c "/") as [->|]; [discriminate Hc | reflexivity].
Qed.

Lemma allDigits_string_of_uint d : allDigits (NilZero.string_of_uint d) = true.
Proof.
  unfold NilZero.string_of_uint.
  destruct d; try reflexivity; apply allDigits_uint.
Qed.

Lemma noSlash_toString z : noSlash (toString z) = true.
Proof.
  unfold toString. destruct (Z.to_int z) as [d|d]; cbn [NilZero.string_of_int].
  - apply noSlash_allDigits, allDigits_string_of_uint.
  - cbn [noSlash]. apply noSlash_allDigits, allDigits_string_of_uint.
Qed.

Lemma to_int_not_nil z : Z.to_int z <> Pos Nil /\ Z.to_int z <> Neg Nil.
Proof.
  destruct z as [|p|p]; cbn [Z.to_int]; split; try discriminate;
    intros [= E]; pose proof (DecimalPos.Unsigned.to_uint_nonnil p); contradiction.
Qed.

(** [Number(String(z))] is [z]. *)
Lemma NumberOf_toString z : NumberOf (toString z) = Some z.
Proof.
  unfold NumberOf, toString.
  destruct (to_int_not_nil z) as [P N].
  rewrite NilZero.isi by assumption.
  cbn [option_map]. rewrite DecimalZ.of_to. reflexivity.
Qed.

(** The two-character fields: a number from 0 to 99 padded to two digits
    has no slash and reads back as itself. *)
Lemma padded_field_ok :
  forallb (fun i =>
             let s := padStart2 (toString (Z.of_nat i)) in
             noSlash s
             && match NumberOf s with
                | Some z => z =? Z.of_nat i
                | None => false
                end)
          (seq 0 100) = true.
Proof. vm_compute. reflexivity. Qed.

Lemma padded_field z :
  0 <= z <= 99 ->
  noSlash (padStart2 (toString z)) = true
  /\ NumberOf (padStart2 (toString z)) = Some z.
Proof.
  intros H. pose proof padded_field_ok as T.
  rewrite forallb_forall in T. specialize (T (Z.to_nat z)).
  rewrite Z2Nat.id in T by lia. cbv zeta in T.
  assert (I : In (Z.to_nat z) (seq 0 100)) by (apply in_seq; lia).
  specialize (T I). apply andb_prop in T. destruct T as [T1 T2].
  split; [exact T1|].
  destruct (NumberOf (padStart2 (toString z))) as [w|]; [|discriminate T2].
  apply Z.eqb_eq in T2. congruence.
Qed.

(** The day of the month is between 1 and 31. *)
Lemma monthOfYearDay_bounds (d : Z) (leap : bool) :
  0 <= d < 365 + (if leap then 1 else 0) ->
  monthStart (monthOfYearDay d leap) leap <= d
  /\ d < monthStart (monthOfYearDay d leap) leap + 31.
Proof.
  intros H. unfold monthOfYearDay. cbv zeta.
  destruct leap;
    repeat match goal with
           | |- context [?a <? ?b] => destruct (Z.ltb_spec a b)
           end; cbn; lia.
Qed.

Lemma getDate_range t : 1 <= getDate t <= 31.
Proof.
  unfold getDate, DateFromDay, MonthFromDay.
  pose proof (DayWithinYear_range (Day t)) as R.
  pose proof (monthOfYearDay_bounds _ _ R). lia.
Qed.

(** The three numbers that [split('/').map(Number)] reads in what
    [formatDate] writes. *)
Lemma fields_of_formatDate d :
  map NumberOf (splitSlash (formatDate d))
  = [Some (getDate d); Some (getMonth d + 1); Some (getFullYear d)].
Proof.
  unfold formatDate. cbv zeta.
  pose proof (getDate_range d) as RD. pose proof (getMonth_range d) as RM.
  destruct (padded_field (getDate d)) as [S1 N1]; [lia|].
  destruct (padded_field (getMonth d + 1)) as [S2 N2]; [lia|].
  cbn [String.append].
  rewrite (splitSlash_app _ _ S1), (splitSlash_app _ _ S2).
  rewrite (splitSlash_noSlash _ (noSlash_toString _)).
  cbn [map]. rewrite N1, N2, NumberOf_toString. reflexivity.
Qed.

(** [parseDate] reads what [formatDate] writes. *)
Lemma parseDate_formatDate d :
  parseDate (formatDate d)
  = Some (newDate (getFullYear d) (getMonth d + 1 - 1) (getDate d)).
Proof. unfold parseDate. rewrite fields_of_formatDate. reflexivity. Qed.

(** For a date at midnight whose year is not between 0 and 99, reading back
    what was written gives the date itself. *)
Lemma parseDate_formatDate_midnight d :
  TimeWithinDay d = 0 -> ~ (0 <= getFullYear d <= 99) ->
  parseDate (formatDate d) = Some d.
Proof.
  intros T Y. rewrite parseDate_formatDate. f_equal.
  unfold newDate. rewrite (fullYearOf_id _ Y).
  replace (getMonth d + 1 - 1) with (getMonth d) by lia.
  replace (getDate d) with (getDate d + 0) by lia.
  unfold getFullYear, getMonth, getDate. rewrite MakeDay_fields.
  rewrite (time_split d) at 2. lia.
Qed.


(** ** Facts about the loop over months *)

Lemma ceilDiv_days k : ceilDiv (k * msPerDay) (1000 * 60 * 60 * 24) = k.
Proof. unfold ceilDiv, msPerDay. zdiv. Qed.

Lemma calcularDiasHastaFecha_days now d :
  calcularDiasHastaFecha now d = (Day d - Day now, setHours0 d).
Proof.
  unfold calcularDiasHastaFecha, setHours0, getTime. cbv zeta. f_equal.
  rewrite <- Z.mul_sub_distr_r. apply ceilDiv_days.
Qed.

Lemma Day_setHours0 d : Day (setHours0 d) = Day d.
Proof.
  unfold setHours0. rewrite <- (Z.add_0_r (_ * _)). apply Day_time.
  unfold msPerDay. lia.
Qed.

Lemma getMonth_setHours0 d : getMonth (setHours0 d) = getMonth d.
Proof. unfold getMonth. rewrite Day_setHours0. reflexivity. Qed.

Lemma getFullYear_setHours0 d : getFullYear (setHours0 d) = getFullYear d.
Proof. unfold getFullYear. rewrite Day_setHours0. reflexivity. Qed.

(** While a month is left, the guard of the loop over months holds. *)
Lemma monthLoop_guard left anioFin mesFin anioActual mesActual :
  0 <= mesActual <= 11 -> 0 <= mesFin <= 11 ->
  S left = monthsLeft anioFin mesFin anioActual mesActual ->
  (anioActual <? anioFin) || ((anioActual =? anioFin) && (mesActual <=? mesFin))
  = true.
Proof.
  unfold monthsLeft. intros Hm Hf H.
  destruct (Z.ltb_spec anioActual anioFin) as [L|L]; [reflexivity|].
  destruct (Z.eqb_spec anioActual anioFin) as [E|E]; [|lia].
  destruct (Z.leb_spec mesActual mesFin) as [M|M]; [reflexivity|lia].
Qed.

(** When no month is left, the guard is false: the loop is over. *)
Lemma monthLoop_done anioFin mesFin anioActual mesActual :
  0 <= mesActual <= 11 -> 0 <= mesFin <= 11 ->
  monthsLeft anioFin mesFin anioActual mesActual = 0%nat ->
  (anioActual <? anioFin) || ((anioActual =? anioFin) && (mesActual <=? mesFin))
  = false.
Proof.
  unfold monthsLeft. intros Hm Hf H.
  destruct (Z.ltb_spec anioActual anioFin) as [L|L]; [lia|].
  destruct (Z.eqb_spec anioActual anioFin) as [E|E]; [|reflexivity].
  destruct (Z.leb_spec mesActual mesFin) as [M|M]; [lia|reflexivity].
Qed.

(** The recursion over months stops where the loop of the source stops. *)
Lemma monthLoop_extra extra now inicioVisita finVisita n anioFin mesFin
      anioActual mesActual idCounter fechasPago :
  0 <= mesActual <= 11 -> 0 <= mesFin <= 11 ->
  monthLoop (monthsLeft anioFin mesFin anioActual mesActual + extra)
            now inicioVisita finVisita n anioFin mesFin
            anioActual mesActual idCounter fechasPago
  = monthLoop (monthsLeft anioFin mesFin anioActual mesActual)
              now inicioVisita finVisita n anioFin mesFin
              anioActual mesActual idCounter fechasPago.
Proof.
  intros Hm Hf.
  remember (monthsLeft anioFin mesFin anioActual mesActual) as left eqn:H.
  revert anioActual mesActual idCounter fechasPago Hm H.
  induction left as [|left IH];
    intros anioActual mesActual idCounter fechasPago Hm H.
  - destruct extra as [|extra]; [reflexivity|]. cbn [Nat.add monthLoop].
    rewrite (monthLoop_done _ _ _ _ Hm Hf (eq_sym H)). reflexivity.
  - cbn [Nat.add monthLoop]. rewrite (monthLoop_guard _ _ _ _ _ Hm Hf H).
    destruct (match getNthBusinessDayOfMonth anioActual mesActual n with
              | Some diaPago => _
              | None => _
              end) as [idCounter' fechasPago'].
    unfold monthsLeft in H.
    destruct (Z.gtb_spec (mesActual + 1) 11) as [G|G];
      apply IH; unfold monthsLeft; lia.
Qed.

Lemma provisionalEntries_app now idCounter ds d :
  provisionalEntries now idCounter (ds ++ [d])
  = provisionalEntries now idCounter ds
    ++ [mkFechaCorte (idCounter + Z.of_nat (List.length ds)) (formatDate d)
                     (provisionalStatus now d) (getMonth d, getFullYear d)].
Proof.
  revert idCounter. induction ds as [|x ds IH]; intros idCounter.
  - cbn [provisionalEntries app List.length]. rewrite Z.add_0_r. reflexivity.
  - rewrite <- app_comm_cons. cbn [provisionalEntries List.length].
    rewrite IH, <- app_comm_cons.
    replace (idCounter + 1 + Z.of_nat (List.length ds))
      with (idCounter + Z.of_nat (S (List.length ds))) by lia.
    reflexivity.
Qed.

(** The loop over months pushes the due dates of the months it visits, in
    order, numbered from [idCounter], each with its provisional status. *)
Lemma monthLoop_spec left now inicioVisita finVisita n anioFin mesFin
      anioActual mesActual idCounter ds :
  0 <= mesActual <= 11 -> 0 <= mesFin <= 11 ->
  left = monthsLeft anioFin mesFin anioActual mesActual ->
  monthLoop left now inicioVisita finVisita n anioFin mesFin
            anioActual mesActual (idCounter + Z.of_nat (List.length ds))
            (provisionalEntries now idCounter ds)
  = provisionalEntries now idCounter
      (ds ++ dueDatesOf inicioVisita finVisita n (monthsFrom left anioActual mesActual)).
Proof.
  revert anioActual mesActual ds.
  induction left as [|left IH]; intros anioActual mesActual ds Hm Hf H.
  - cbn [monthLoop monthsFrom dueDatesOf flat_map]. rewrite app_nil_r. reflexivity.
  - cbn [monthLoop]. rewrite (monthLoop_guard _ _ _ _ _ Hm Hf H).
    cbn [monthsFrom dueDatesOf flat_map].
    unfold dueDateOfMonth at 1. cbn [fst snd].
    assert (Next : forall ds',
      (if mesActual + 1 >? 11
       then monthLoop left now inicioVisita finVisita n anioFin mesFin
              (anioActual + 1) 0 (idCounter + Z.of_nat (List.length ds'))
              (provisionalEntries now idCounter ds')
       else monthLoop left now inicioVisita finVisita n anioFin mesFin
              anioActual (mesActual + 1) (idCounter + Z.of_nat (List.length ds'))
              (provisionalEntries now idCounter ds'))
      = provisionalEntries now idCounter
          (ds' ++ dueDatesOf inicioVisita finVisita n
                    (if mesActual + 1 >? 11 then monthsFrom left (anioActual + 1) 0
                     else monthsFrom left anioActual (mesActual + 1)))).
    { intros ds'. unfold monthsLeft in H.
      destruct (Z.gtb_spec (mesActual + 1) 11) as [G|G];
        apply IH; unfold monthsLeft; lia. }
    destruct (getNthBusinessDayOfMonth anioActual mesActual n) as [diaPago|].
    + destruct ((inicioVisita <=? diaPago) && (diaPago <=? finVisita)).
      * rewrite calcularDiasHastaFecha_days.
        rewrite getMonth_setHours0, getFullYear_setHours0.
        assert (St : (if Day diaPago - Day now <? 0 then normal
                      else if Day diaPago - Day now <=? 10 then warning else normal)
                     = provisionalStatus now diaPago).
        { unfold provisionalStatus. cbv zeta.
          destruct (Z.ltb_spec (Day diaPago - Day now) 0),
                   (Z.leb_spec 0 (Day diaPago - Day now)),
                   (Z.leb_spec (Day diaPago - Day now) 10); try lia; reflexivity. }
        rewrite St, <- provisionalEntries_app.
        replace (idCounter + Z.of_nat (List.length ds) + 1)
          with (idCounter + Z.of_nat (List.length (ds ++ [diaPago])))
          by (rewrite length_app; cbn [List.length]; lia).
        rewrite Next, <- app_assoc. reflexivity.
      * apply Next.
    + apply Next.
Qed.

Lemma monthsFrom_range k anio mes y m :
  0 <= mes <= 11 ->
  In (y, m) (monthsFrom k anio mes) <->
  0 <= m <= 11
  /\ 12 * anio + mes <= 12 * y + m < 12 * anio + mes + Z.of_nat k.
Proof.
  revert anio mes. induction k as [|k IH]; intros anio mes H; cbn [monthsFrom In].
  - split; [contradiction | lia].
  - destruct (Z.gtb_spec (mes + 1) 11) as [G|G]; rewrite IH by lia; split.
    + intros [E | R]; [injection E as <- <-|]; lia.
    + intros R. destruct (Z.eq_dec (12 * anio + mes) (12 * y + m)) as [E|E];
        [left; f_equal; lia | right; lia].
    + intros [E | R]; [injection E as <- <-|]; lia.
    + intros R. destruct (Z.eq_dec (12 * anio + mes) (12 * y + m)) as [E|E];
        [left; f_equal; lia | right; lia].
Qed.

(** The months of the visit are those from the month of its first day to the
    month of its last day. *)
Lemma monthsOfVisit_In inicioVisita finVisita y m :
  In (y, m) (monthsOfVisit inicioVisita finVisita) <->
  0 <= m <= 11
  /\ 12 * getFullYear inicioVisita + getMonth inicioVisita <= 12 * y + m
  /\ 12 * y + m <= 12 * getFullYear finVisita + getMonth finVisita.
Proof.
  unfold monthsOfVisit.
  pose proof (getMonth_range inicioVisita). pose proof (getMonth_range finVisita).
  rewrite monthsFrom_range by assumption. unfold monthsLeft. lia.
Qed.

Lemma calcularFechasConDiasHabiles_spec now inicioVisita finVisita n :
  calcularFechasConDiasHabiles now inicioVisita finVisita n
  = markFirstFuture (setHours0 now)
      (provisionalEntries now 1 (dueDates inicioVisita finVisita n)).
Proof.
  unfold calcularFechasConDiasHabiles, dueDates, monthsOfVisit. cbv zeta. f_equal.
  apply (monthLoop_spec _ now inicioVisita finVisita n _ _ _ _ 1 []);
    [apply getMonth_range | apply getMonth_range | reflexivity].
Qed.

Lemma calcularFechasPagoPila_spec now nit inicioVisita finVisita :
  calcularFechasPagoPila now nit inicioVisita finVisita
  = calcularFechasConDiasHabiles now inicioVisita finVisita (getDiasHabilesPago nit).
Proof.
  unfold calcularFechasPagoPila, getDiasHabilesPago. cbv zeta.
  destruct (find _ LIMITE_SEG_SOCIAL); reflexivity.
Qed.

(** ** Facts about the due dates *)

Lemma dueDateOfMonth_Some inicioVisita finVisita n ym d :
  dueDateOfMonth inicioVisita finVisita n ym = Some d <->
  getNthBusinessDayOfMonth (fst ym) (snd ym) n = Some d
  /\ inicioVisita <= d <= finVisita.
Proof.
  unfold dueDateOfMonth.
  destruct (getNthBusinessDayOfMonth (fst ym) (snd ym) n) as [x|].
  - destruct (Z.leb_spec inicioVisita x), (Z.leb_spec x finVisita); cbn [andb];
      split; try discriminate; try (intros [[= ->] ?]; lia).
    + intros [= ->]. split; [reflexivity | lia].
    + intros [[= ->] _]. reflexivity.
  - split; [discriminate | intros [[=] _]].
Qed.

Lemma dueDatesOf_In inicioVisita finVisita n months d :
  In d (dueDatesOf inicioVisita finVisita n months) <->
  exists ym, In ym months /\ dueDateOfMonth inicioVisita finVisita n ym = Some d.
Proof.
  unfold dueDatesOf. rewrite in_flat_map. split.
  - intros (ym & I & H). exists ym. split; [exact I|].
    destruct (dueDateOfMonth inicioVisita finVisita n ym) as [x|];
      [destruct H as [-> | []]; reflexivity | destruct H].
  - intros (ym & I & H). exists ym. split; [exact I|]. rewrite H. left. reflexivity.
Qed.

Lemma dueDatesOf_length inicioVisita finVisita n months :
  List.length (dueDatesOf inicioVisita finVisita n months)
  = List.length (filter (hasDueDate inicioVisita finVisita n) months).
Proof.
  induction months as [|ym months IH]; [reflexivity|].
  cbn [dueDatesOf flat_map filter]. rewrite length_app. fold (dueDatesOf inicioVisita finVisita n months).
  unfold hasDueDate at 1.
  destruct (dueDateOfMonth inicioVisita finVisita n ym); cbn [List.length]; lia.
Qed.

(** The [n]-th business day of a month is a day of that month, at midnight;
    its year is never one that [new Date] would read as 1900 + year. *)
Lemma getNthBusinessDayOfMonth_fields year month n d :
  getNthBusinessDayOfMonth year month n = Some d ->
  newDate year month 1 <= d <= newDate year (month + 1) 0
  /\ TimeWithinDay d = 0
  /\ getFullYear d = fullYearOf year + month / 12
  /\ getMonth d = month mod 12.
Proof.
  rewrite getNthBusinessDayOfMonth_spec. intros H.
  destruct (0 <? n); [|discriminate H].
  apply nth_error_In, filter_In in H. destruct H as [I _].
  apply daysOfMonth_In in I. destruct I as [R T].
  destruct (fields_in_newDate_month year month d R T) as (Y & M & _).
  repeat split; try assumption; lia.
Qed.

Lemma dueDates_fields inicioVisita finVisita n d :
  In d (dueDates inicioVisita finVisita n) ->
  inicioVisita <= d <= finVisita
  /\ TimeWithinDay d = 0
  /\ ~ (0 <= getFullYear d <= 99).
Proof.
  unfold dueDates. intros H. apply dueDatesOf_In in H.
  destruct H as ([y m] & I & H).
  apply dueDateOfMonth_Some in H. cbn [fst snd] in H. destruct H as [H R].
  apply monthsOfVisit_In in I. destruct I as [Rm _].
  apply getNthBusinessDayOfMonth_fields in H. destruct H as (_ & T & Y & _).
  split; [exact R|]. split; [exact T|].
  rewrite Y, Z.div_small, Z.add_0_r by lia. apply fullYearOf_not_short.
Qed.

Lemma provisionalStatus_not_success now d : isSuccess (provisionalStatus now d) = false.
Proof. unfold provisionalStatus. cbv zeta. destruct (_ && _); reflexivity. Qed.

Lemma provisionalEntries_fecha now idCounter ds :
  map fecha (provisionalEntries now idCounter ds) = map formatDate ds.
Proof.
  revert idCounter. induction ds as [|d ds IH]; intros idCounter; [reflexivity|].
  cbn [provisionalEntries map fecha]. rewrite IH. reflexivity.
Qed.

Lemma provisionalEntries_estado now idCounter ds :
  map estado (provisionalEntries now idCounter ds) = map (provisionalStatus now) ds.
Proof.
  revert idCounter. induction ds as [|d ds IH]; intros idCounter; [reflexivity|].
  cbn [provisionalEntries map estado]. rewrite IH. reflexivity.
Qed.


(** The last loop on the entries of dates at midnight that read back as
    written: nothing changes up to the first date not before [hoy], whose
    entry becomes [success]; nothing changes after it. *)
Lemma markFirstFuture_spec hoy now idCounter ds :
  Forall (fun d => TimeWithinDay d = 0 /\ ~ (0 <= getFullYear d <= 99)) ds ->
  let r := markFirstFuture hoy (provisionalEntries now idCounter ds) in
  map fecha r = map formatDate ds
  /\ map id r = map id (provisionalEntries now idCounter ds)
  /\ ((Forall (fun d => d < hoy) ds
       /\ map estado r = map (provisionalStatus now) ds)
      \/ exists before d after,
           ds = before ++ d :: after
           /\ Forall (fun x => x < hoy) before
           /\ hoy <= d
           /\ map estado r
              = map (provisionalStatus now) before
                ++ success :: map (provisionalStatus now) after).
Proof.
  intros F. revert idCounter.
  induction F as [|d ds [T Y] F IH]; intros idCounter; cbv zeta.
  - cbn [provisionalEntries markFirstFuture map].
    split; [reflexivity|]. split; [reflexivity|]. left. split; constructor.
  - cbn [provisionalEntries markFirstFuture fecha id mesTexto].
    rewrite (parseDate_formatDate_midnight d T Y).
    destruct (Z.leb_spec hoy d) as [L|L].
    + cbn [map fecha id estado].
      rewrite provisionalEntries_fecha.
      split; [reflexivity|]. split; [reflexivity|].
      right. exists [], d, ds.
      split; [reflexivity|]. split; [constructor|]. split; [exact L|].
      rewrite provisionalEntries_estado. reflexivity.
    + specialize (IH (idCounter + 1)). cbv zeta in IH.
      destruct IH as (Hf & Hi & Hs).
      cbn [map fecha id estado]. rewrite Hf, Hi.
      split; [reflexivity|]. split; [reflexivity|].
      destruct Hs as [[Fa Hs] | (before & x & after & E & Fb & Lx & Hs)].
      * left. split; [constructor; assumption|]. rewrite Hs. reflexivity.
      * right. exists (d :: before), x, after.
        split; [rewrite E; reflexivity|].
        split; [constructor; assumption|]. split; [exact Lx|].
        rewrite Hs. reflexivity.
Qed.

Lemma filter_success_provisional now ds :
  filter isSuccess (map (provisionalStatus now) ds) = [].
Proof.
  induction ds as [|d ds IH]; [reflexivity|]. cbn [map filter].
  rewrite provisionalStatus_not_success. exact IH.
Qed.

(** ** Facts about the order of the due dates *)

Lemma MakeDay_index y m d : MakeDay y m d = MakeDay 0 (12 * y + m) d.
Proof.
  rewrite (MakeDay_norm y m), (MakeDay_norm 0 (12 * y + m)).
  replace (0 + (12 * y + m) / 12) with (y + m / 12)
    by zdiv.
  replace ((12 * y + m) mod 12) with (m mod 12)
    by zdiv.
  reflexivity.
Qed.

Lemma MakeDay_date y m d : MakeDay y m d = MakeDay y m 1 + d - 1.
Proof. unfold MakeDay. cbv zeta. lia. Qed.

Lemma monthFirstDay_step k : monthFirstDay k + 28 <= monthFirstDay (k + 1).
Proof.
  unfold monthFirstDay.
  assert (R : 0 <= k mod 12 <= 11)
    by (pose proof (Z.mod_pos_bound k 12); lia).
  rewrite (MakeDay_norm 0 k), MakeDay_next_month.
  rewrite MakeDay_small, MakeDay_end by exact R.
  pose proof (monthStart_lt (k mod 12) (InLeapYear (0 + k / 12)) R). lia.
Qed.

Lemma monthFirstDay_mono k k' : k <= k' -> monthFirstDay k <= monthFirstDay k'.
Proof.
  intros H. replace k' with (k + Z.of_nat (Z.to_nat (k' - k))) by lia.
  induction (Z.to_nat (k' - k)) as [|i IH].
  - rewrite Z.add_0_r. lia.
  - rewrite Nat2Z.inj_succ.
    replace (k + Z.succ (Z.of_nat i)) with (k + Z.of_nat i + 1) by lia.
    pose proof (monthFirstDay_step (k + Z.of_nat i)). lia.
Qed.




Lemma StronglySorted_lt_NoDup l : StronglySorted Z.lt l -> NoDup l.
Proof.
  induction 1 as [|x l S IH F]; constructor; [|exact IH].
  intros I. rewrite Forall_forall in F. specialize (F x I). lia.
Qed.


Lemma monthsFrom_NoDup k anio mes : 0 <= mes <= 11 -> NoDup (monthsFrom k anio mes).
Proof.
  revert anio mes. induction k as [|k IH]; intros anio mes H; cbn [monthsFrom];
    constructor.
  - destruct (Z.gtb_spec (mes + 1) 11) as [G|G]; intros I;
      apply monthsFrom_range in I; lia.
  - destruct (Z.gtb_spec (mes + 1) 11) as [G|G]; apply IH; lia.
Qed.


(** ** Worked examples *)

(** January 2025: New Year's Day and Epiphany (moved to Monday the 6th) are
    holidays, so the second business day is Friday the 3rd. *)
Example business_days_january_2025 :
  map ymd (firstn 3 (getBusinessDaysOfMonth 2025 0))
  = [(2025, 1, 2); (2025, 1, 3); (2025, 1, 7)]
  /\ option_map ymd (getNthBusinessDayOfMonth 2025 0 2) = Some (2025, 1, 3)
  /\ isHoliday (newDate 2025 0 6) = true.
Proof. vm_compute. repeat split; reflexivity. Qed.

(** [new Date(99, 11, 1)] is the first of December 1999. *)
Example newDate_two_digit_year :
  ymd (newDate 99 11 1) = (1999, 12, 1)
  /\ ymd (newDate 100 0 1) = (100, 1, 1)
  /\ ymd (newDate (-1) 0 1) = (-1, 1, 1).
Proof. vm_compute. repeat split; reflexivity. Qed.

(** From Tuesday 2025-01-07 at 10:00 to Wednesday 2025-01-08 at 09:00 the loop
    of [countBusinessDays] visits the Tuesday only, where the calendar days of
    the interval are two business days. *)
Example countBusinessDays_time_of_day :
  let startDate := newDate 2025 0 7 + 10 * 3600000 in
  let endDate := newDate 2025 0 8 + 9 * 3600000 in
  countBusinessDays startDate endDate = 1
  /\ businessDaysBetween startDate endDate = 2.
Proof. vm_compute. split; reflexivity. Qed.

(** The payment dates of the NIT "12345600" (2 business days) for the visit
    from 2025-01-01 to 2025-03-31, computed on 2025-02-01. *)
Example payment_dates_2025 :
  calcularFechasPagoPila (newDate 2025 1 1) (NitString "12345600")
                         (newDate 2025 0 1) (newDate 2025 2 31)
  = [ mkFechaCorte 1 "03/01/2025" normal (0, 2025);
      mkFechaCorte 2 "04/02/2025" success (1, 2025);
      mkFechaCorte 3 "04/03/2025" normal (2, 2025) ].
Proof. vm_compute. reflexivity. Qed.

(** ** Facts about Easter and the places of the holidays *)

(** The Gauss computation: Easter is [p] days after March 22, with [p] from
    0 to 34 and congruent modulo 7 to [4 + 2 e + 2 i - k], the numbers that
    the computation takes from the century and from the year within it. *)
Lemma easter_offset year :
  0 <= year ->
  exists p,
    0 <= p <= 34
    /\ (p - (4 + 2 * ((year / 100) mod 4) + 2 * ((year mod 100) / 4)
             - (year mod 100) mod 4)) mod 7 = 0
    /\ Day (calculateEaster year)
       = DayFromYear (fullYearOf year)
         + march22 (InLeapYear (fullYearOf year)) + p
    /\ TimeWithinDay (calculateEaster year) = 0.
Proof.
  intros Hy. unfold calculateEaster. cbv zeta.
  rewrite TimeWithinDay_newDate, Day_newDate.
  rewrite !(Z.rem_mod_nonneg year) by lia.
  set (a := year mod 19). set (b := year / 100). set (c := year mod 100).
  assert (Ha : 0 <= a <= 18) by (subst a; zdiv).
  assert (Hb : 0 <= b) by (subst b; zdiv).
  assert (Hc : 0 <= c <= 99) by (subst c; zdiv).
  rewrite (Z.rem_mod_nonneg b), (Z.rem_mod_nonneg c) by lia.
  set (d := b / 4). set (e := b mod 4). set (f := (b + 8) / 25).
  set (g := (b - f + 1) / 3).
  assert (He : 0 <= e <= 3) by (subst e; zdiv).
  assert (Hh0 : 0 <= 19 * a + b - d - g + 15) by (subst d g f; zdiv).
  rewrite (Z.rem_mod_nonneg (19 * a + b - d - g + 15)) by lia.
  set (h := (19 * a + b - d - g + 15) mod 30).
  assert (Hh : 0 <= h <= 29) by (subst h; zdiv).
  set (i := c / 4). set (k := c mod 4).
  assert (Hi : 0 <= i <= 24) by (subst i; zdiv).
  assert (Hk : 0 <= k <= 3) by (subst k; zdiv).
  rewrite (Z.rem_mod_nonneg (32 + 2 * e + 2 * i - h - k)) by lia.
  set (l := (32 + 2 * e + 2 * i - h - k) mod 7).
  assert (Hl : 0 <= l <= 6) by (subst l; zdiv).
  set (m := (a + 11 * h + 22 * l) / 451).
  assert (Hm : 0 <= h + l - 7 * m <= 34) by (subst m; zdiv).
  set (N := h + l - 7 * m + 114).
  assert (HN : 114 <= N <= 148) by (subst N; lia).
  rewrite (Z.rem_mod_nonneg N 31) by lia.
  exists (h + l - 7 * m). split; [exact Hm|].
  split; [subst l; zdiv|]. split; [|reflexivity].
  assert (C : N / 31 - 1 = 2 /\ N mod 31 + 1 = N - 92
              \/ N / 31 - 1 = 3 /\ N mod 31 + 1 = N - 123) by zdiv.
  unfold march22.
  destruct C as [[-> ->] | [-> ->]]; rewrite MakeDay_small by lia;
    destruct (InLeapYear (fullYearOf year));
    change (monthStart 2 true) with 60; change (monthStart 2 false) with 59;
    change (monthStart 3 true) with 91; change (monthStart 3 false) with 90;
    subst N; lia.
Qed.




Lemma year_of_year_day y n :
  DayFromYear y <= n < DayFromYear y + 365 -> YearFromDay n = y.
Proof.
  intros H. apply YearFromDay_unique. rewrite DayFromYear_step.
  destruct (InLeapYear y); lia.
Qed.

Lemma Day_setDate t k : Day (setDate t (getDate t + k)) = Day t + k.
Proof. rewrite setDate_getDate. apply Day_addDays. Qed.

Lemma Day_moveToMonday d :
  exists s, 0 <= s <= 6 /\ Day (moveToMonday d) = Day d + s
            /\ (getDay d + s) mod 7 = 1.
Proof.
  rewrite moveToMonday_addDays, Day_addDays. pose proof (getDay_range d) as R.
  destruct (getDay d =? 1) eqn:E1; [apply Z.eqb_eq in E1|apply Z.eqb_neq in E1].
  - exists 0. rewrite E1. repeat split; lia.
  - destruct (getDay d =? 0) eqn:E0; [apply Z.eqb_eq in E0|apply Z.eqb_neq in E0].
    + exists 1. rewrite E0. repeat split; lia.
    + exists (8 - getDay d). repeat split; try lia.
      replace (getDay d + (8 - getDay d)) with 8 by lia. reflexivity.
Qed.


(** Every holiday falls in its window of the year. *)
Lemma holiday_windows year :
  0 <= year ->
  Forall2 (fun h w =>
             DayFromYear (fullYearOf year) + fst w <= Day (date h)
             <= DayFromYear (fullYearOf year) + snd w)
          (pushedHolidays year)
          (holidayWindows (InLeapYear (fullYearOf year))).
Proof.
  intros Hy. destruct (easter_offset year Hy) as (p & Hp & _ & HE & _).
  unfold march22 in HE.
  unfold pushedHolidays, holidayWindows, copyDate. cbv zeta.
  set (Y := fullYearOf year) in *. set (E := calculateEaster year) in *.
  assert (F : forall m d, 0 <= m <= 11 ->
                Day (newDate year m d)
                = DayFromYear Y + monthStart m (InLeapYear Y) + d - 1).
  { intros m d Hm. rewrite Day_newDate. apply MakeDay_small, Hm. }
  repeat match goal with
         | |- Forall2 _ (_ :: _) (_ :: _) => constructor
         | |- Forall2 _ [] [] => constructor
         end;
    cbn [date fst snd];
    change (getDate E - 3) with (getDate E + (-3));
    change (getDate E - 2) with (getDate E + (-2));
    repeat match goal with
           | |- context [Day (moveToMonday ?x)] =>
               let s := fresh "s" in
               let Hs := fresh "Hs" in
               let Es := fresh "Es" in
               destruct (Day_moveToMonday x) as (s & Hs & Es & _);
               rewrite Es; clear Es
           end;
    rewrite ?Day_setDate, ?F, ?HE by lia;
    destruct (InLeapYear Y);
    cbn [monthStart Z.leb Z.eqb Z.add Z.compare Pos.compare Pos.compare_cont
         Pos.eqb Pos.add Pos.succ Pos.add_carry Z.pos_sub Z.opp Z.sub
         Pos.pred_double Z.double Z.succ_double Z.pred_double];
    lia.
Qed.

(** ** Facts about holidays and business days *)

Lemma Forall2_In_l {A B} (P : A -> B -> Prop) l l' x :
  Forall2 P l l' -> In x l -> exists y, In y l' /\ P x y.
Proof.
  induction 1 as [|a b l l' Hab _ IH]; intros Hin; [destruct Hin|].
  destruct Hin as [<- | Hin].
  - exists b. split; [left; reflexivity | exact Hab].
  - destruct (IH Hin) as (y & Hy & Py). exists y. split; [right; exact Hy | exact Py].
Qed.

Lemma holidayWindows_in_year leap :
  Forall (fun w => 0 <= fst w /\ snd w <= 364) (holidayWindows leap).
Proof. destruct leap; repeat constructor; cbn; lia. Qed.

(** Every holiday computed for [year] falls in the year that
    [new Date(year, ...)] makes of it. *)
Lemma holiday_year year h :
  0 <= year -> In h (pushedHolidays year) ->
  getFullYear (date h) = fullYearOf year.
Proof.
  intros Hy Hin.
  destruct (Forall2_In_l _ _ _ _ (holiday_windows year Hy) Hin) as (w & Hw & B).
  pose proof (proj1 (Forall_forall _ _) (holidayWindows_in_year _) w Hw) as R.
  cbv beta in B, R. apply year_of_year_day. lia.
Qed.

(** A day is known by its year, month and date. *)
Lemma same_fields a b :
  getFullYear a = getFullYear b -> getMonth a = getMonth b ->
  getDate a = getDate b -> Day a = Day b.
Proof.
  unfold getFullYear, getMonth, getDate. intros Y M D.
  pose proof (MakeDay_fields (Day a) 0) as Fa.
  pose proof (MakeDay_fields (Day b) 0) as Fb.
  rewrite Y, M, D in Fa. lia.
Qed.

Lemma fields_of_Day a b :
  Day a = Day b ->
  getFullYear a = getFullYear b /\ getMonth a = getMonth b
  /\ getDate a = getDate b /\ getDay a = getDay b.
Proof.
  unfold getFullYear, getMonth, getDate, getDay. intros ->. repeat split.
Qed.

(** [isHoliday] compares calendar days: the day of the date is the day of
    one of the holidays of the date's year. *)
Lemma isHoliday_Day d :
  isHoliday d = true <-> In (Day d) (holidayDays (getFullYear d)).
Proof.
  unfold isHoliday, holidayDays. cbv zeta. rewrite existsb_exists, in_map_iff.
  split; intros (h & A & B); exists h.
  - apply andb_prop in B. destruct B as [B D]. apply andb_prop in B.
    destruct B as [Y M]. rewrite Z.eqb_eq in *.
    split; [apply same_fields; assumption | exact A].
  - destruct (fields_of_Day _ _ A) as (Y & M & D & _).
    split; [exact B|]. rewrite Y, M, D, !Z.eqb_refl. reflexivity.
Qed.

Lemma isHoliday_ext a b : Day a = Day b -> isHoliday a = isHoliday b.
Proof.
  intros E. destruct (fields_of_Day _ _ E) as (Y & _).
  apply eq_true_iff_eq. rewrite !isHoliday_Day, E, Y. reflexivity.
Qed.

Lemma isBusinessDay_parts d :
  isBusinessDay d = isWeekday d && negb (isHoliday d).
Proof.
  unfold isBusinessDay, isWeekday. cbv zeta.
  destruct ((getDay d =? 0) || (getDay d =? 6)); [reflexivity|].
  destruct (isHoliday d); reflexivity.
Qed.

Lemma holidayDays_In n year :
  In n (holidayDays year) <->
  exists h, In h (pushedHolidays year) /\ Day (date h) = n.
Proof.
  unfold holidayDays. rewrite in_map_iff.
  split; intros (h & A & B); exists h.
  - split; [exact (proj1 (getColombianHolidays_In h year) B) | exact A].
  - split; [exact B | exact (proj2 (getColombianHolidays_In h year) A)].
Qed.

Lemma holidayDays_length year : List.length (holidayDays year) = 19%nat.
Proof.
  unfold holidayDays, getColombianHolidays.
  rewrite length_map, (array_sort_length (fun a => getTime (date a))).
  reflexivity.
Qed.

(** *** Counting the holidays of a month *)

Lemma overlaps_of_window first a w n :
  first + fst w <= n <= first + snd w ->
  inWindow first a n = true -> overlaps a w = true.
Proof.
  unfold inWindow, overlaps. intros H E. apply andb_prop in E.
  destruct E as [E1 E2]. apply Z.leb_le in E1, E2.
  apply andb_true_intro. split; apply Z.leb_le; lia.
Qed.

Lemma windows_count {A} (f : A -> Z) first a (hs : list A) (ws : list (Z * Z)) :
  Forall2 (fun h w => first + fst w <= f h <= first + snd w) hs ws ->
  (List.length (filter (fun h => inWindow first a (f h)) hs)
   <= List.length (filter (overlaps a) ws))%nat.
Proof.
  induction 1 as [|h w hs ws Hw _ IH]; cbn [filter List.length]; [lia|].
  destruct (inWindow first a (f h)) eqn:E.
  - rewrite (overlaps_of_window _ _ _ _ Hw E). cbn [List.length]. lia.
  - destruct (overlaps a w); cbn [List.length]; lia.
Qed.

Lemma month_windows_count m leap :
  0 <= m <= 11 ->
  (List.length (filter (overlaps (monthWindow m leap)) (holidayWindows leap))
   <= 4)%nat.
Proof.
  intros H.
  assert (C : m = 0 \/ m = 1 \/ m = 2 \/ m = 3 \/ m = 4 \/ m = 5 \/ m = 6
              \/ m = 7 \/ m = 8 \/ m = 9 \/ m = 10 \/ m = 11) by lia.
  destruct leap;
    repeat (destruct C as [-> | C]; [vm_compute; lia|]); subst; vm_compute; lia.
Qed.

Lemma monthOfYearDay_upper (d : Z) (leap : bool) :
  0 <= d < 365 + (if leap then 1 else 0) ->
  d < monthStart (monthOfYearDay d leap + 1) leap.
Proof.
  intros H. unfold monthOfYearDay. cbv zeta.
  destruct leap;
    repeat match goal with
           | |- context [?a <? ?b] => destruct (Z.ltb_spec a b)
           end; cbn; lia.
Qed.

(** The holidays of a month are at most four days: every holiday of the
    month has its day in a list of at most four. *)
Lemma month_holidays y m :
  100 <= y -> 0 <= m <= 11 ->
  exists T : list Z,
    (List.length T <= 4)%nat
    /\ forall d, getFullYear d = y -> getMonth d = m -> isHoliday d = true ->
                 In (Day d) T.
Proof.
  intros Hy Hm.
  set (w := monthWindow m (InLeapYear y)).
  exists (map (fun h => Day (date h))
              (filter (fun h => inWindow (DayFromYear y) w (Day (date h)))
                      (pushedHolidays y))).
  split.
  - rewrite length_map.
    pose proof (holiday_windows y ltac:(lia)) as W.
    rewrite fullYearOf_id in W by lia.
    etransitivity; [apply (windows_count _ _ _ _ _ W)|].
    apply month_windows_count, Hm.
  - intros d Yd Md Hd. apply (proj1 (isHoliday_Day d)) in Hd. rewrite Yd in Hd.
    destruct (proj1 (holidayDays_In _ _) Hd) as (h & Hin & E).
    apply in_map_iff. exists h. split; [exact E|].
    apply filter_In. split; [exact Hin|].
    rewrite E. unfold inWindow, w, monthWindow. cbn [fst snd].
    unfold getFullYear, getMonth in *.
    pose proof (DayWithinYear_range (Day d)) as R.
    unfold DayWithinYear in *. rewrite Yd in R.
    pose proof (monthOfYearDay_bounds (Day d - DayFromYear y) (InLeapYear y) R) as B.
    unfold MonthFromDay, DayWithinYear in Md. rewrite Yd in Md. rewrite Md in B.
    pose proof (monthOfYearDay_upper (Day d - DayFromYear y) (InLeapYear y) R) as U.
    rewrite Md in U.
    apply andb_true_intro. split; apply Z.leb_le; lia.
Qed.

(** ** Counting weekdays, holidays and business days *)

Lemma daysFrom_app j k t :
  daysFrom (j + k) t = daysFrom j t ++ daysFrom k (addDays t (Z.of_nat j)).
Proof.
  revert t. induction j as [|j IH]; intros t.
  - cbn [daysFrom Nat.add List.app]. f_equal. unfold addDays, Date.
    change (Z.of_nat 0) with 0. lia.
  - cbn [daysFrom Nat.add List.app]. rewrite IH. do 3 f_equal.
    unfold addDays, msPerDay, Date in *. lia.
Qed.

Lemma daysFrom_map k t :
  daysFrom k t = map (fun i => addDays t (Z.of_nat i)) (seq 0 k).
Proof.
  revert t. induction k as [|k IH]; intros t; [reflexivity|].
  cbn [daysFrom seq map]. f_equal.
  - unfold addDays, Date. change (Z.of_nat 0) with 0. lia.
  - rewrite IH, <- seq_shift, map_map. apply map_ext. intros i.
    unfold addDays, msPerDay, Date in *. lia.
Qed.


Lemma filter_map_length {A B} (f : B -> bool) (g : A -> B) l :
  List.length (filter f (map g l)) = List.length (filter (fun x => f (g x)) l).
Proof.
  induction l as [|x l IH]; [reflexivity|]. cbn [map filter].
  destruct (f (g x)); cbn [List.length]; rewrite IH; reflexivity.
Qed.

Lemma isWeekday_addDays t i :
  isWeekday (addDays t i) = weekdayNumber ((getDay t + i) mod 7).
Proof. unfold isWeekday. rewrite getDay_addDays. reflexivity. Qed.

(** Seven days in a row have five weekdays. *)
Lemma weekdays_week t : List.length (filter isWeekday (daysFrom 7 t)) = 5%nat.
Proof.
  rewrite daysFrom_map, filter_map_length.
  rewrite (filter_ext _ (fun i => weekdayNumber ((getDay t + Z.of_nat i) mod 7)))
    by (intros i; apply isWeekday_addDays).
  pose proof (getDay_range t) as R.
  assert (C : getDay t = 0 \/ getDay t = 1 \/ getDay t = 2 \/ getDay t = 3
              \/ getDay t = 4 \/ getDay t = 5 \/ getDay t = 6) by lia.
  repeat (destruct C as [-> | C]; [reflexivity|]). rewrite C. reflexivity.
Qed.

Lemma weekdays_weeks w t :
  List.length (filter isWeekday (daysFrom (7 * w) t)) = (5 * w)%nat.
Proof.
  revert t. induction w as [|w IH]; intros t; [reflexivity|].
  replace (7 * S w)%nat with (7 + 7 * w)%nat by lia.
  rewrite daysFrom_app, filter_app, length_app, weekdays_week, IH. lia.
Qed.


Lemma filter_split_length {A} (p q : A -> bool) l :
  (List.length (filter p l)
   <= List.length (filter (fun x => p x && negb (q x)) l)
      + List.length (filter q l))%nat.
Proof.
  induction l as [|x l IH]; [reflexivity|]. cbn [filter].
  destruct (p x), (q x); cbn [andb negb List.length]; lia.
Qed.


Lemma daysFrom_Day_sorted k t :
  StronglySorted (fun a b => Day a < Day b) (daysFrom k t).
Proof.
  revert t. induction k as [|k IH]; intros t; cbn [daysFrom]; constructor.
  - apply IH.
  - apply Forall_forall. intros d Hd.
    destruct (proj1 (daysFrom_In _ _ _) Hd) as (i & _ & ->).
    rewrite !Day_addDays. lia.
Qed.

(** Days in a row that are holidays are no more than the days known to
    hold them. *)
Lemma holidays_among k t (T : list Z) :
  (forall d, In d (daysFrom k t) -> isHoliday d = true -> In (Day d) T) ->
  (List.length (filter isHoliday (daysFrom k t)) <= List.length T)%nat.
Proof.
  intros H. rewrite <- (length_map Day).
  apply NoDup_incl_length.
  - apply StronglySorted_lt_NoDup, (proj1 (StronglySorted_map Day Z.lt _)).
    apply filter_sorted, daysFrom_Day_sorted.
  - intros n Hn. apply in_map_iff in Hn. destruct Hn as (d & <- & Hd).
    apply filter_In in Hd. apply H; tauto.
Qed.

Lemma business_days_among k t (T : list Z) :
  (forall d, In d (daysFrom k t) -> isHoliday d = true -> In (Day d) T) ->
  (List.length (filter isWeekday (daysFrom k t))
   <= List.length (filter isBusinessDay (daysFrom k t)) + List.length T)%nat.
Proof.
  intros H. pose proof (holidays_among k t T H) as L.
  pose proof (filter_split_length isWeekday isHoliday (daysFrom k t)) as S.
  rewrite (filter_ext isBusinessDay
             (fun x => isWeekday x && negb (isHoliday x)))
    by apply isBusinessDay_parts.
  lia.
Qed.


(** *** The days of a month *)

Lemma monthStart_le m leap :
  0 <= m <= 11 -> monthStart (m + 1) leap <= monthStart m leap + 31.
Proof.
  intros H.
  assert (C : m = 0 \/ m = 1 \/ m = 2 \/ m = 3 \/ m = 4 \/ m = 5 \/ m = 6
              \/ m = 7 \/ m = 8 \/ m = 9 \/ m = 10 \/ m = 11) by lia.
  destruct leap; repeat (destruct C as [-> | C]; [cbn; lia|]); subst; cbn; lia.
Qed.

(** A month has from 28 to 31 days. *)
Lemma daysOfMonth_days year month :
  exists e, (e <= 3)%nat
            /\ daysOfMonth year month = daysFrom (28 + e) (newDate year month 1).
Proof.
  unfold daysOfMonth, daysLeft. cbv zeta.
  assert (R : 0 <= month mod 12 <= 11)
    by (pose proof (Z.mod_pos_bound month 12); lia).
  assert (E : (newDate year (month + 1) 0 - newDate year month 1) / msPerDay
              = MakeDay (fullYearOf year) (month + 1) 0
                - MakeDay (fullYearOf year) month 1).
  { unfold newDate, msPerDay. zdiv. }
  rewrite E, MakeDay_next_month, (MakeDay_norm _ month).
  rewrite MakeDay_end, MakeDay_small by exact R.
  pose proof (monthStart_lt (month mod 12)
                (InLeapYear (fullYearOf year + month / 12)) R) as L.
  pose proof (monthStart_le (month mod 12)
                (InLeapYear (fullYearOf year + month / 12)) R) as U.
  set (a := monthStart (month mod 12 + 1) _) in *.
  set (b := monthStart (month mod 12) _) in *.
  exists (Z.to_nat (a - b - 28)). split; [lia|]. f_equal. lia.
Qed.


(** ** Facts about the next business day *)

(** The loop stops at the first business day, if the tests allowed reach
    it. *)
Lemma nextBusinessLoop_first k fuel t :
  (forall j, (j < k)%nat -> isBusinessDay (addDays t (Z.of_nat j)) = false) ->
  isBusinessDay (addDays t (Z.of_nat k)) = true ->
  nextBusinessLoop fuel t
  = if (k <? fuel)%nat then Some (addDays t (Z.of_nat k)) else None.
Proof.
  revert fuel t. induction k as [|k IH]; intros fuel t Hb Hk.
  - assert (E : addDays t (Z.of_nat 0) = t).
    { unfold addDays, Date. change (Z.of_nat 0) with 0. lia. }
    rewrite E in *. destruct fuel as [|fuel]; [reflexivity|].
    cbn [nextBusinessLoop]. rewrite Hk. reflexivity.
  - destruct fuel as [|fuel]; [reflexivity|].
    cbn [nextBusinessLoop].
    assert (E0 : isBusinessDay t = false).
    { rewrite <- (Hb 0%nat) by lia. f_equal.
      unfold addDays, Date. change (Z.of_nat 0) with 0. lia. }
    rewrite E0. cbn [negb]. rewrite setDate_getDate.
    assert (S1 : forall j, addDays (addDays t 1) (Z.of_nat j)
                           = addDays t (Z.of_nat (S j))).
    { intros j. unfold addDays, msPerDay, Date. lia. }
    rewrite (IH fuel (addDays t 1)).
    + rewrite S1. change (S k <? S fuel)%nat with (k <? fuel)%nat. reflexivity.
    + intros j Hj. rewrite S1. apply Hb. lia.
    + rewrite S1. exact Hk.
Qed.

Lemma first_true (f : nat -> bool) n :
  (exists i, (i < n)%nat /\ f i = true) ->
  exists k, (k < n)%nat /\ f k = true /\ forall j, (j < k)%nat -> f j = false.
Proof.
  induction n as [|n IH]; intros (i & Hi & Fi); [lia|].
  destruct (existsb f (seq 0 n)) eqn:E.
  - apply existsb_exists in E. destruct E as (i' & Hin & Fi').
    apply in_seq in Hin.
    destruct IH as (k & Hk & Fk & Hm); [exists i'; split; [lia | exact Fi']|].
    exists k. split; [lia|]. split; [exact Fk | exact Hm].
  - assert (N : forall j, (j < n)%nat -> f j = false).
    { intros j Hj. destruct (f j) eqn:Fj; [|reflexivity].
      assert (X : existsb f (seq 0 n) = true)
        by (apply existsb_exists; exists j; split; [apply in_seq; lia | exact Fj]).
      congruence. }
    assert (i = n).
    { destruct (Nat.eq_dec i n) as [e|ne]; [exact e|].
      rewrite N in Fi by lia. discriminate. }
    subst i. exists n. split; [lia|]. split; [exact Fi | exact N].
Qed.

(** The years of 56 days in a row are the year of the first and the next. *)
Lemma year_within t i :
  0 <= i < 365 ->
  getFullYear (addDays t i) = getFullYear t
  \/ getFullYear (addDays t i) = getFullYear t + 1.
Proof.
  intros Hi. unfold getFullYear. rewrite Day_addDays.
  pose proof (YearFromDay_spec (Day t)) as S.
  set (y := YearFromDay (Day t)) in *.
  destruct (Z_lt_ge_dec (Day t + i) (DayFromYear (y + 1))) as [L|G].
  - left. apply YearFromDay_unique. lia.
  - right. apply year_of_year_day. lia.
Qed.

(** Among 56 days in a row one is a business day: 40 of them are weekdays,
    and the holidays of two years are 38. *)
Lemma business_day_within t :
  exists i, (i < 56)%nat /\ isBusinessDay (addDays t (Z.of_nat i)) = true.
Proof.
  set (T := holidayDays (getFullYear t) ++ holidayDays (getFullYear t + 1)).
  assert (F : forall d, In d (daysFrom 56 t) -> isHoliday d = true ->
                        In (Day d) T).
  { intros d Hd H. destruct (proj1 (daysFrom_In _ _ _) Hd) as (i & Hi & ->).
    apply (proj1 (isHoliday_Day _)) in H. apply in_or_app.
    destruct (year_within t (Z.of_nat i) ltac:(lia)) as [E|E];
      rewrite E in H; [left | right]; exact H. }
  pose proof (business_days_among 56 t T F) as B.
  pose proof (weekdays_weeks 8 t) as W.
  change (7 * 8)%nat with 56%nat in W. change (5 * 8)%nat with 40%nat in W.
  assert (LT : List.length T = 38%nat)
    by (unfold T; rewrite length_app, !holidayDays_length; reflexivity).
  destruct (filter isBusinessDay (daysFrom 56 t)) as [|d l] eqn:E.
  - cbn [List.length] in B. lia.
  - assert (Hd : In d (filter isBusinessDay (daysFrom 56 t)))
      by (rewrite E; left; reflexivity).
    apply filter_In in Hd. destruct Hd as [Hd Bd].
    destruct (proj1 (daysFrom_In _ _ _) Hd) as (i & Hi & ->).
    exists i. split; [exact Hi | exact Bd].
Qed.

(** [getNextBusinessDay]: the loop ends for every date, within 56 days; the
    result is the first business day after the date, at the date's time of
    day. *)
Lemma getNextBusinessDay_first date :
  exists k,
    1 <= k <= 56
    /\ (forall fuel,
          getNextBusinessDay fuel date
          = if (Z.to_nat k <=? fuel)%nat then Some (addDays date k) else None)
    /\ isBusinessDay (addDays date k) = true
    /\ forall j, 1 <= j < k -> isBusinessDay (addDays date j) = false.
Proof.
  destruct (first_true (fun i => isBusinessDay (addDays (addDays date 1) (Z.of_nat i)))
                       56 (business_day_within (addDays date 1)))
    as (k & Hk & Bk & Hm).
  assert (S1 : forall j, addDays (addDays date 1) (Z.of_nat j)
                         = addDays date (Z.of_nat j + 1)).
  { intros j. unfold addDays, msPerDay, Date. lia. }
  exists (Z.of_nat k + 1). split; [lia|]. split; [|split].
  - intros fuel. unfold getNextBusinessDay, copyDate. cbv zeta.
    rewrite setDate_getDate.
    rewrite (nextBusinessLoop_first k fuel (addDays date 1) Hm Bk), S1.
    replace (Z.to_nat (Z.of_nat k + 1)) with (S k) by lia.
    destruct fuel as [|fuel]; [reflexivity|].
    change (S k <=? S fuel)%nat with (k <=? fuel)%nat.
    destruct (Nat.ltb_spec k (S fuel)), (Nat.leb_spec k fuel);
      try reflexivity; lia.
  - rewrite <- S1. exact Bk.
  - intros j Hj. replace j with (Z.of_nat (Z.to_nat (j - 1)) + 1) by lia.
    rewrite <- S1. apply Hm. lia.
Qed.

(** ** Facts about the feasts counted from Easter *)



Lemma addDays_addDays t j k : addDays (addDays t j) k = addDays t (j + k).
Proof. unfold addDays, msPerDay, Date. lia. Qed.



(** ** Facts about the business days of a month *)

Lemma nth_error_filter_daysFrom (f : Date -> bool) k t j d :
  nth_error (filter f (daysFrom k t)) j = Some d ->
  exists i, (j <= i < k)%nat /\ d = addDays t (Z.of_nat i).
Proof.
  revert t j. induction k as [|k IH]; intros t j H.
  - destruct j; discriminate H.
  - cbn [daysFrom filter] in H.
    assert (S1 : forall i, addDays (addDays t 1) (Z.of_nat i)
                           = addDays t (Z.of_nat (S i))).
    { intros i. unfold addDays, msPerDay, Date. lia. }
    destruct (f t).
    + destruct j as [|j].
      * injection H as <-. exists 0%nat. split; [lia|].
        unfold addDays, Date. change (Z.of_nat 0) with 0. lia.
      * cbn [nth_error] in H. destruct (IH _ _ H) as (i & Hi & ->).
        exists (S i). split; [lia | apply S1].
    + destruct (IH _ _ H) as (i & Hi & ->).
      exists (S i). split; [lia | apply S1].
Qed.

(** The table of deadlines holds from 2 to 16 business days. *)
Lemma LIMITE_SEG_SOCIAL_range :
  forallb (fun item => (2 <=? DIAS_HABILES item) && (DIAS_HABILES item <=? 16))
          LIMITE_SEG_SOCIAL = true.
Proof. vm_compute. reflexivity. Qed.

Lemma getDiasHabilesPago_range nit : 2 <= getDiasHabilesPago nit <= 16.
Proof.
  unfold getDiasHabilesPago. cbv zeta.
  destruct (find _ LIMITE_SEG_SOCIAL) as [item|] eqn:E; [|lia].
  apply find_some in E. destruct E as [Hin _].
  pose proof (proj1 (forallb_forall _ _) LIMITE_SEG_SOCIAL_range item Hin) as R.
  apply andb_prop in R. destruct R as [A B].
  apply Z.leb_le in A, B. lia.
Qed.

(** For a year and a month from 0 on, the n-th business day of the month
    exists for every [n] from 1 to 16, among the first 28 days, and not
    before day [n]. *)
Lemma nth_business_day_exists year month n :
  0 <= year -> 0 <= month -> 1 <= n <= 16 ->
  exists d, getNthBusinessDayOfMonth year month n = Some d
            /\ n <= getDate d <= 28.
Proof.
  intros Hy Hm Hn. rewrite getNthBusinessDayOfMonth_spec.
  destruct (Z.ltb_spec 0 n) as [_|]; [|lia].
  assert (R : 0 <= month mod 12 <= 11)
    by (pose proof (Z.mod_pos_bound month 12); lia).
  assert (Y : 100 <= fullYearOf year + month / 12).
  { assert (0 <= month / 12) by zdiv.
    pose proof (fullYearOf_not_short year). unfold fullYearOf in *.
    destruct ((0 <=? year) && (year <=? 99)); lia. }
  destruct (month_holidays _ _ Y R) as (T & LT & HT).
  destruct (daysOfMonth_days year month) as (e & He & E).
  set (t := newDate year month 1) in *.
  assert (F28 : forall d, In d (daysFrom 28 t) -> isHoliday d = true ->
                          In (Day d) T).
  { intros d Hd.
    assert (Hd' : In d (daysOfMonth year month))
      by (rewrite E, daysFrom_app; apply in_or_app; left; exact Hd).
    destruct (proj1 (daysOfMonth_In _ _ _) Hd') as (B & T0).
    destruct (fields_in_newDate_month _ _ _ B T0) as (A1 & A2 & _).
    apply HT; assumption. }
  pose proof (business_days_among 28 t T F28) as B.
  pose proof (weekdays_weeks 4 t) as W.
  change (7 * 4)%nat with 28%nat in W. change (5 * 4)%nat with 20%nat in W.
  rewrite E, daysFrom_app, filter_app.
  rewrite nth_error_app1 by lia.
  destruct (nth_error (filter isBusinessDay (daysFrom 28 t)) (Z.to_nat (n - 1)))
    as [d|] eqn:N.
  - exists d. split; [reflexivity|].
    destruct (nth_error_filter_daysFrom _ _ _ _ _ N) as (i & Hi & ->).
    assert (Hd' : In (addDays t (Z.of_nat i)) (daysOfMonth year month)).
    { rewrite E. apply daysFrom_In. exists i. split; [lia | reflexivity]. }
    destruct (proj1 (daysOfMonth_In _ _ _) Hd') as (B' & T0).
    destruct (fields_in_newDate_month _ _ _ B' T0) as (_ & _ & A3).
    rewrite A3. fold t. rewrite Day_addDays. lia.
  - apply nth_error_None in N. lia.
Qed.

Lemma filter_none {A} (f : A -> bool) l :
  (forall x, In x l -> f x = false) -> filter f l = [].
Proof.
  induction l as [|x l IH]; intros H; [reflexivity|]. cbn [filter].
  rewrite (H x) by (left; reflexivity). apply IH.
  intros y Hy. apply H. right. exact Hy.
Qed.

Lemma daysLeft_addDays t k :
  0 <= k -> daysLeft (addDays t k) t = Z.to_nat (k + 1).
Proof.
  intros Hk. unfold daysLeft. f_equal. unfold addDays, msPerDay. zdiv.
Qed.

(** [countBusinessDays] over whole days from [t]. *)
Lemma countBusinessDays_days t k :
  0 <= k ->
  countBusinessDays t (addDays t k)
  = Z.of_nat (List.length (filter isBusinessDay (daysFrom (Z.to_nat (k + 1)) t))).
Proof.
  intros Hk. unfold countBusinessDays, copyDate. cbv zeta.
  rewrite (countLoop_spec _ _ _ _ eq_refl), daysLeft_addDays by exact Hk.
  lia.
Qed.

(** Two neighbours among the days in a row that pass a test: the second is
    the first day after the first that passes it. *)
Lemma filter_daysFrom_neighbours (f : Date -> bool) k t j a b :
  nth_error (filter f (daysFrom k t)) j = Some a ->
  nth_error (filter f (daysFrom k t)) (S j) = Some b ->
  exists g, 1 <= g /\ b = addDays a g /\ f b = true
            /\ forall i, 1 <= i < g -> f (addDays a i) = false.
Proof.
  revert t j. induction k as [|k IH]; intros t j Ha Hb.
  - destruct j; discriminate Ha.
  - cbn [daysFrom filter] in Ha, Hb. destruct (f t) eqn:Ft.
    + destruct j as [|j].
      * injection Ha as <-. cbn [nth_error] in Hb.
        clear IH Ft. revert t Hb. induction k as [|k IHk]; intros t Hb.
        { discriminate Hb. }
        cbn [daysFrom filter] in Hb. destruct (f (addDays t 1)) eqn:F1.
        -- injection Hb as <-. exists 1. split; [lia|]. split; [reflexivity|].
           split; [exact F1|]. intros i Hi. lia.
        -- destruct (IHk _ Hb) as (g & Hg & -> & Fb & Hm).
           exists (g + 1). split; [lia|].
           split; [unfold addDays, msPerDay, Date; lia|].
           split; [exact Fb|].
           intros i Hi. destruct (Z.eq_dec i 1) as [->|Ni]; [exact F1|].
           replace i with (1 + (i - 1)) by lia. rewrite <- addDays_addDays.
           apply Hm. lia.
      * cbn [nth_error] in Ha, Hb. exact (IH _ _ Ha Hb).
    + exact (IH _ _ Ha Hb).
Qed.

(** The first business day after a date is known by what it is. *)
Lemma getNextBusinessDay_is date g :
  1 <= g -> isBusinessDay (addDays date g) = true ->
  (forall i, 1 <= i < g -> isBusinessDay (addDays date i) = false) ->
  g <= 56
  /\ forall fuel, getNextBusinessDay fuel date
                  = if (Z.to_nat g <=? fuel)%nat then Some (addDays date g) else None.
Proof.
  intros Hg Hb Hm.
  destruct (getNextBusinessDay_first date) as (k & Hk & Hf & Hbk & Hmk).
  assert (k = g).
  { destruct (Z.lt_trichotomy k g) as [L | [E | G]]; [|exact E|].
    - rewrite Hm in Hbk by lia. discriminate Hbk.
    - rewrite Hmk in Hb by lia. discriminate Hb. }
  subst k. split; [lia | exact Hf].
Qed.

(** ** Facts about the written dates, the months and the route *)

(** Reading back what [formatDate] writes gives the midnight of the day,
    for a year that [new Date] takes as it is. *)
Lemma parseDate_formatDate_day d :
  ~ (0 <= getFullYear d <= 99) ->
  parseDate (formatDate d) = Some (setHours0 d).
Proof.
  intros Y. rewrite parseDate_formatDate. f_equal.
  unfold newDate, setHours0. rewrite (fullYearOf_id _ Y).
  replace (getMonth d + 1 - 1) with (getMonth d) by lia.
  replace (getDate d) with (getDate d + 0) by lia.
  unfold getFullYear, getMonth, getDate. rewrite MakeDay_fields. f_equal. lia.
Qed.

Lemma Route_calcularDiasHastaFecha_parse now s :
  Route.calcularDiasHastaFecha now s
  = option_map (fun f => fst (calcularDiasHastaFecha now f)) (parseDate s).
Proof.
  unfold Route.calcularDiasHastaFecha, parseDate.
  destruct (map NumberOf (splitSlash s)) as [|[dia|] [|[mes|] [|[anio|] l]]];
    reflexivity.
Qed.

Lemma Route_calcularDiasHastaFecha_formatDate now d :
  ~ (0 <= getFullYear d <= 99) ->
  Route.calcularDiasHastaFecha now (formatDate d) = Some (Day d - Day now).
Proof.
  intros Y. rewrite Route_calcularDiasHastaFecha_parse, parseDate_formatDate_day by exact Y.
  cbn [option_map]. rewrite calcularDiasHastaFecha_days. cbn [fst].
  rewrite Day_setHours0. reflexivity.
Qed.

(** *** Months *)

(** A day lies in its month. *)
Lemma Day_month_bounds t :
  monthFirstDay (monthIndex t) <= Day t < monthFirstDay (monthIndex t + 1).
Proof.
  unfold monthIndex, monthFirstDay, getFullYear, getMonth.
  set (n := Day t).
  pose proof (MonthFromDay_range n) as R.
  replace (12 * YearFromDay n + MonthFromDay n + 1)
    with (12 * YearFromDay n + (MonthFromDay n + 1)) by lia.
  rewrite <- !MakeDay_index, MakeDay_small, MakeDay_end by exact R.
  pose proof (DayWithinYear_range n) as W.
  pose proof (monthOfYearDay_bounds _ _ W) as B.
  pose proof (monthOfYearDay_upper _ _ W) as U.
  unfold MonthFromDay, DayWithinYear in *. lia.
Qed.

(** A later date is in the same month or in a later one. *)
Lemma monthIndex_mono a b : a <= b -> monthIndex a <= monthIndex b.
Proof.
  intros H.
  destruct (Z_le_gt_dec (monthIndex a) (monthIndex b)) as [L|G]; [exact L|].
  pose proof (Day_month_bounds a) as Ba. pose proof (Day_month_bounds b) as Bb.
  pose proof (monthFirstDay_mono (monthIndex b + 1) (monthIndex a) ltac:(lia)).
  assert (Day a <= Day b) by (unfold Day, msPerDay; zdiv).
  lia.
Qed.

(** The n-th business day of a month strictly between the months of two
    dates lies between the two dates. *)
Lemma interior_month inicio fin y m n d :
  ~ (0 <= y <= 99) -> 0 <= m <= 11 ->
  monthIndex inicio < 12 * y + m < monthIndex fin ->
  getNthBusinessDayOfMonth y m n = Some d ->
  inicio <= d <= fin.
Proof.
  intros Y Hm Hi H. apply getNthBusinessDayOfMonth_fields in H.
  destruct H as (R & _). unfold newDate in R.
  rewrite (fullYearOf_id _ Y) in R.
  rewrite (MakeDay_date y (m + 1) 0) in R.
  rewrite (MakeDay_index y m), (MakeDay_index y (m + 1)) in R.
  replace (12 * y + (m + 1)) with (12 * y + m + 1) in R by lia.
  fold (monthFirstDay (12 * y + m)) in R.
  fold (monthFirstDay (12 * y + m + 1)) in R.
  pose proof (Day_month_bounds inicio) as Bi.
  pose proof (Day_month_bounds fin) as Bf.
  pose proof (monthFirstDay_mono (monthIndex inicio + 1) (12 * y + m) ltac:(lia)).
  pose proof (monthFirstDay_mono (12 * y + m + 1) (monthIndex fin) ltac:(lia)).
  pose proof (time_split inicio) as Si. pose proof (TimeWithinDay_range inicio).
  pose proof (time_split fin) as Sf. pose proof (TimeWithinDay_range fin).
  unfold msPerDay in *. nia.
Qed.

(** *** The dates given when the calculation fails *)

Lemma normalEntries_app idCounter ds d :
  normalEntries idCounter (ds ++ [d])
  = normalEntries idCounter ds
    ++ [mkFechaCorte (idCounter + Z.of_nat (List.length ds)) (formatDate d)
                     normal (getMonth d, getFullYear d)].
Proof.
  revert idCounter. induction ds as [|x ds IH]; intros idCounter.
  - cbn [normalEntries List.app List.length]. rewrite Z.add_0_r. reflexivity.
  - rewrite <- app_comm_cons. cbn [normalEntries List.length].
    rewrite IH, <- app_comm_cons.
    replace (idCounter + 1 + Z.of_nat (List.length ds))
      with (idCounter + Z.of_nat (S (List.length ds))) by lia.
    reflexivity.
Qed.

Lemma predeterminadasLoop_spec left inicio fin anioActual mesActual idCounter ds :
  0 <= mesActual <= 11 ->
  left = monthsLeft (getFullYear fin) (getMonth fin) anioActual mesActual ->
  Route.predeterminadasLoop left inicio fin anioActual mesActual
    (idCounter + Z.of_nat (List.length ds)) (normalEntries idCounter ds)
  = normalEntries idCounter
      (ds ++ flat_map (tenthOfMonth inicio fin) (monthsFrom left anioActual mesActual)).
Proof.
  pose proof (getMonth_range fin) as Hf.
  revert anioActual mesActual ds.
  induction left as [|left IH]; intros anioActual mesActual ds Hm H.
  - cbn [Route.predeterminadasLoop monthsFrom flat_map]. rewrite app_nil_r. reflexivity.
  - cbn [Route.predeterminadasLoop].
    rewrite (monthLoop_guard _ _ _ _ _ Hm Hf H).
    cbn [monthsFrom flat_map].
    unfold tenthOfMonth at 1. cbn [fst snd]. cbv zeta.
    assert (Next : forall ds',
      (if mesActual + 1 >? 11
       then Route.predeterminadasLoop left inicio fin (anioActual + 1) 0
              (idCounter + Z.of_nat (List.length ds')) (normalEntries idCounter ds')
       else Route.predeterminadasLoop left inicio fin anioActual (mesActual + 1)
              (idCounter + Z.of_nat (List.length ds')) (normalEntries idCounter ds'))
      = normalEntries idCounter
          (ds' ++ flat_map (tenthOfMonth inicio fin)
                    (if mesActual + 1 >? 11 then monthsFrom left (anioActual + 1) 0
                     else monthsFrom left anioActual (mesActual + 1)))).
    { intros ds'. unfold monthsLeft in H.
      destruct (Z.gtb_spec (mesActual + 1) 11) as [G|G];
        apply IH; unfold monthsLeft; lia. }
    destruct ((inicio <=? newDate anioActual mesActual 10)
              && (newDate anioActual mesActual 10 <=? fin)).
    + fold (formatDate (newDate anioActual mesActual 10)).
      rewrite <- normalEntries_app.
      replace (idCounter + Z.of_nat (List.length ds) + 1)
        with (idCounter + Z.of_nat (List.length (ds ++ [newDate anioActual mesActual 10])))
        by (rewrite length_app; cbn [List.length]; lia).
      rewrite Next, <- app_assoc. reflexivity.
    + apply Next.
Qed.

Lemma normalEntries_fecha idCounter ds :
  map fecha (normalEntries idCounter ds) = map formatDate ds.
Proof.
  revert idCounter. induction ds as [|d ds IH]; intros idCounter; [reflexivity|].
  cbn [normalEntries map fecha]. rewrite IH. reflexivity.
Qed.

Lemma normalEntries_estado idCounter ds :
  map estado (normalEntries idCounter ds) = map (fun _ => normal) ds.
Proof.
  revert idCounter. induction ds as [|d ds IH]; intros idCounter; [reflexivity|].
  cbn [normalEntries map estado]. rewrite IH. reflexivity.
Qed.

Lemma normalEntries_id idCounter ds :
  map id (normalEntries idCounter ds)
  = map (fun i => idCounter + Z.of_nat i) (seq 0 (List.length ds)).
Proof.
  revert idCounter. induction ds as [|d ds IH]; intros idCounter; [reflexivity|].
  cbn [normalEntries map id List.length seq]. rewrite IH, <- seq_shift, map_map.
  f_equal; [lia|]. apply map_ext. intros i. lia.
Qed.

(** The tenth of month [m] (0 to 11) of a year is its day 10. *)
Lemma tenth_fields y m :
  0 <= m <= 11 ->
  TimeWithinDay (newDate y m 10) = 0
  /\ getFullYear (newDate y m 10) = fullYearOf y
  /\ getMonth (newDate y m 10) = m
  /\ getDate (newDate y m 10) = 10.
Proof.
  intros Hm. split; [apply TimeWithinDay_newDate|].
  destruct (fields_in_newDate_month y m (newDate y m 10)) as (A & B & C).
  - unfold newDate. rewrite (MakeDay_date _ m 10), (MakeDay_date _ (m + 1) 0).
    rewrite !(MakeDay_index _ m), (MakeDay_index _ (m + 1)).
    replace (12 * fullYearOf y + (m + 1)) with (12 * fullYearOf y + m + 1) by lia.
    pose proof (monthFirstDay_step (12 * fullYearOf y + m)) as S.
    unfold monthFirstDay in S. unfold msPerDay. lia.
  - apply TimeWithinDay_newDate.
  - rewrite Z.div_small, Z.add_0_r in A by lia.
    rewrite Z.mod_small in B by lia.
    split; [exact A|]. split; [exact B|].
    rewrite C, !Day_newDate, (MakeDay_date _ m 10). lia.
Qed.

Lemma filter_negb_length {A} (f : A -> bool) l :
  List.length l
  = (List.length (filter f l) + List.length (filter (fun x => negb (f x)) l))%nat.
Proof.
  induction l as [|x l IH]; [reflexivity|]. cbn [filter].
  destruct (f x); cbn [negb List.length]; lia.
Qed.

Lemma monthsOfVisit_NoDup inicio fin : NoDup (monthsOfVisit inicio fin).
Proof. apply monthsFrom_NoDup, getMonth_range. Qed.

Lemma calcularFechasPagoPila_fecha now nit inicio fin :
  map fecha (calcularFechasPagoPila now nit inicio fin)
  = map formatDate (dueDates inicio fin (getDiasHabilesPago nit)).
Proof.
  rewrite calcularFechasPagoPila_spec, calcularFechasConDiasHabiles_spec.
  assert (F : Forall (fun d => TimeWithinDay d = 0 /\ ~ (0 <= getFullYear d <= 99))
                     (dueDates inicio fin (getDiasHabilesPago nit))).
  { apply Forall_forall. intros d I. apply dueDates_fields in I. tauto. }
  destruct (markFirstFuture_spec (setHours0 now) now 1 _ F) as (Hf & _).
  exact Hf.
Qed.

(** *** The statuses of the route *)

Lemma updatedStatus_provisional now d :
  updatedStatus (Day d - Day now) (provisionalStatus now d)
  = provisionalStatus now d.
Proof.
  unfold updatedStatus, provisionalStatus. cbv zeta.
  destruct (Z.ltb_spec (Day d - Day now) 0),
           (Z.leb_spec 0 (Day d - Day now)),
           (Z.leb_spec (Day d - Day now) 10); try lia; reflexivity.
Qed.

Lemma provisionalStatus_past now d :
  d < setHours0 now -> provisionalStatus now d = normal.
Proof.
  intros H. unfold provisionalStatus. cbv zeta.
  assert (Day d < Day now).
  { unfold setHours0 in H. pose proof (time_split d).
    pose proof (TimeWithinDay_range d). unfold msPerDay in *. nia. }
  destruct (Z.leb_spec 0 (Day d - Day now)); [lia | reflexivity].
Qed.

Lemma Day_not_past now d : setHours0 now <= d -> 0 <= Day d - Day now.
Proof.
  intros H. unfold setHours0 in H. pose proof (time_split d).
  pose proof (TimeWithinDay_range d). unfold msPerDay in *. nia.
Qed.

(** What the route does to entries whose dates were written by
    [formatDate]. *)
Lemma fechasConEstadoActualizado_spec now r ds :
  Forall (fun d => ~ (0 <= getFullYear d <= 99)) ds ->
  map fecha r = map formatDate ds ->
  map (fun x => fecha (Route.fechaCorte x)) (Route.fechasConEstadoActualizado now r)
  = map formatDate ds
  /\ map Route.diasRestantes (Route.fechasConEstadoActualizado now r)
     = map (fun d => Some (Day d - Day now)) ds
  /\ map (fun x => estado (Route.fechaCorte x)) (Route.fechasConEstadoActualizado now r)
     = map (fun p => updatedStatus (Day (fst p) - Day now) (snd p))
           (combine ds (map estado r)).
Proof.
  intros F. revert r. induction F as [|d ds Y F IH]; intros r H.
  - destruct r; [|discriminate H]. repeat split.
  - destruct r as [|e r]; [discriminate H|]. cbn [map] in H.
    injection H as He Hr. destruct (IH r Hr) as (A & B & C).
    unfold Route.fechasConEstadoActualizado in *. cbn [map combine].
    cbn [Route.fechaCorte Route.diasRestantes fecha estado fst snd].
    rewrite A, B, C, He, (Route_calcularDiasHastaFecha_formatDate now d Y).
    split; [reflexivity|]. split; [reflexivity|]. f_equal.
    unfold updatedStatus.
    destruct (Z.ltb_spec (Day d - Day now) 0); [reflexivity|].
    destruct (Z.eqb_spec (Day d - Day now) 0) as [E|E].
    + rewrite E. reflexivity.
    + reflexivity.
Qed.

Lemma combine_map_r {A B} (f : A -> B) l :
  combine l (map f l) = map (fun x => (x, f x)) l.
Proof. induction l as [|x l IH]; [reflexivity|]. cbn [map combine]. rewrite IH. reflexivity. Qed.

Lemma combine_app_eq {A B} (l1 l2 : list A) (m1 m2 : list B) :
  List.length l1 = List.length m1 ->
  combine (l1 ++ l2) (m1 ++ m2) = combine l1 m1 ++ combine l2 m2.
Proof.
  revert m1. induction l1 as [|x l1 IH]; intros [|y m1] H; try discriminate H.
  - reflexivity.
  - cbn [List.app combine]. rewrite IH by (injection H as H; exact H). reflexivity.
Qed.

(** *** More on the due dates *)


Lemma provisionalEntries_same_day now now' idCounter ds :
  Day now = Day now' ->
  provisionalEntries now idCounter ds = provisionalEntries now' idCounter ds.
Proof.
  intros E. revert idCounter.
  induction ds as [|d ds IH]; intros idCounter; [reflexivity|].
  cbn [provisionalEntries]. rewrite IH. unfold provisionalStatus. rewrite E.
  reflexivity.
Qed.

(** The written date: two digits, a slash, two digits, a slash, the year. *)
Lemma padded_length_ok :
  forallb (fun i => (String.length (padStart2 (toString (Z.of_nat i))) =? 2)%nat)
          (seq 0 100) = true.
Proof. vm_compute. reflexivity. Qed.

Lemma padded_length z :
  0 <= z <= 99 -> String.length (padStart2 (toString z)) = 2%nat.
Proof.
  intros H.
  pose proof (proj1 (forallb_forall _ _) padded_length_ok (Z.to_nat z)) as T.
  cbv beta in T. rewrite Z2Nat.id in T by lia.
  apply Nat.eqb_eq, T, in_seq. lia.
Qed.

(** ** Facts about the decimal digits of an integer *)

Lemma length_string_of_uint d :
  String.length (NilEmpty.string_of_uint d) = nb_digits d.
Proof. induction d; cbn [NilEmpty.string_of_uint nb_digits String.length]; congruence. Qed.

Lemma toString_pos p :
  toString (Z.pos p) = NilEmpty.string_of_uint (Pos.to_uint p).
Proof.
  unfold toString. cbn [Z.to_int NilZero.string_of_int].
  unfold NilZero.string_of_uint.
  pose proof (DecimalPos.Unsigned.to_uint_nonnil p) as N.
  destruct (Pos.to_uint p); [contradiction|reflexivity..].
Qed.


(** The digits read from the left, after the number [acc] read so far. *)
Lemma of_uint_acc_bounds d acc :
  Z.pos acc * 10 ^ Z.of_nat (nb_digits d) <= Z.pos (Pos.of_uint_acc d acc)
  < (Z.pos acc + 1) * 10 ^ Z.of_nat (nb_digits d).
Proof.
  revert acc. induction d as [|d IH|d IH|d IH|d IH|d IH|d IH|d IH|d IH|d IH|d IH];
    intros acc; cbn [Pos.of_uint_acc nb_digits];
    [rewrite Z.pow_0_r; lia|..];
    rewrite Nat2Z.inj_succ, Z.pow_succ_r by lia;
    assert (P : 0 < 10 ^ Z.of_nat (nb_digits d))
      by (apply Z.pow_pos_nonneg; lia);
    match goal with
    | |- context [Pos.of_uint_acc d ?a] =>
        specialize (IH a); revert IH P;
        generalize (Z.pos (Pos.of_uint_acc d a))
    end;
    generalize (10 ^ Z.of_nat (nb_digits d));
    intros q v IH P; nia.
Qed.

Lemma unorm_D0 d d' : unorm d = D0 d' -> d' = Nil.
Proof.
  induction d; cbn [unorm]; intros H; try discriminate H.
  - injection H as <-. reflexivity.
  - apply IHd, H.
Qed.

Lemma unorm_to_uint p : unorm (Pos.to_uint p) = Pos.to_uint p.
Proof.
  rewrite <- DecimalPos.Unsigned.to_of, DecimalPos.Unsigned.of_to. reflexivity.
Qed.

(** A positive integer written with [L] digits is from [10^(L-1)] up to
    [10^L - 1]. *)
Lemma toString_pos_length p :
  10 ^ (Z.of_nat (String.length (toString (Z.pos p))) - 1) <= Z.pos p
  < 10 ^ Z.of_nat (String.length (toString (Z.pos p))).
Proof.
  rewrite toString_pos, length_string_of_uint.
  pose proof (DecimalPos.Unsigned.of_to p) as V.
  pose proof (unorm_to_uint p) as U.
  pose proof (DecimalPos.Unsigned.to_uint_nonzero p) as NZ.
  destruct (Pos.to_uint p) as [|d|d|d|d|d|d|d|d|d|d];
    [discriminate V|..];
    cbn [nb_digits]; rewrite Nat2Z.inj_succ;
    replace (Z.succ (Z.of_nat (nb_digits d)) - 1) with (Z.of_nat (nb_digits d))
      by lia;
    rewrite Z.pow_succ_r by lia.
  - exfalso. apply NZ. f_equal. apply (unorm_D0 (D0 d)). exact U.
  - cbn [Pos.of_uint] in V. injection V as <-.
    pose proof (of_uint_acc_bounds d 1). lia.
  - cbn [Pos.of_uint] in V. injection V as <-.
    pose proof (of_uint_acc_bounds d 2). lia.
  - cbn [Pos.of_uint] in V. injection V as <-.
    pose proof (of_uint_acc_bounds d 3). lia.
  - cbn [Pos.of_uint] in V. injection V as <-.
    pose proof (of_uint_acc_bounds d 4). lia.
  - cbn [Pos.of_uint] in V. injection V as <-.
    pose proof (of_uint_acc_bounds d 5). lia.
  - cbn [Pos.of_uint] in V. injection V as <-.
    pose proof (of_uint_acc_bounds d 6). lia.
  - cbn [Pos.of_uint] in V. injection V as <-.
    pose proof (of_uint_acc_bounds d 7). lia.
  - cbn [Pos.of_uint] in V. injection V as <-.
    pose proof (of_uint_acc_bounds d 8). lia.
  - cbn [Pos.of_uint] in V. injection V as <-.
    pose proof (of_uint_acc_bounds d 9). lia.
Qed.

(** The number of digits, against the powers of ten. *)
Lemma toString_pos_digits p (k : nat) :
  (k <= String.length (toString (Z.pos p)))%nat <-> 10 ^ (Z.of_nat k - 1) <= Z.pos p.
Proof.
  pose proof (toString_pos_length p) as B.
  set (L := String.length (toString (Z.pos p))) in *.
  split; intros H.
  - destruct k as [|k]; [cbn; lia|].
    pose proof (Z.pow_le_mono_r 10 (Z.of_nat (S k) - 1) (Z.of_nat L - 1)
                  ltac:(lia) ltac:(lia)). lia.
  - destruct (Nat.le_gt_cases k L) as [Le|Gt]; [exact Le|exfalso].
    pose proof (Z.pow_le_mono_r 10 (Z.of_nat L) (Z.of_nat k - 1)
                  ltac:(lia) ltac:(lia)). lia.
Qed.


(** *** The last two digits *)









(** ** Facts about holidays on the same date *)









(** ** The claims *)



(** C2: for every NIT, visit and clock reading [now], with [hoy] the midnight
    of [now]: the entries returned carry the due dates of the visit in order;
    those before the first due date that is not before [hoy] keep their
    provisional status ([warning] when the date is today or at most ten days
    ahead, [normal] otherwise, a past date included), that first one is
    [success], and those after it keep their provisional status; when every
    due date is before [hoy] all keep it.  At most one entry is [success]. *)
Theorem C2_first_future_entry_is_success (now : Date) (nit : Nit)
        (inicioVisita finVisita : Date) :
  let hoy := setHours0 now in
  let ds := dueDates inicioVisita finVisita (getDiasHabilesPago nit) in
  let r := calcularFechasPagoPila now nit inicioVisita finVisita in
  map fecha r = map formatDate ds
  /\ (List.length (filter isSuccess (map estado r)) <= 1)%nat
  /\ ((Forall (fun d => d < hoy) ds
       /\ map estado r = map (provisionalStatus now) ds)
      \/ exists before d after,
           ds = before ++ d :: after
           /\ Forall (fun x => x < hoy) before
           /\ hoy <= d
           /\ map estado r
              = map (provisionalStatus now) before
                ++ success :: map (provisionalStatus now) after).
Proof.
  intros hoy ds r. subst r.
  rewrite calcularFechasPagoPila_spec, calcularFechasConDiasHabiles_spec.
  fold ds. fold hoy.
  assert (F : Forall (fun d => TimeWithinDay d = 0 /\ ~ (0 <= getFullYear d <= 99)) ds).
  { apply Forall_forall. intros d I. apply dueDates_fields in I. tauto. }
  destruct (markFirstFuture_spec hoy now 1 ds F) as (Hf & _ & Hs).
  split; [exact Hf|]. split; [|exact Hs].
  destruct Hs as [[_ Hs] | (before & x & after & _ & _ & _ & Hs)]; rewrite Hs.
  - rewrite filter_success_provisional. cbn [List.length]. lia.
  - rewrite filter_app, length_app, filter_success_provisional.
    cbn [filter isSuccess]. rewrite filter_success_provisional.
    cbn [List.length]. lia.
Qed.







(** C6: [moveToMonday] leaves a Monday as it is, moves a Sunday forward by
    one day and any other day by 8 minus its weekday; the result is always a
    Monday, so that applying it twice changes nothing more. *)
Theorem C6_moveToMonday (d : Date) :
  (getDay d = 1 -> moveToMonday d = d)
  /\ (getDay d = 0 -> moveToMonday d = addDays d 1)
  /\ (getDay d <> 0 -> getDay d <> 1 ->
      moveToMonday d = addDays d (8 - getDay d) /\ 2 <= 8 - getDay d <= 6)
  /\ getDay (moveToMonday d) = 1
  /\ moveToMonday (moveToMonday d) = moveToMonday d.
Proof.
  pose proof (getDay_range d) as R.
  assert (M : getDay (moveToMonday d) = 1).
  { rewrite moveToMonday_addDays, getDay_addDays.
    destruct (getDay d =? 1) eqn:E1; [apply Z.eqb_eq in E1; rewrite E1; reflexivity|].
    destruct (getDay d =? 0) eqn:E0; [apply Z.eqb_eq in E0; rewrite E0; reflexivity|].
    apply Z.eqb_neq in E0, E1.
    replace (getDay d + (8 - getDay d)) with 8 by lia. reflexivity. }
  repeat split.
  - intros H. rewrite moveToMonday_addDays, H. unfold addDays. cbn. lia.
  - intros H. rewrite moveToMonday_addDays, H. reflexivity.
  - rewrite moveToMonday_addDays.
    apply Z.eqb_neq in H, H0. rewrite H, H0. reflexivity.
  - lia.
  - lia.
  - exact M.
  - rewrite (moveToMonday_addDays (moveToMonday d)), M. unfold addDays. cbn. lia.
Qed.



(** C8: the lookup of the NIT "900123456" (key "56") gives 9, that of
    "12345600" (key "00") gives 2, that of "1" (key "01") gives 2; and for
    every NIT whose key is in no row of the table the lookup gives 10. *)
Theorem C8_required_business_days :
  (ultimosDigitos (NitString "900123456") = "56"%string
   /\ getDiasHabilesPago (NitString "900123456") = 9)
  /\ (ultimosDigitos (NitString "12345600") = "00"%string
      /\ getDiasHabilesPago (NitString "12345600") = 2)
  /\ (ultimosDigitos (NitString "1") = "01"%string
      /\ getDiasHabilesPago (NitString "1") = 2)
  /\ forall nit : Nit,
       (forall item, In item LIMITE_SEG_SOCIAL ->
                     DIGITOS_NIT item <> ultimosDigitos nit) ->
       getDiasHabilesPago nit = 10.
Proof.
  split; [split; vm_compute; reflexivity|].
  split; [split; vm_compute; reflexivity|].
  split; [split; vm_compute; reflexivity|].
  intros nit H. unfold getDiasHabilesPago. cbv zeta.
  rewrite find_absent by exact H. reflexivity.
Qed.

(** C8, at a key that is in no row: the NIT "900123456-7". *)
Lemma C8_default_witness : getDiasHabilesPago (NitString "900123456-7") = 10.
Proof.
  apply (proj2 (proj2 (proj2 C8_required_business_days))).
  apply non_digit_key_absent. vm_compute. reflexivity.
Defined.



(** C10: [getBusinessDaysOfMonth year month] is in ascending order, and for
    every integer [n], [getNthBusinessDayOfMonth year month n] is its element
    at index [n - 1] when [1 <= n <= length], and null for every other [n],
    [n <= 0] included. *)
Theorem C10_nth_is_indexing (year month n : Z) :
  let days := getBusinessDaysOfMonth year month in
  StronglySorted Z.lt days
  /\ getNthBusinessDayOfMonth year month n
     = (if 1 <=? n then nth_error days (Z.to_nat (n - 1)) else None)
  /\ (1 <= n <= Z.of_nat (List.length days) ->
      exists d, nth_error days (Z.to_nat (n - 1)) = Some d
                /\ getNthBusinessDayOfMonth year month n = Some d)
  /\ (n <= 0 \/ Z.of_nat (List.length days) < n ->
      getNthBusinessDayOfMonth year month n = None).
Proof.
  intros days. subst days.
  rewrite getNthBusinessDayOfMonth_spec, getBusinessDaysOfMonth_spec.
  set (B := filter isBusinessDay (daysOfMonth year month)).
  split; [apply filter_sorted, daysOfMonth_sorted|].
  split; [|split].
  - destruct (Z.ltb_spec 0 n), (Z.leb_spec 1 n); try lia; reflexivity.
  - intros H. replace (0 <? n) with true by (symmetry; apply Z.ltb_lt; lia).
    destruct (nth_error B (Z.to_nat (n - 1))) as [d|] eqn:E.
    + exists d. split; reflexivity.
    + apply nth_error_None in E. lia.
  - intros [H|H].
    + replace (0 <? n) with false by (symmetry; apply Z.ltb_ge; lia). reflexivity.
    + destruct (0 <? n); [|reflexivity]. apply nth_error_None. lia.
Qed.

(** ** More properties of the holiday engine *)









(** X5: for a year from 0 to 99 the holidays are computed in the year
    1900 + year, where [new Date(year, ...)] puts them, so that no date of
    the year itself is a holiday. *)
Theorem X5_holidays_of_two_digit_years (year : Z) :
  0 <= year <= 99 ->
  (forall h, In h (getColombianHolidays year) ->
             getFullYear (date h) = 1900 + year)
  /\ (forall t, getFullYear t = year ->
                isHoliday t = false /\ isBusinessDay t = isWeekday t).
Proof.
  intros Hy.
  assert (F : fullYearOf year = 1900 + year).
  { unfold fullYearOf. destruct (Z.leb_spec 0 year); [|lia].
    destruct (Z.leb_spec year 99); [reflexivity | lia]. }
  assert (A : forall h, In h (pushedHolidays year) ->
                        getFullYear (date h) = 1900 + year).
  { intros h Hin. rewrite <- F. apply holiday_year; [lia | exact Hin]. }
  split.
  - intros h Hin. apply A. exact (proj1 (getColombianHolidays_In h year) Hin).
  - intros t Ht.
    assert (H : isHoliday t = false).
    { destruct (isHoliday t) eqn:E; [exfalso | reflexivity].
      pose proof (proj1 (isHoliday_Day t) E) as I. rewrite Ht in I.
      destruct (proj1 (holidayDays_In _ _) I) as (h & Hin & Eh).
      destruct (fields_of_Day _ _ Eh) as (Y & _).
      rewrite (A h Hin) in Y. lia. }
    split; [exact H|]. rewrite isBusinessDay_parts, H. apply andb_true_r.
Qed.

(** X5, at the year 25: Christmas is computed in 1925, and December 25 of
    the year 25, a Thursday, is a business day. *)
Lemma X5_two_digit_years_witness :
  isBusinessDay (MakeDay 25 11 25 * msPerDay)
  = isWeekday (MakeDay 25 11 25 * msPerDay).
Proof.
  apply (X5_holidays_of_two_digit_years 25 ltac:(lia)).
  vm_compute. reflexivity.
Defined.



(** X7: [getNextBusinessDay] ends for every date: the loop stops within 56
    days, and more tests of its guard than that change nothing.  The result
    is the first business day after the day of the date, at the date's time
    of day; no day in between is a business day. *)
Theorem X7_getNextBusinessDay_terminates (date : Date) :
  exists k,
    1 <= k <= 56
    /\ (forall fuel,
          getNextBusinessDay fuel date
          = if (Z.to_nat k <=? fuel)%nat then Some (addDays date k) else None)
    /\ getNextBusinessDay 56 date = Some (addDays date k)
    /\ date < addDays date k
    /\ Day (addDays date k) = Day date + k
    /\ TimeWithinDay (addDays date k) = TimeWithinDay date
    /\ isBusinessDay (addDays date k) = true
    /\ forall j, 1 <= j < k -> isBusinessDay (addDays date j) = false.
Proof.
  destruct (getNextBusinessDay_first date) as (k & Hk & Hf & Hb & Hm).
  exists k. split; [exact Hk|]. split; [exact Hf|]. split.
  - rewrite Hf. destruct (Nat.leb_spec (Z.to_nat k) 56); [reflexivity | lia].
  - split; [unfold addDays, msPerDay; lia|].
    split; [apply Day_addDays|]. split; [apply TimeWithinDay_addDays|].
    split; [exact Hb | exact Hm].
Qed.

(** X8: between the day after a date and the next business day that
    [getNextBusinessDay] returns, [countBusinessDays] counts one business
    day. *)
Theorem X8_one_business_day_until_next (fuel : nat) (date r : Date) :
  getNextBusinessDay fuel date = Some r ->
  countBusinessDays (addDays date 1) r = 1
  /\ countBusinessDays date r = (if isBusinessDay date then 2 else 1).
Proof.
  intros H. destruct (getNextBusinessDay_first date) as (k & Hk & Hf & Hb & Hm).
  rewrite Hf in H. destruct (Z.to_nat k <=? fuel)%nat; [|discriminate H].
  injection H as <-.
  assert (S1 : forall j, addDays (addDays date 1) (Z.of_nat j)
                         = addDays date (Z.of_nat j + 1)).
  { intros j. unfold addDays, msPerDay, Date. lia. }
  assert (N : filter isBusinessDay (daysFrom (Z.to_nat (k - 1)) (addDays date 1)) = []).
  { apply filter_none. intros x Hx.
    destruct (proj1 (daysFrom_In _ _ _) Hx) as (i & Hi & ->).
    rewrite S1. apply Hm. lia. }
  assert (L : filter isBusinessDay (daysFrom 1 (addDays date k)) = [addDays date k]).
  { cbn [daysFrom filter]. rewrite Hb. reflexivity. }
  split.
  - replace (addDays date k) with (addDays (addDays date 1) (k - 1))
      by (unfold addDays, msPerDay, Date; lia).
    rewrite countBusinessDays_days by lia.
    replace (Z.to_nat (k - 1 + 1)) with (Z.to_nat (k - 1) + 1)%nat by lia.
    rewrite daysFrom_app, filter_app, N.
    replace (addDays (addDays date 1) (Z.of_nat (Z.to_nat (k - 1))))
      with (addDays date k) by (unfold addDays, msPerDay, Date; lia).
    rewrite L. reflexivity.
  - rewrite countBusinessDays_days by lia.
    replace (Z.to_nat (k + 1)) with (1 + (Z.to_nat (k - 1) + 1))%nat by lia.
    rewrite daysFrom_app, filter_app, length_app.
    change (Z.of_nat 1) with 1.
    rewrite daysFrom_app, filter_app, N.
    replace (addDays (addDays date 1) (Z.of_nat (Z.to_nat (k - 1))))
      with (addDays date k) by (unfold addDays, msPerDay, Date; lia).
    rewrite L. cbn [daysFrom filter]. destruct (isBusinessDay date); reflexivity.
Qed.

(** X8, from Wednesday before the Holy Week's holidays of 2025 to Monday,
    April 21. *)
Lemma X8_next_business_day_witness :
  countBusinessDays (addDays (newDate 2025 3 16) 1) (newDate 2025 3 21) = 1
  /\ countBusinessDays (newDate 2025 3 16) (newDate 2025 3 21)
     = (if isBusinessDay (newDate 2025 3 16) then 2 else 1).
Proof.
  apply (X8_one_business_day_until_next 56 (newDate 2025 3 16) (newDate 2025 3 21)).
  vm_compute. reflexivity.
Defined.

(** X9: [countBusinessDays] from the first to the last day of a month
    counts the dates that [getBusinessDaysOfMonth] returns. *)
Theorem X9_count_of_a_month (year month : Z) :
  countBusinessDays (newDate year month 1) (newDate year (month + 1) 0)
  = Z.of_nat (List.length (getBusinessDaysOfMonth year month)).
Proof.
  unfold countBusinessDays, copyDate. cbv zeta.
  rewrite (countLoop_spec _ _ _ _ eq_refl), getBusinessDaysOfMonth_spec.
  reflexivity.
Qed.

(** X10: the dates that [getBusinessDaysOfMonth] returns are the midnights
    of the month scanned, from [new Date(year, month, 1)] to
    [new Date(year, month + 1, 0)], that are business days, each once. *)
Theorem X10_business_days_of_month_are_complete (year month : Z) :
  NoDup (getBusinessDaysOfMonth year month)
  /\ forall d, In d (getBusinessDaysOfMonth year month) <->
               newDate year month 1 <= d <= newDate year (month + 1) 0
               /\ TimeWithinDay d = 0
               /\ getFullYear d = fullYearOf year + month / 12
               /\ getMonth d = month mod 12
               /\ isBusinessDay d = true.
Proof.
  rewrite getBusinessDaysOfMonth_spec. split.
  - apply StronglySorted_lt_NoDup, filter_sorted, daysOfMonth_sorted.
  - intros d. rewrite filter_In, daysOfMonth_In. split.
    + intros [[B T0] Hb].
      destruct (fields_in_newDate_month _ _ _ B T0) as (A1 & A2 & _). tauto.
    + tauto.
Qed.

(** X11: [countBusinessDays] adds up over an interval cut in two: the days
    up to [j] days after the start, then those from the day after. *)
Theorem X11_count_adds_up (t : Date) (j k : Z) :
  0 <= j -> 0 <= k ->
  countBusinessDays t (addDays t (j + 1 + k))
  = countBusinessDays t (addDays t j)
    + countBusinessDays (addDays t (j + 1)) (addDays t (j + 1 + k)).
Proof.
  intros Hj Hk.
  replace (addDays t (j + 1 + k)) with (addDays (addDays t (j + 1)) k) at 2
    by (unfold addDays, msPerDay, Date; lia).
  rewrite !countBusinessDays_days by lia.
  replace (Z.to_nat (j + 1 + k + 1)) with (Z.to_nat (j + 1) + Z.to_nat (k + 1))%nat
    by lia.
  rewrite daysFrom_app, filter_app, length_app.
  replace (Z.of_nat (Z.to_nat (j + 1))) with (j + 1) by lia. lia.
Qed.

(** X11, for January 2025 cut after the 15th. *)
Lemma X11_count_witness :
  countBusinessDays (newDate 2025 0 1) (addDays (newDate 2025 0 1) (14 + 1 + 15))
  = countBusinessDays (newDate 2025 0 1) (addDays (newDate 2025 0 1) 14)
    + countBusinessDays (addDays (newDate 2025 0 1) (14 + 1))
                        (addDays (newDate 2025 0 1) (14 + 1 + 15)).
Proof. apply (X11_count_adds_up (newDate 2025 0 1) 14 15); lia. Defined.



(** X25: within a month the business days come in order: a later n gives a
    later date, and when the month has an n-th business day it has all the
    ones before. *)
Theorem X25_nth_business_days_in_order (year month n n' : Z) (d' : Date) :
  1 <= n < n' ->
  getNthBusinessDayOfMonth year month n' = Some d' ->
  exists d, getNthBusinessDayOfMonth year month n = Some d
            /\ d < d' /\ n' - n <= Day d' - Day d.
Proof.
  intros Hn H'. rewrite getNthBusinessDayOfMonth_spec in H' |- *.
  destruct (Z.ltb_spec 0 n') as [_|]; [|lia].
  destruct (Z.ltb_spec 0 n) as [_|]; [|lia].
  destruct (daysOfMonth_days year month) as (e & _ & E). rewrite E in *.
  set (t := newDate year month 1) in *.
  assert (G : forall K j j' a b,
            (j < j')%nat ->
            nth_error (filter isBusinessDay (daysFrom K t)) j = Some a ->
            nth_error (filter isBusinessDay (daysFrom K t)) j' = Some b ->
            Z.of_nat j' - Z.of_nat j <= Day b - Day a).
  { clear. intros K. generalize t. clear t.
    induction K as [|K IH]; intros t j j' a b Hj Ha Hb.
    - destruct j; discriminate Ha.
    - cbn [daysFrom filter] in Ha, Hb.
      destruct (isBusinessDay t).
      + destruct j' as [|j']; [lia|]. cbn [nth_error] in Hb.
        destruct j as [|j].
        * injection Ha as <-.
          destruct (nth_error_filter_daysFrom _ _ _ _ _ Hb) as (i & Hi & ->).
          rewrite !Day_addDays. lia.
        * cbn [nth_error] in Ha. pose proof (IH _ j j' a b ltac:(lia) Ha Hb). lia.
      + exact (IH _ j j' a b Hj Ha Hb). }
  destruct (nth_error (filter isBusinessDay (daysFrom (28 + e) t)) (Z.to_nat (n - 1)))
    as [d|] eqn:N.
  - exists d. split; [reflexivity|].
    pose proof (G _ (Z.to_nat (n - 1)) (Z.to_nat (n' - 1)) d d' ltac:(lia) N H') as L.
    split; [|lia].
    destruct (nth_error_filter_daysFrom _ _ _ _ _ N) as (i & _ & Ei).
    destruct (nth_error_filter_daysFrom _ _ _ _ _ H') as (i' & _ & Ei').
    subst d d'. rewrite !Day_addDays in L. unfold addDays, msPerDay. lia.
  - exfalso. apply nth_error_None in N.
    assert (nth_error (filter isBusinessDay (daysFrom (28 + e) t)) (Z.to_nat (n' - 1))
            <> None) by congruence.
    apply nth_error_Some in H. lia.
Qed.

(** X25, for the 2nd and the 9th business day of April 2025: the 2nd and
    the 11th of April. *)
Lemma X25_in_order_witness :
  exists d, getNthBusinessDayOfMonth 2025 3 2 = Some d
            /\ d < newDate 2025 3 11
            /\ 9 - 2 <= Day (newDate 2025 3 11) - Day d.
Proof.
  apply (X25_nth_business_days_in_order 2025 3 2 9 (newDate 2025 3 11)).
  - lia.
  - vm_compute. reflexivity.
Defined.

(** X26: within a month, [getNextBusinessDay] of the n-th business day that
    [getNthBusinessDayOfMonth] returns is the one it returns for n + 1. *)
Theorem X26_next_of_the_nth_is_the_next (year month n : Z) (d d' : Date) :
  1 <= n ->
  getNthBusinessDayOfMonth year month n = Some d ->
  getNthBusinessDayOfMonth year month (n + 1) = Some d' ->
  getNextBusinessDay 56 d = Some d'
  /\ forall fuel, (56 <= fuel)%nat -> getNextBusinessDay fuel d = Some d'.
Proof.
  intros Hn H H'. rewrite getNthBusinessDayOfMonth_spec in H, H'.
  destruct (Z.ltb_spec 0 n) as [_|]; [|lia].
  destruct (Z.ltb_spec 0 (n + 1)) as [_|]; [|lia].
  replace (Z.to_nat (n + 1 - 1)) with (S (Z.to_nat (n - 1))) in H' by lia.
  unfold daysOfMonth in H, H'. cbv zeta in H, H'.
  destruct (filter_daysFrom_neighbours _ _ _ _ _ _ H H') as (g & Hg & -> & Fb & Hm).
  destruct (getNextBusinessDay_is d g Hg Fb Hm) as (L & Hf).
  assert (A : forall fuel, (56 <= fuel)%nat ->
                getNextBusinessDay fuel d = Some (addDays d g)).
  { intros fuel Lf. rewrite Hf.
    destruct (Nat.leb_spec (Z.to_nat g) fuel); [reflexivity | lia]. }
  split; [apply A; lia | exact A].
Qed.

(** X26, from the 12th to the 13th business day of April 2025, across Holy
    Thursday, Good Friday and the weekend. *)
Lemma X26_next_of_the_nth_witness :
  getNextBusinessDay 56 (newDate 2025 3 16) = Some (newDate 2025 3 21)
  /\ forall fuel, (56 <= fuel)%nat ->
                  getNextBusinessDay fuel (newDate 2025 3 16)
                  = Some (newDate 2025 3 21).
Proof.
  apply (X26_next_of_the_nth_is_the_next 2025 3 12
           (newDate 2025 3 16) (newDate 2025 3 21)).
  - lia.
  - vm_compute. reflexivity.
  - vm_compute. reflexivity.
Defined.

(** ** More properties of the payment calculator *)



(** X14: for a visit that starts in the year 100 or later, every month
    strictly between the month of its first day and the month of its last
    day has its due date among the entries; only these two months can be
    without one, so that the entries are at most two fewer than the months
    of the visit. *)
Theorem X14_one_due_date_per_month (now : Date) (nit : Nit)
        (inicioVisita finVisita : Date) :
  100 <= getFullYear inicioVisita ->
  let n := getDiasHabilesPago nit in
  let months := monthsOfVisit inicioVisita finVisita in
  let r := calcularFechasPagoPila now nit inicioVisita finVisita in
  (forall y m,
     0 <= m <= 11 ->
     monthIndex inicioVisita < 12 * y + m < monthIndex finVisita ->
     exists d, getNthBusinessDayOfMonth y m n = Some d
               /\ inicioVisita <= d <= finVisita
               /\ In (formatDate d) (map fecha r))
  /\ Z.of_nat (List.length months) - 2 <= Z.of_nat (List.length r)
     <= Z.of_nat (List.length months).
Proof.
  intros Hy n months r.
  assert (Hr : map fecha r = map formatDate (dueDates inicioVisita finVisita n))
    by apply calcularFechasPagoPila_fecha.
  pose proof (getDiasHabilesPago_range nit) as Rn. fold n in Rn.
  assert (Yok : forall y m, 0 <= m <= 11 ->
                  monthIndex inicioVisita <= 12 * y + m -> 100 <= y).
  { intros y m Hm Hi. unfold monthIndex in Hi.
    pose proof (getMonth_range inicioVisita). lia. }
  assert (Int : forall y m,
            0 <= m <= 11 ->
            monthIndex inicioVisita < 12 * y + m < monthIndex finVisita ->
            exists d, getNthBusinessDayOfMonth y m n = Some d
                      /\ inicioVisita <= d <= finVisita).
  { intros y m Hm Hi. pose proof (Yok y m Hm ltac:(lia)) as Y.
    destruct (nth_business_day_exists y m n) as (d & Hd & _); try lia.
    exists d. split; [exact Hd|].
    apply (interior_month inicioVisita finVisita y m n d); (lia || assumption). }
  split.
  - intros y m Hm Hi. destruct (Int y m Hm Hi) as (d & Hd & Hv).
    exists d. split; [exact Hd|]. split; [exact Hv|].
    rewrite Hr. apply in_map. unfold dueDates.
    apply (proj2 (dueDatesOf_In _ _ _ _ _)). exists (y, m). split.
    + apply (proj2 (monthsOfVisit_In _ _ _ _)). unfold monthIndex in Hi. lia.
    + apply (proj2 (dueDateOfMonth_Some _ _ _ _ _)). cbn [fst snd]. tauto.
  - assert (L : List.length r
                = List.length (filter (hasDueDate inicioVisita finVisita n) months)).
    { rewrite <- (length_map fecha), Hr, length_map. apply dueDatesOf_length. }
    rewrite L.
    pose proof (filter_negb_length (hasDueDate inicioVisita finVisita n) months) as P.
    assert (Q : (List.length (filter (fun x => negb (hasDueDate inicioVisita finVisita n x))
                                     months) <= 2)%nat).
    { change 2%nat
        with (List.length [(getFullYear inicioVisita, getMonth inicioVisita);
                           (getFullYear finVisita, getMonth finVisita)]).
      apply NoDup_incl_length; [apply NoDup_filter, monthsOfVisit_NoDup|].
      intros [y m] Hin. apply filter_In in Hin. destruct Hin as [Hin Hn].
      apply (proj1 (monthsOfVisit_In _ _ _ _)) in Hin.
      destruct Hin as (Hm & Lo & Hi).
      destruct (Z.eq_dec (12 * y + m) (monthIndex inicioVisita)) as [E1|N1].
      { left. unfold monthIndex in E1. pose proof (getMonth_range inicioVisita).
        f_equal; lia. }
      destruct (Z.eq_dec (12 * y + m) (monthIndex finVisita)) as [E2|N2].
      { right. left. unfold monthIndex in E2. pose proof (getMonth_range finVisita).
        f_equal; lia. }
      exfalso. destruct (Int y m Hm) as (d & Hd & Hv);
        [unfold monthIndex in *; lia|].
      unfold hasDueDate in Hn.
      rewrite (proj2 (dueDateOfMonth_Some inicioVisita finVisita n (y, m) d)) in Hn
        by (cbn [fst snd]; tauto).
      discriminate Hn. }
    lia.
Qed.

(** X14, for the NIT "900123456" and the visit from 2025-01-20 to
    2025-04-05: the due dates of February and March are among the
    entries. *)
Lemma X14_due_dates_witness :
  Z.of_nat (List.length (monthsOfVisit (newDate 2025 0 20) (newDate 2025 3 5))) - 2
  <= Z.of_nat (List.length (calcularFechasPagoPila (newDate 2025 0 1)
                              (NitString "900123456")
                              (newDate 2025 0 20) (newDate 2025 3 5)))
  <= Z.of_nat (List.length (monthsOfVisit (newDate 2025 0 20) (newDate 2025 3 5))).
Proof.
  pose proof (X14_one_due_date_per_month (newDate 2025 0 1) (NitString "900123456")
                (newDate 2025 0 20) (newDate 2025 3 5)) as H.
  cbv zeta in H. apply H. vm_compute. discriminate.
Defined.

(** X15: [parseDate] reads back what [formatDate] writes: for a date whose
    year is not between 0 and 99 it gives the midnight of the date's day;
    for a year between 0 and 99 it gives a date of 1900 or later, another
    day.  Two dates are written alike exactly when they are on the same
    day. *)
Theorem X15_formatDate_parseDate_round_trip (d : Date) :
  (~ (0 <= getFullYear d <= 99) ->
   parseDate (formatDate d) = Some (setHours0 d))
  /\ (0 <= getFullYear d <= 99 ->
      exists p, parseDate (formatDate d) = Some p
                /\ 1900 <= getFullYear p
                /\ Day p <> Day d)
  /\ forall b, formatDate d = formatDate b <-> Day d = Day b.
Proof.
  split; [apply parseDate_formatDate_day|]. split.
  - intros Y. rewrite parseDate_formatDate. eexists. split; [reflexivity|].
    assert (G : 1900 <= getFullYear (newDate (getFullYear d) (getMonth d + 1 - 1)
                                             (getDate d))).
    { unfold getFullYear at 1. rewrite Day_newDate.
      replace (getMonth d + 1 - 1) with (getMonth d) by lia.
      pose proof (getMonth_range d) as RM. pose proof (getDate_range d) as RD.
      rewrite MakeDay_small by exact RM.
      assert (F : fullYearOf (getFullYear d) = 1900 + getFullYear d).
      { unfold fullYearOf. destruct (Z.leb_spec 0 (getFullYear d)); [|lia].
        destruct (Z.leb_spec (getFullYear d) 99); [reflexivity | lia]. }
      rewrite F.
      set (n := DayFromYear (1900 + getFullYear d) + _ + _ - 1).
      assert (Hn : DayFromYear (1900 + getFullYear d) <= n).
      { subst n.
        assert (0 <= monthStart (getMonth d) (InLeapYear (1900 + getFullYear d))).
        { pose proof (monthStart_lt 0 (InLeapYear (1900 + getFullYear d)) ltac:(lia)).
          assert (C : getMonth d = 0 \/ 1 <= getMonth d) by lia.
          destruct C as [-> | C]; [reflexivity|].
          unfold monthStart. destruct (Z.leb_spec (getMonth d) 0); [lia|].
          destruct (InLeapYear (1900 + getFullYear d));
            repeat match goal with
                   | |- context [?a =? ?b] => destruct (Z.eqb_spec a b)
                   end; lia. }
        lia. }
      pose proof (YearFromDay_spec n) as S.
      destruct (Z_lt_ge_dec (YearFromDay n) (1900 + getFullYear d)) as [L|G];
        [|lia].
      pose proof (DayFromYear_mono (YearFromDay n + 1) (1900 + getFullYear d)
                    ltac:(lia)). lia. }
    split; [exact G|]. intros E.
    destruct (fields_of_Day _ _ E) as (Y' & _). lia.
  - intros b. split.
    + intros E. pose proof (fields_of_formatDate d) as A.
      rewrite E, fields_of_formatDate in A. injection A as A1 A2 A3.
      apply same_fields; lia.
    + intros E. destruct (fields_of_Day _ _ E) as (A1 & A2 & A3 & _).
      unfold formatDate. rewrite A1, A2, A3. reflexivity.
Qed.

(** X16: for a date written by [formatDate] whose year is not between 0 and
    99, [getEstadoFechaPila] counts the days from today's day to the date's
    day and reports "overdue" for a date before today, "warning" from today
    to ten days ahead and "normal" beyond, never "success"; its warnings are
    those of the payment calculator's provisional status. *)
Theorem X16_getEstadoFechaPila_of_a_written_date (now d : Date) :
  ~ (0 <= getFullYear d <= 99) ->
  let k := Day d - Day now in
  let r := getEstadoFechaPila now (formatDate d) in
  EstadoFecha.diasRestantes r = Some k
  /\ (EstadoFecha.estado r = EstadoFecha.overdue <-> k < 0)
  /\ (EstadoFecha.estado r = EstadoFecha.warning <-> 0 <= k <= 10)
  /\ (EstadoFecha.estado r = EstadoFecha.normal <-> 10 < k)
  /\ EstadoFecha.estado r <> EstadoFecha.success
  /\ (EstadoFecha.estado r = EstadoFecha.warning
      <-> provisionalStatus now d = warning)
  /\ EstadoFecha.mensaje r
     = if k <? 0 then ("Vencida hace " ++ toString (- k) ++ " días")%string
       else if k =? 0 then "Vence hoy"%string
       else if k <=? 10 then ("Vence en " ++ toString k ++ " días")%string
       else ("Faltan " ++ toString k ++ " días")%string.
Proof.
  intros Y k r. subst r. unfold getEstadoFechaPila.
  rewrite (parseDate_formatDate_day d Y), calcularDiasHastaFecha_days.
  cbn [fst]. rewrite Day_setHours0. fold k. cbv zeta.
  unfold provisionalStatus. cbv zeta. fold k.
  destruct (Z.ltb_spec k 0) as [L|L].
  - cbn [EstadoFecha.estado EstadoFecha.mensaje EstadoFecha.diasRestantes].
    rewrite Z.abs_neq by lia.
    destruct (Z.leb_spec 0 k); [lia|]. cbn [andb].
    repeat split; try discriminate; try lia; try reflexivity.
  - destruct (Z.eqb_spec k 0) as [E|E].
    + cbn [EstadoFecha.estado EstadoFecha.mensaje EstadoFecha.diasRestantes].
      destruct (Z.leb_spec 0 k); [|lia]. destruct (Z.leb_spec k 10); [|lia].
      cbn [andb]. repeat split; try discriminate; try lia; try reflexivity.
    + destruct (Z.leb_spec k 10) as [T|T];
        cbn [EstadoFecha.estado EstadoFecha.mensaje EstadoFecha.diasRestantes];
        destruct (Z.leb_spec 0 k); try lia; cbn [andb];
        repeat split; try discriminate; try lia; try reflexivity.
Qed.

(** X16, for a date five days ahead. *)
Lemma X16_getEstadoFechaPila_witness :
  let r := getEstadoFechaPila (newDate 2025 0 10) (formatDate (newDate 2025 0 15)) in
  EstadoFecha.diasRestantes r = Some 5
  /\ EstadoFecha.estado r = EstadoFecha.warning
  /\ EstadoFecha.mensaje r = "Vence en 5 días"%string.
Proof.
  pose proof (X16_getEstadoFechaPila_of_a_written_date
                (newDate 2025 0 10) (newDate 2025 0 15)) as H.
  cbv zeta in H |- *.
  destruct H as (A & _ & (_ & B) & _ & _ & _ & C);
    [vm_compute; intros [_ H]; apply H; reflexivity|].
  split; [exact A|]. split; [apply B; vm_compute; split; discriminate|].
  rewrite C. vm_compute. reflexivity.
Defined.

(** X17: the dates that the route answers with are the due dates of the
    calculator, each with the days from today's day to its day.  A due date
    before today is "normal"; the first due date not before today is
    "warning" when it is at most ten days ahead, and keeps the "success" of
    the calculator only when it is more than ten days ahead; the due dates
    after it keep their provisional status. *)
Theorem X17_statuses_of_the_route (now now' : Date) (nit : Nit)
        (fechaInicio fechaFin : Date) :
  Day now' = Day now ->
  let hoy := setHours0 now in
  let ds := dueDates fechaInicio fechaFin (getDiasHabilesPago nit) in
  let r := Route.fechasDeRespuesta now now' nit fechaInicio fechaFin in
  map (fun x => fecha (Route.fechaCorte x)) r = map formatDate ds
  /\ map Route.diasRestantes r = map (fun d => Some (Day d - Day now)) ds
  /\ ((Forall (fun d => d < hoy) ds
       /\ map (fun x => estado (Route.fechaCorte x)) r = map (fun _ => normal) ds)
      \/ exists before d after,
           ds = before ++ d :: after
           /\ Forall (fun x => x < hoy) before
           /\ hoy <= d
           /\ map (fun x => estado (Route.fechaCorte x)) r
              = map (fun _ => normal) before
                ++ (if Day d - Day now <=? 10 then warning else success)
                   :: map (provisionalStatus now) after).
Proof.
  intros En hoy ds r. subst r. unfold Route.fechasDeRespuesta. cbv zeta.
  rewrite calcularFechasPagoPila_spec, calcularFechasConDiasHabiles_spec.
  fold ds. fold hoy.
  assert (F : Forall (fun d => TimeWithinDay d = 0 /\ ~ (0 <= getFullYear d <= 99)) ds).
  { apply Forall_forall. intros d I. apply dueDates_fields in I. tauto. }
  assert (F' : Forall (fun d => ~ (0 <= getFullYear d <= 99)) ds).
  { eapply Forall_impl; [|exact F]. cbv beta. tauto. }
  destruct (markFirstFuture_spec hoy now 1 ds F) as (Hf & _ & Hs).
  cbv zeta in Hf, Hs.
  set (r0 := markFirstFuture hoy (provisionalEntries now 1 ds)) in *.
  destruct (fechasConEstadoActualizado_spec now' r0 ds F' Hf) as (A & B & C).
  rewrite En in B, C.
  split; [exact A|]. split; [exact B|].
  assert (P : forall l : list Date, Forall (fun x : Date => x < hoy) l ->
                map (fun p => updatedStatus (Day (fst p) - Day now) (snd p))
                    (combine l (map (provisionalStatus now) l))
                = map (fun _ : Date => normal) l).
  { intros l Fl. rewrite combine_map_r, map_map. cbn [fst snd].
    apply map_ext_in. intros x Hx. rewrite updatedStatus_provisional.
    apply provisionalStatus_past. exact (proj1 (Forall_forall _ _) Fl x Hx). }
  assert (Q : forall l : list Date,
                map (fun p => updatedStatus (Day (fst p) - Day now) (snd p))
                    (combine l (map (provisionalStatus now) l))
                = map (provisionalStatus now) l).
  { intros l. rewrite combine_map_r, map_map. cbn [fst snd].
    apply map_ext. intros x. apply updatedStatus_provisional. }
  destruct Hs as [[Fa Hs] | (before & x & after & E & Fb & Lx & Hs)].
  - left. split; [exact Fa|]. rewrite C, Hs. apply P, Fa.
  - right. exists before, x, after.
    split; [exact E|]. split; [exact Fb|]. split; [exact Lx|].
    rewrite C, Hs, E.
    rewrite combine_app_eq by (rewrite length_map; reflexivity).
    rewrite map_app. cbn [combine map fst snd].
    rewrite (P before Fb), (Q after). f_equal. f_equal.
    unfold updatedStatus. pose proof (Day_not_past now x Lx).
    destruct (Z.ltb_spec (Day x - Day now) 0); [lia | reflexivity].
Qed.

(** X17, for the NIT "12345600" and a visit in the first quarter of 2025,
    asked on January 1: the first due date, two days ahead, is a warning,
    and no entry is "success". *)
Lemma X17_statuses_witness :
  map (fun x => (fecha (Route.fechaCorte x), estado (Route.fechaCorte x),
                 Route.diasRestantes x))
      (Route.fechasDeRespuesta (newDate 2025 0 1) (newDate 2025 0 1 + 3600000)
                               (NitString "12345600")
                               (newDate 2025 0 1) (newDate 2025 2 31))
  = [("03/01/2025", warning, Some 2); ("04/02/2025", normal, Some 34);
     ("04/03/2025", normal, Some 62)]%string
  /\ map Route.diasRestantes
         (Route.fechasDeRespuesta (newDate 2025 0 1) (newDate 2025 0 1 + 3600000)
                                  (NitString "12345600")
                                  (newDate 2025 0 1) (newDate 2025 2 31))
     = map (fun d => Some (Day d - Day (newDate 2025 0 1)))
           (dueDates (newDate 2025 0 1) (newDate 2025 2 31)
                     (getDiasHabilesPago (NitString "12345600"))).
Proof.
  split; [vm_compute; reflexivity|].
  apply (X17_statuses_of_the_route (newDate 2025 0 1) (newDate 2025 0 1 + 3600000)
           (NitString "12345600") (newDate 2025 0 1) (newDate 2025 2 31)).
  vm_compute. reflexivity.
Defined.

(** X18: the dates given when the calculation fails are the tenths of the
    months from the month of [inicio] to the month of [fin] that lie from
    [inicio] to [fin], numbered 1, 2, 3, ...; the first is "success"
    whatever today's date, the others "normal".  Every tenth of a month that
    lies from [inicio] to [fin], in a year not between 0 and 99, is
    listed. *)
Theorem X18_default_dates (inicio fin : Date) :
  let ds := tenths inicio fin in
  let r := Route.generarFechasPredeterminadas inicio fin in
  map fecha r = map formatDate ds
  /\ map id r = map Z.of_nat (seq 1 (List.length r))
  /\ map estado r
     = match ds with
       | [] => []
       | _ :: rest => success :: map (fun _ => normal) rest
       end
  /\ Forall (fun d => inicio <= d <= fin /\ TimeWithinDay d = 0 /\ getDate d = 10) ds
  /\ forall d,
       TimeWithinDay d = 0 -> getDate d = 10 -> inicio <= d <= fin ->
       ~ (0 <= getFullYear d <= 99) ->
       In d ds /\ In (formatDate d) (map fecha r).
Proof.
  intros ds r.
  assert (E : r = match normalEntries 1 ds with
                  | f :: rest => mkFechaCorte (id f) (fecha f) success (mesTexto f) :: rest
                  | [] => []
                  end).
  { subst r ds. unfold Route.generarFechasPredeterminadas, tenths, monthsOfVisit.
    cbv zeta.
    rewrite (predeterminadasLoop_spec _ inicio fin _ _ 1 []
               (getMonth_range inicio) eq_refl).
    reflexivity. }
  assert (Hf : map fecha r = map formatDate ds).
  { rewrite E, <- (normalEntries_fecha 1 ds).
    destruct (normalEntries 1 ds); reflexivity. }
  assert (Hl : List.length r = List.length ds).
  { rewrite <- (length_map fecha), Hf, length_map. reflexivity. }
  split; [exact Hf|]. split; [|split; [|split]].
  - rewrite Hl. transitivity (map id (normalEntries 1 ds)).
    + rewrite E. destruct (normalEntries 1 ds); reflexivity.
    + rewrite normalEntries_id, <- seq_shift, map_map. apply map_ext.
      intros i. lia.
  - rewrite E. clear. clearbody ds. destruct ds as [|d ds']; [reflexivity|].
    cbn [normalEntries map estado]. rewrite normalEntries_estado. reflexivity.
  - apply Forall_forall. intros d Hd. unfold ds, tenths in Hd.
    apply in_flat_map in Hd. destruct Hd as ([y m] & Hin & Hd).
    apply (proj1 (monthsOfVisit_In _ _ _ _)) in Hin. destruct Hin as (Hm & _).
    unfold tenthOfMonth in Hd. cbn [fst snd] in Hd. cbv zeta in Hd.
    destruct (Z.leb_spec inicio (newDate y m 10)) as [L1|L1];
      [|destruct Hd].
    destruct (Z.leb_spec (newDate y m 10) fin) as [L2|L2];
      [|destruct Hd].
    destruct Hd as [<- | []].
    destruct (tenth_fields y m Hm) as (T0 & _ & _ & D10). tauto.
  - intros d T0 D10 Hv Y.
    assert (Hin : In d ds).
    { unfold ds, tenths. apply in_flat_map.
      exists (getFullYear d, getMonth d). split.
      - apply (proj2 (monthsOfVisit_In _ _ _ _)).
        pose proof (monthIndex_mono inicio d ltac:(lia)) as M1.
        pose proof (monthIndex_mono d fin ltac:(lia)) as M2.
        unfold monthIndex in M1, M2. pose proof (getMonth_range d). lia.
      - unfold tenthOfMonth. cbn [fst snd]. cbv zeta.
        assert (Ed : newDate (getFullYear d) (getMonth d) 10 = d).
        { unfold newDate. rewrite (fullYearOf_id _ Y).
          rewrite <- D10. replace (getDate d) with (getDate d + 0) by lia.
          unfold getFullYear, getMonth, getDate. rewrite MakeDay_fields.
          rewrite (time_split d) at 2. lia. }
        rewrite Ed.
        destruct (Z.leb_spec inicio d); [|lia].
        destruct (Z.leb_spec d fin); [|lia]. left. reflexivity. }
    split; [exact Hin|]. rewrite Hf. apply in_map. exact Hin.
Qed.




(** X21: [formatDate] writes the day and the month with two digits each:
    the string is the day, a slash, the month, a slash and the year, and for
    a year from 1000 to 9999 it has ten characters, with the slashes third
    and sixth. *)
Theorem X21_formatDate_shape (d : Date) :
  (exists dia mes anio,
     formatDate d = (dia ++ "/" ++ mes ++ "/" ++ anio)%string
     /\ String.length dia = 2%nat /\ String.length mes = 2%nat
     /\ allDigits dia = true /\ allDigits mes = true
     /\ NumberOf dia = Some (getDate d)
     /\ NumberOf mes = Some (getMonth d + 1)
     /\ anio = toString (getFullYear d))
  /\ (1000 <= getFullYear d <= 9999 ->
      String.length (formatDate d) = 10%nat
      /\ String.get 2 (formatDate d) = Some "/"%char
      /\ String.get 5 (formatDate d) = Some "/"%char).
Proof.
  pose proof (getDate_range d) as RD. pose proof (getMonth_range d) as RM.
  pose proof (padded_length (getDate d) ltac:(lia)) as L1.
  pose proof (padded_length (getMonth d + 1) ltac:(lia)) as L2.
  split.
  - exists (padStart2 (toString (getDate d))),
           (padStart2 (toString (getMonth d + 1))),
           (toString (getFullYear d)).
    split; [reflexivity|]. split; [exact L1|]. split; [exact L2|].
    rewrite !allDigits_padStart2, !allDigits_toString by lia.
    destruct (padded_field (getDate d)) as [_ N1]; [lia|].
    destruct (padded_field (getMonth d + 1)) as [_ N2]; [lia|].
    repeat split; assumption.
  - intros Y. unfold formatDate. cbv zeta.
    destruct (getFullYear d) as [|p|p] eqn:E; try lia.
    pose proof (toString_pos_digits p 4) as A.
    pose proof (toString_pos_digits p 5) as B.
    change (10 ^ (Z.of_nat 4 - 1)) with 1000 in A.
    change (10 ^ (Z.of_nat 5 - 1)) with 10000 in B.
    assert (L3 : String.length (toString (Z.pos p)) = 4%nat).
    { assert (4 <= String.length (toString (Z.pos p)))%nat by (apply A; lia).
      destruct (Nat.le_gt_cases 5 (String.length (toString (Z.pos p)))) as [G|G];
        [apply (proj1 B) in G; lia | lia]. }
    revert L1 L2 L3.
    generalize (padStart2 (toString (getDate d))).
    generalize (padStart2 (toString (getMonth d + 1))).
    generalize (toString (Z.pos p)).
    intros a m dd L1 L2 L3.
    destruct dd as [|c1 [|c2 [|]]]; try discriminate L1.
    destruct m as [|c3 [|c4 [|]]]; try discriminate L2.
    destruct a as [|c5 [|c6 [|c7 [|c8 [|]]]]]; try discriminate L3.
    repeat split.
Qed.

(** X22: when the visit ends before it starts there is no due date: the
    calculator returns no entry, and neither does
    [generarFechasPredeterminadas]. *)
Theorem X22_no_dates_for_an_empty_visit (now : Date) (nit : Nit)
        (inicioVisita finVisita : Date) :
  finVisita < inicioVisita ->
  calcularFechasPagoPila now nit inicioVisita finVisita = []
  /\ Route.generarFechasPredeterminadas inicioVisita finVisita = [].
Proof.
  intros H. split.
  - apply (map_eq_nil fecha). rewrite calcularFechasPagoPila_fecha.
    destruct (dueDates inicioVisita finVisita (getDiasHabilesPago nit))
      as [|d ds] eqn:E; [reflexivity|exfalso].
    assert (I : In d (dueDates inicioVisita finVisita (getDiasHabilesPago nit)))
      by (rewrite E; left; reflexivity).
    apply dueDates_fields in I. lia.
  - unfold Route.generarFechasPredeterminadas. cbv zeta.
    rewrite (predeterminadasLoop_spec _ inicioVisita finVisita _ _ 1 []
               (getMonth_range inicioVisita) eq_refl).
    cbn [List.app].
    destruct (flat_map (tenthOfMonth inicioVisita finVisita) _) as [|d ds] eqn:E;
      [reflexivity|exfalso].
    assert (I : In d (flat_map (tenthOfMonth inicioVisita finVisita)
                        (monthsFrom
                           (monthsLeft (getFullYear finVisita) (getMonth finVisita)
                              (getFullYear inicioVisita) (getMonth inicioVisita))
                           (getFullYear inicioVisita) (getMonth inicioVisita))))
      by (rewrite E; left; reflexivity).
    apply in_flat_map in I. destruct I as (ym & _ & I).
    unfold tenthOfMonth in I. cbv zeta in I.
    destruct (Z.leb_spec inicioVisita (newDate (fst ym) (snd ym) 10));
      [|destruct I].
    destruct (Z.leb_spec (newDate (fst ym) (snd ym) 10) finVisita);
      [|destruct I]. lia.
Qed.

(** X22, for a visit from 2025-03-31 back to 2025-01-01. *)
Lemma X22_empty_visit_witness :
  calcularFechasPagoPila (newDate 2025 0 1) (NitString "900123456")
                         (newDate 2025 2 31) (newDate 2025 0 1) = [].
Proof.
  apply (X22_no_dates_for_an_empty_visit (newDate 2025 0 1)
           (NitString "900123456") (newDate 2025 2 31) (newDate 2025 0 1)).
  vm_compute. reflexivity.
Defined.


(** X24: the entries of the payment calculator depend on the clock only
    through the day it shows. *)
Theorem X24_same_day_same_entries (now now' : Date) (nit : Nit)
        (inicioVisita finVisita : Date) :
  Day now = Day now' ->
  calcularFechasPagoPila now nit inicioVisita finVisita
  = calcularFechasPagoPila now' nit inicioVisita finVisita.
Proof.
  intros E. rewrite !calcularFechasPagoPila_spec, !calcularFechasConDiasHabiles_spec.
  unfold setHours0. rewrite E.
  rewrite (provisionalEntries_same_day now now' _ _ E). reflexivity.
Qed.

(** X24, at midnight and at noon of 2025-01-01. *)
Lemma X24_same_day_witness :
  calcularFechasPagoPila (newDate 2025 0 1) (NitString "12345600")
                         (newDate 2025 0 1) (newDate 2025 2 31)
  = calcularFechasPagoPila (newDate 2025 0 1 + 12 * 3600000) (NitString "12345600")
                           (newDate 2025 0 1) (newDate 2025 2 31).
Proof.
  apply (X24_same_day_same_entries (newDate 2025 0 1) (newDate 2025 0 1 + 12 * 3600000)).
  vm_compute. reflexivity.
Defined.
